(** * FinStat diagnostic engine: extraction, classification and coherence

    A shallow embedding of the metric extractors
    ([extractors/metrica_m001.py] ... [metrica_m005.py]) and of the
    orchestrator ([extractors/extraer_todas_metricas.py]).

    Conventions of the embedding.
    - Python numbers (int and float alike) are exact rationals [Q].  Every
      finite binary64 value is a rational, so the band and rule boundaries
      are the ones of the source; rounding, overflow, infinities and NaN
      are not represented.  What depends on them (whether a division or a
      format raises [OverflowError], whether a quotient underflows to zero,
      a comparison within rounding distance of its bound) is stated for
      magnitudes bounded by [Py.acotado] or [M002.exacto] and with a margin
      at the bound, and what is said of a run is said of the report it
      returns, when it returns one.
    - A Python [str] is a [string], one character per element (text whose
      code points are below 256).
    - A function that can raise returns a [result]; [print] calls are
      dropped, except that formatting a value with a numeric format
      specification is kept as the check it performs on the value.
    - [datetime.now()] is a parameter [ahora]. *)

From Stdlib Require Import QArith Qabs Lia Lqa Ascii String.
From stdpp Require Import base option list strings gmap.

Set Warnings "-register-all,-clear-no-such-hyp".
Local Open Scope Q_scope.

(** * Part I: the model *)

(** ** Python values, exceptions and arithmetic *)

Module Py.

Inductive exn : Type :=
| ZeroDivisionError
| TypeError
| ValueError
| IndexError
| KeyError (k : string)
| OtherError (msg : string).

Inductive result (A : Type) : Type :=
| Ok (a : A)
| Raise (e : exn).
Arguments Ok {A} a.
Arguments Raise {A} e.

#[global] Instance result_ret : MRet result := fun _ a => Ok a.
#[global] Instance result_bind : MBind result := fun _ _ f r =>
  match r with
  | Ok a => f a
  | Raise e => Raise e
  end.

Definition raises {A} (r : result A) : Prop := ∃ e, r = Raise e.

(** JSON-like values: what the parsers put in their dictionaries and what
    [to_dict] builds.  A dictionary is an association list in insertion
    order; lookup takes the first binding of the key. *)
Inductive value : Type :=
| VNone
| VNum (q : Q)
| VStr (s : string)
| VDict (d : list (string * value)).

Abbreviation dict := (list (string * value)).

Definition Qlt_bool (x y : Q) : bool := negb (Qle_bool y x).

(** [bool(v)] *)
Definition truthy (v : value) : bool :=
  match v with
  | VNone => false
  | VNum q => negb (Qeq_bool q 0)
  | VStr s => negb (String.eqb s "")
  | VDict d => match d with [] => false | _ => true end
  end.

Fixpoint lookup_key (k : string) (d : dict) : option value :=
  match d with
  | [] => None
  | (k', v) :: d' => if String.eqb k k' then Some v else lookup_key k d'
  end.

(** [d[k]] *)
Definition getitem (d : dict) (k : string) : result value :=
  match lookup_key k d with
  | Some v => Ok v
  | None => Raise (KeyError k)
  end.

(** [d.get(k)] and [d.get(k, default)] *)
Definition get (d : dict) (k : string) (default : value) : value :=
  match lookup_key k d with
  | Some v => v
  | None => default
  end.

(** [v[k]] on an arbitrary value *)
Definition subscript (v : value) (k : string) : result value :=
  match v with
  | VDict d => getitem d k
  | _ => Raise TypeError
  end.

(** [a / b].  The quotient is exact: that of two nonzero numbers is never
    zero, where in binary64 it can underflow to 0.0, and no operand is too
    large (see [acotado] below). *)
Definition div (a b : value) : result value :=
  match a, b with
  | VNum x, VNum y =>
      if Qeq_bool y 0 then Raise ZeroDivisionError else Ok (VNum (x / y))
  | _, _ => Raise TypeError
  end.

(** [a - b] *)
Definition sub (a b : value) : result value :=
  match a, b with
  | VNum x, VNum y => Ok (VNum (x - y))
  | _, _ => Raise TypeError
  end.

(** [a * b] on numbers *)
Definition mul (a b : value) : result value :=
  match a, b with
  | VNum x, VNum y => Ok (VNum (x * y))
  | _, _ => Raise TypeError
  end.

(** [a + b]: numbers add, strings concatenate *)
Definition add (a b : value) : result value :=
  match a, b with
  | VNum x, VNum y => Ok (VNum (x + y))
  | VStr s, VStr t => Ok (VStr (s +:+ t))
  | _, _ => Raise TypeError
  end.

(** [f"{v:.2%}"], [f"{v:,.0f}"]: a numeric format specification accepts a
    number and raises on [None], a string or a dictionary.  The text
    produced is not modelled; the number is handed back.  An integer too
    large for binary64, on which Python raises [OverflowError], is not
    told apart (see [acotado] below). *)
Definition format_num (v : value) : result Q :=
  match v with
  | VNum q => Ok q
  | VNone => Raise TypeError
  | VStr _ => Raise ValueError
  | VDict _ => Raise TypeError
  end.

(** [abs(v)] *)
Definition abs (v : value) : result value :=
  match v with
  | VNum q => Ok (VNum (Qabs q))
  | _ => Raise TypeError
  end.

(** [a < b]: numbers by value, strings lexicographically, anything else
    raises. *)
Definition lt (a b : value) : result bool :=
  match a, b with
  | VNum x, VNum y => Ok (Qlt_bool x y)
  | VStr s, VStr t => Ok (String.ltb s t)
  | _, _ => Raise TypeError
  end.

(** [a <= b] *)
Definition le (a b : value) : result bool :=
  match a, b with
  | VNum x, VNum y => Ok (Qle_bool x y)
  | VStr s, VStr t => Ok (String.leb s t)
  | _, _ => Raise TypeError
  end.

(** [a > b] *)
Definition gt (a b : value) : result bool := lt b a.

(** [l[-k]] for [k >= 1] *)
Definition index_neg {A} (l : list A) (k : nat) : result A :=
  if (k <=? length l)%nat then
    match l !! (length l - k)%nat with
    | Some x => Ok x
    | None => Raise IndexError
    end
  else Raise IndexError.

(** [f"{v:<12}"]: a format specification that only aligns is accepted by a
    string and by a number, and raises [TypeError] on [None] and on a
    dictionary. *)
Definition format_align (v : value) : result unit :=
  match v with
  | VStr _ | VNum _ => Ok tt
  | VNone | VDict _ => Raise TypeError
  end.

(** A value used as the operand of a comparison with a number: anything
    but a number raises [TypeError]. *)
Definition num (v : value) : result Q :=
  match v with
  | VNum q => Ok q
  | _ => Raise TypeError
  end.

(** Numbers are exact rationals here, where Python computes with binary64
    floats and with integers of any size.  [acotado q] says that [q] is well
    inside the range of binary64: a float of that size is finite, an integer
    of that size converts to a float, and so does the sum of a few of them.
    Beyond it Python raises [OverflowError] where an integer meets a float
    or a numeric format specification, which [div] and [format_num] do not
    represent; what depends on that is stated for bounded numbers only. *)
Definition acotado (q : Q) : Prop := Qabs q <= inject_Z (2 ^ 1000).

(** The guard [not datos or not datos[k]] holds, decided without an
    exception: the parser returned [None], an empty dictionary, or one whose
    entry [k] is [None], zero or empty. *)
Definition sin_dato (k : string) (datos : option dict) : Prop :=
  datos = None ∨ datos = Some []
  ∨ ∃ d v, datos = Some d ∧ getitem d k = Ok v ∧ truthy v = false.

(** The guard [not datos or not datos.get(k)] holds: as above, or the key is
    not in the dictionary. *)
Definition sin_dato_get (k : string) (datos : option dict) : Prop :=
  datos = None ∨ ∃ d, datos = Some d ∧ truthy (get d k VNone) = false.

(** What a loop body hands back: go on with the next iteration, or leave the
    enclosing function with a [return]. *)
Inductive control (S R : Type) : Type :=
| Continue (s : S)
| Return (r : R).
Arguments Continue {S R} s.
Arguments Return {S R} r.

End Py.
Import Py.

(** ** Strings *)

Module Str.

(** [c.lower()] on one character: ASCII and Latin-1 capitals. *)
Definition lower_char (c : ascii) : ascii :=
  let n := nat_of_ascii c in
  if ((65 <=? n) && (n <=? 90))%nat
     || ((192 <=? n) && (n <=? 222) && negb (n =? 215))%nat
  then ascii_of_nat (n + 32) else c.

(** [s.lower()] *)
Fixpoint lower (s : string) : string :=
  match s with
  | EmptyString => EmptyString
  | String c t => String (lower_char c) (lower t)
  end.

(** [sub in s] *)
Fixpoint contiene (sub s : string) : bool :=
  String.prefix sub s ||
  match s with
  | EmptyString => false
  | String _ t => contiene sub t
  end.

(** [s[:n]] *)
Fixpoint take (n : nat) (s : string) : string :=
  match n, s with
  | S n', String c t => String c (take n' t)
  | _, _ => EmptyString
  end.

Definition newline : ascii := ascii_of_nat 10.

(** [s.split('\n')], [cur] being the piece read so far. *)
Fixpoint split_aux (cur s : string) : list string :=
  match s with
  | EmptyString => [cur]
  | String c t =>
      if Ascii.eqb c newline then cur :: split_aux EmptyString t
      else split_aux (cur +:+ String c EmptyString) t
  end.

Definition split_lines (s : string) : list string := split_aux EmptyString s.

(** [s.replace(',', '')] *)
Fixpoint sin_comas (s : string) : string :=
  match s with
  | EmptyString => EmptyString
  | String c t => if Ascii.eqb c "," then sin_comas t else String c (sin_comas t)
  end.

(** The class [\d] on characters below 256: the ten ASCII digits. *)
Definition es_digito (c : ascii) : bool :=
  let n := nat_of_ascii c in ((48 <=? n) && (n <=? 57))%nat.

(** The class [[\d,]]. *)
Definition es_clase (c : ascii) : bool := es_digito c || Ascii.eqb c ",".

(** Greedy [[\d,]*] at the head of [s]: what it takes and what is left. *)
Fixpoint span_clase (s : string) : string * string :=
  match s with
  | String c t =>
      if es_clase c then let '(g, r) := span_clase t in (String c g, r)
      else (EmptyString, s)
  | EmptyString => (EmptyString, EmptyString)
  end.

(** An optional closing parenthesis, [\)?]. *)
Definition tras_cierre (s : string) : string :=
  match s with
  | String c t => if Ascii.eqb c ")" then t else s
  | EmptyString => s
  end.

(** [([\d,]+)\)?] at the head of [s]: the group and the rest. *)
Definition match_grupo (s : string) : option (string * string) :=
  let '(g, r) := span_clase s in
  match g with
  | EmptyString => None
  | _ => Some (g, tras_cierre r)
  end.

(** [\(?([\d,]+)\)?] at the head of [s]: the optional opening parenthesis
    is tried first and given up when the group does not follow it. *)
Definition match_patron (s : string) : option (string * string) :=
  match s with
  | String c t =>
      if Ascii.eqb c "(" then
        match match_grupo t with
        | Some m => Some m
        | None => match_grupo s
        end
      else match_grupo s
  | EmptyString => None
  end.

(** [re.findall(patron, s)]: leftmost matches, none overlapping; where the
    pattern does not match the scan moves one character on.  [fuel] bounds
    the number of scan steps. *)
Fixpoint findall_fuel (fuel : nat) (s : string) : list string :=
  match fuel with
  | O => []
  | S fuel' =>
      match s with
      | EmptyString => []
      | String _ t =>
          match match_patron s with
          | Some (g, r) => g :: findall_fuel fuel' r
          | None => findall_fuel fuel' t
          end
      end
  end.

Definition findall (s : string) : list string :=
  findall_fuel (String.length s) s.

(** The maximal runs of digits and commas of a line, from left to right:
    the "substrings consisting of digits and thousands separators" of the
    specification.  [g] is the run being read. *)
Definition emitir (g : string) : list string :=
  match g with
  | EmptyString => []
  | _ => [g]
  end.

Fixpoint grupos_aux (g s : string) : list string :=
  match s with
  | EmptyString => emitir g
  | String c t =>
      if es_clase c then grupos_aux (g +:+ String c EmptyString) t
      else emitir g ++ grupos_aux EmptyString t
  end.

Definition grupos (s : string) : list string := grupos_aux EmptyString s.

(** [s] is made of digits and commas only. *)
Fixpoint toda_clase (s : string) : bool :=
  match s with
  | EmptyString => true
  | String c t => es_clase c && toda_clase t
  end.

(** Value of a string of ASCII digits read in base ten; [None] when a
    character is not a digit. *)
Fixpoint valor_decimal (acc : N) (s : string) : option N :=
  match s with
  | EmptyString => Some acc
  | String c t =>
      if es_digito c
      then valor_decimal (acc * 10 + (N_of_ascii c - 48))%N t
      else None
  end.

(** [float(s)] on the strings that reach it here (digits only, possibly
    none): [None] stands for [ValueError].  The value is the decimal number
    itself; binary64 rounds it from 2^53 on and gives [inf] beyond its
    range (see [M002.exacto]). *)
Definition float (s : string) : option Q :=
  match s with
  | EmptyString => None
  | _ => (fun n => inject_Z (Z.of_N n)) <$> valor_decimal 0%N s
  end.

(** A line with every character that is neither a digit nor a comma
    replaced by a space. *)
Fixpoint solo_clase (s : string) : string :=
  match s with
  | EmptyString => EmptyString
  | String c t => String (if es_clase c then c else " "%char) (solo_clase t)
  end.

(** The magnitude read from a run: separators stripped, then [float]. *)
Definition magnitud (g : string) : option Q := float (sin_comas g).

End Str.

(** ** Metric records, classifiers and extractors *)

Module M001.

Record MetricaM001 : Type := {
  provision_2024 : value;
  provision_2023 : value;
  cartera_2024 : value;
  cartera_2023 : value;
  ratio_2024 : value;
  ratio_2023 : value;
  nivel_riesgo : string;
  pagina_fuente : value;
  fecha_extraccion : string;
  id : string;
  nombre : string;
  cambio_yoy : value
}.

(** The generated [__init__] followed by [__post_init__]. *)
Definition nueva (provision_2024 provision_2023 cartera_2024 cartera_2023
    ratio_2024 ratio_2023 : value) (nivel_riesgo : string)
    (pagina_fuente : value) (fecha_extraccion : string) : result MetricaM001 :=
  cambio ← sub ratio_2024 ratio_2023;
  Ok {| provision_2024 := provision_2024;
        provision_2023 := provision_2023;
        cartera_2024 := cartera_2024;
        cartera_2023 := cartera_2023;
        ratio_2024 := ratio_2024;
        ratio_2023 := ratio_2023;
        nivel_riesgo := nivel_riesgo;
        pagina_fuente := pagina_fuente;
        fecha_extraccion := fecha_extraccion;
        id := "M001";
        nombre := "Provisión/Cartera Total";
        cambio_yoy := cambio |}.

Definition to_dict (self : MetricaM001) : result value :=
  Ok (VDict [
    ("id", VStr (id self));
    ("nombre", VStr (nombre self));
    ("valores", VDict [
      ("2024", VDict [
        ("provision", provision_2024 self);
        ("cartera", cartera_2024 self);
        ("ratio", ratio_2024 self)]);
      ("2023", VDict [
        ("provision", provision_2023 self);
        ("cartera", cartera_2023 self);
        ("ratio", ratio_2023 self)])]);
    ("analisis", VDict [
      ("cambio_yoy_pp", cambio_yoy self);
      ("nivel_riesgo", VStr (nivel_riesgo self))]);
    ("metadata", VDict [
      ("pagina_fuente", pagina_fuente self);
      ("fecha_extraccion", VStr (fecha_extraccion self))])]).

Definition evaluar_nivel_riesgo (ratio : Q) : string :=
  if Qlt_bool ratio 0.04 then "BAJO"
  else if Qlt_bool ratio 0.07 then "MEDIO"
  else if Qlt_bool ratio 0.10 then "ALTO"
  else "CRÍTICO".

Section Extractor.

(** [parsers.extraer_tabla_inteligente.extraer_tabla_provision]: the parser is
    not part of the sources; it yields [None] or a dictionary, or raises. *)
Variable extraer_tabla_provision : string → result (option dict).
Variable ahora : string.

Definition extraer_metrica_m001 (ruta_pdf : string)
    : result (option MetricaM001) :=
  datos ← extraer_tabla_provision ruta_pdf;
  match datos with
  | None => Ok None
  | Some datos =>
      if negb (truthy (VDict datos)) then Ok None else
      p ← getitem datos "provision_2024";
      if negb (truthy p) then Ok None else
      c ← getitem datos "cartera_2024";
      if negb (truthy c) then Ok None else
      (* Paso 2 *)
      p24 ← getitem datos "provision_2024";
      c24 ← getitem datos "cartera_2024";
      ratio_2024 ← div p24 c24;
      p23 ← getitem datos "provision_2023";
      c23 ← getitem datos "cartera_2023";
      ratio_2023 ← div p23 c23;
      _ ← format_num ratio_2024;
      _ ← format_num ratio_2023;
      (* Paso 3 *)
      r ← num ratio_2024;
      let nivel_riesgo := evaluar_nivel_riesgo r in
      (* Paso 4 *)
      a1 ← getitem datos "provision_2024";
      a2 ← getitem datos "provision_2023";
      a3 ← getitem datos "cartera_2024";
      a4 ← getitem datos "cartera_2023";
      a5 ← getitem datos "pagina_encontrada";
      metrica ← nueva a1 a2 a3 a4 ratio_2024 ratio_2023 nivel_riesgo a5 ahora;
      Ok (Some metrica)
  end.

End Extractor.

(** A record built from the located values [p24 p23 c24 c23]. *)
Definition de_valores (p24 p23 c24 c23 : Q) (m : MetricaM001) : Prop :=
  provision_2024 m = VNum p24 ∧ provision_2023 m = VNum p23
  ∧ cartera_2024 m = VNum c24 ∧ cartera_2023 m = VNum c23
  ∧ ¬ p24 == 0 ∧ ¬ c24 == 0 ∧ ¬ c23 == 0
  ∧ ratio_2024 m = VNum (p24 / c24)
  ∧ ratio_2023 m = VNum (p23 / c23)
  ∧ cambio_yoy m = VNum (p24 / c24 - p23 / c23)
  ∧ nivel_riesgo m = evaluar_nivel_riesgo (p24 / c24).

(** The parser gave no usable current-period figures: the test
    [not datos or not datos['provision_2024'] or not datos['cartera_2024']]
    holds, decided without an exception. *)
Definition sin_datos_actuales (datos : option dict) : Prop :=
  datos = None ∨ datos = Some []
  ∨ ∃ d, datos = Some d
         ∧ ((∃ v, getitem d "provision_2024" = Ok v ∧ truthy v = false)
            ∨ (∃ v w, getitem d "provision_2024" = Ok v ∧ truthy v = true
                      ∧ getitem d "cartera_2024" = Ok w ∧ truthy w = false)).

End M001.

Module M002.

Record MetricaM002 : Type := {
  utilidad_neta_2024 : value;
  utilidad_neta_2023 : value;
  patrimonio_2024 : value;
  patrimonio_2023 : value;
  roe_2024 : value;
  roe_2023 : value;
  nivel_desempeno : string;
  pagina_fuente : value;
  fecha_extraccion : string;
  id : string;
  nombre : string;
  cambio_yoy : value
}.

(** The generated [__init__] followed by [__post_init__]. *)
Definition nueva (utilidad_neta_2024 utilidad_neta_2023 patrimonio_2024
    patrimonio_2023 roe_2024 roe_2023 : value) (nivel_desempeno : string)
    (pagina_fuente : value) (fecha_extraccion : string) : result MetricaM002 :=
  cambio ← sub roe_2024 roe_2023;
  Ok {| utilidad_neta_2024 := utilidad_neta_2024;
        utilidad_neta_2023 := utilidad_neta_2023;
        patrimonio_2024 := patrimonio_2024;
        patrimonio_2023 := patrimonio_2023;
        roe_2024 := roe_2024;
        roe_2023 := roe_2023;
        nivel_desempeno := nivel_desempeno;
        pagina_fuente := pagina_fuente;
        fecha_extraccion := fecha_extraccion;
        id := "M002";
        nombre := "ROE (Return on Equity)";
        cambio_yoy := cambio |}.

Definition to_dict (self : MetricaM002) : result value :=
  Ok (VDict [
    ("id", VStr (id self));
    ("nombre", VStr (nombre self));
    ("valores", VDict [
      ("2024", VDict [
        ("utilidad_neta", utilidad_neta_2024 self);
        ("patrimonio", patrimonio_2024 self);
        ("roe", roe_2024 self)]);
      ("2023", VDict [
        ("utilidad_neta", utilidad_neta_2023 self);
        ("patrimonio", patrimonio_2023 self);
        ("roe", roe_2023 self)])]);
    ("analisis", VDict [
      ("cambio_yoy_pp", cambio_yoy self);
      ("nivel_desempeno", VStr (nivel_desempeno self))]);
    ("metadata", VDict [
      ("pagina_fuente", pagina_fuente self);
      ("fecha_extraccion", VStr (fecha_extraccion self))])]).

Definition evaluar_desempeno (roe : Q) : string :=
  if Qlt_bool roe 0.05 then "BAJO"
  else if Qlt_bool roe 0.10 then "MEDIO"
  else if Qlt_bool roe 0.15 then "ALTO"
  else "EXCELENTE".

(** One turn of the loop over the matches: [numeros] is the list built so
    far, [float] failing is the [ValueError] caught by [continue]. *)
Definition agregar_numero (numeros : list Q) (m : string) : list Q :=
  let numero_str := Str.sin_comas m in
  match Str.float numero_str with
  | Some numero => if Qlt_bool 1000 numero then numeros ++ [numero] else numeros
  | None => numeros
  end.

Definition extraer_numeros_de_linea (linea : string) : list Q :=
  foldl agregar_numero [] (Str.findall linea).

(** The reading of the specification, "discard any magnitude below a fixed
    noise floor (the reference uses 1000)": a magnitude is kept unless it
    is below 1000. *)
Definition numeros_sobre_piso (linea : string) : list Q :=
  List.filter (fun n => Qle_bool 1000 n) (omap Str.magnitud (Str.grupos linea)).

(** The dictionary [datos] of the extractor: its five keys are fixed, so it
    is a record; each holds [None] or a number. *)
Record Datos : Type := {
  d_utilidad_neta_2024 : value;
  d_utilidad_neta_2023 : value;
  d_patrimonio_2024 : value;
  d_patrimonio_2023 : value;
  d_pagina_encontrada : value
}.

Definition datos_iniciales : Datos :=
  {| d_utilidad_neta_2024 := VNone; d_utilidad_neta_2023 := VNone;
     d_patrimonio_2024 := VNone; d_patrimonio_2023 := VNone;
     d_pagina_encontrada := VNone |}.

Definition num_pagina (n : nat) : value := VNum (inject_Z (Z.of_nat n)).

(** The block "Buscar Utilidad Neta". *)
Definition buscar_utilidad (numero_pagina : nat) (linea linea_lower : string)
    (datos : Datos) : result Datos :=
  if Str.contiene "utilidad neta" linea_lower || Str.contiene "net income" linea_lower then
    if negb (Str.contiene "total" (Str.take 20 linea_lower)) then
      let numeros := extraer_numeros_de_linea linea in
      if (2 <=? length numeros)%nat && negb (truthy (d_utilidad_neta_2024 datos)) then
        n2 ← index_neg numeros 2;
        n1 ← index_neg numeros 1;
        Ok {| d_utilidad_neta_2024 := VNum (Qabs n2);
              d_utilidad_neta_2023 := VNum (Qabs n1);
              d_patrimonio_2024 := d_patrimonio_2024 datos;
              d_patrimonio_2023 := d_patrimonio_2023 datos;
              d_pagina_encontrada := num_pagina numero_pagina |}
      else Ok datos
    else Ok datos
  else Ok datos.

(** The block "Buscar Patrimonio". *)
Definition buscar_patrimonio (linea linea_lower : string) (datos : Datos)
    : result Datos :=
  if Str.contiene "total patrimonio" linea_lower || Str.contiene "total equity" linea_lower then
    let numeros := extraer_numeros_de_linea linea in
    if (2 <=? length numeros)%nat && negb (truthy (d_patrimonio_2024 datos)) then
      n2 ← index_neg numeros 2;
      n1 ← index_neg numeros 1;
      Ok {| d_utilidad_neta_2024 := d_utilidad_neta_2024 datos;
            d_utilidad_neta_2023 := d_utilidad_neta_2023 datos;
            d_patrimonio_2024 := VNum (Qabs n2);
            d_patrimonio_2023 := VNum (Qabs n1);
            d_pagina_encontrada := d_pagina_encontrada datos |}
    else Ok datos
  else Ok datos.

(** [-0.10 < roe < 0.30] *)
Definition roe_razonable (roe : value) : result bool :=
  b1 ← lt (VNum (-0.10)) roe;
  if b1 : bool then lt roe (VNum 0.30) else Ok false.

(** The values kept after an implausible match: both 2024 entries are put
    back to [None]. *)
Definition descartar (datos : Datos) : Datos :=
  {| d_utilidad_neta_2024 := VNone;
     d_utilidad_neta_2023 := d_utilidad_neta_2023 datos;
     d_patrimonio_2024 := VNone;
     d_patrimonio_2023 := d_patrimonio_2023 datos;
     d_pagina_encontrada := d_pagina_encontrada datos |}.

(** The record built once the values are validated. *)
Definition construir (ahora : string) (datos : Datos) : result MetricaM002 :=
  suma ← add (d_patrimonio_2024 datos) (d_patrimonio_2023 datos);
  patrimonio_prom_2024 ← div suma (VNum 2);
  let patrimonio_prom_2023 := d_patrimonio_2023 datos in
  roe_2024 ← div (d_utilidad_neta_2024 datos) patrimonio_prom_2024;
  roe_2023 ← div (d_utilidad_neta_2023 datos) patrimonio_prom_2023;
  r ← num roe_2024;
  let nivel_desempeno := evaluar_desempeno r in
  nueva (d_utilidad_neta_2024 datos) (d_utilidad_neta_2023 datos)
        (d_patrimonio_2024 datos) (d_patrimonio_2023 datos)
        roe_2024 roe_2023 nivel_desempeno (d_pagina_encontrada datos) ahora.

(** The block "Si tenemos ambos, validar y salir". *)
Definition validar_y_salir (ahora : string) (datos : Datos)
    : result (control Datos MetricaM002) :=
  if truthy (d_utilidad_neta_2024 datos) && truthy (d_patrimonio_2024 datos) then
    roe ← div (d_utilidad_neta_2024 datos) (d_patrimonio_2024 datos);
    ok ← roe_razonable roe;
    if ok : bool then
      metrica ← construir ahora datos;
      Ok (Return metrica)
    else Ok (Continue (descartar datos))
  else Ok (Continue datos).

(** The body of [for linea in lineas]. *)
Definition procesar_linea (ahora : string) (numero_pagina : nat)
    (linea : string) (datos : Datos) : result (control Datos MetricaM002) :=
  let linea_lower := Str.lower linea in
  datos1 ← buscar_utilidad numero_pagina linea linea_lower datos;
  datos2 ← buscar_patrimonio linea linea_lower datos1;
  validar_y_salir ahora datos2.

(** [for linea in lineas: ...] *)
Fixpoint recorrer_lineas (ahora : string) (numero_pagina : nat)
    (lineas : list string) (datos : Datos)
    : result (control Datos MetricaM002) :=
  match lineas with
  | [] => Ok (Continue datos)
  | linea :: resto =>
      c ← procesar_linea ahora numero_pagina linea datos;
      match c with
      | Continue datos' => recorrer_lineas ahora numero_pagina resto datos'
      | Return m => Ok (Return m)
      end
  end.

(** [for numero_pagina, pagina in enumerate(pdf.pages, start=1): ...];
    a page is the outcome of [extract_text()], [None] when it has no text.
    Falling out of the loop is the final [return None]. *)
Fixpoint recorrer_paginas (ahora : string) (numero_pagina : nat)
    (paginas : list (option string)) (datos : Datos)
    : result (option MetricaM002) :=
  match paginas with
  | [] => Ok None
  | texto :: resto =>
      match texto with
      | None => recorrer_paginas ahora (S numero_pagina) resto datos
      | Some texto =>
          if negb (truthy (VStr texto))
          then recorrer_paginas ahora (S numero_pagina) resto datos
          else
            c ← recorrer_lineas ahora numero_pagina (Str.split_lines texto) datos;
            match c with
            | Continue datos' => recorrer_paginas ahora (S numero_pagina) resto datos'
            | Return m => Ok (Some m)
            end
      end
  end.

(** [existe] is [Path(ruta_pdf).exists()], [paginas] the pages of the opened
    document. *)
Definition extraer_metrica_m002 (ahora : string) (existe : bool)
    (paginas : list (option string)) : result (option MetricaM002) :=
  if negb existe then Ok None
  else recorrer_paginas ahora 1 paginas datos_iniciales.

(** The plausibility window of the preliminary ROE. *)
Definition razonable (roe : Q) : Prop := -0.10 < roe ∧ roe < 0.30.

(** A record holding the located values [u24 u23 p24 p23] and the two ROE
    computed from them. *)
Definition metrica_de (u24 u23 p24 p23 : Q) (m : MetricaM002) : Prop :=
  utilidad_neta_2024 m = VNum u24 ∧ utilidad_neta_2023 m = VNum u23
  ∧ patrimonio_2024 m = VNum p24 ∧ patrimonio_2023 m = VNum p23
  ∧ roe_2024 m = VNum (u24 / ((p24 + p23) / 2))
  ∧ roe_2023 m = VNum (u23 / p23)
  ∧ cambio_yoy m = VNum (u24 / ((p24 + p23) / 2) - u23 / p23).

(** What [extraer_metrica_m002] can return as a record: the values of a
    match whose preliminary ROE [u24 / p24] is plausible. *)
Definition retorno_ok (m : MetricaM002) : Prop :=
  ∃ u24 u23 p24 p23, razonable (u24 / p24) ∧ metrica_de u24 u23 p24 p23 m.

(** What the fields of [datos] can hold: nothing yet, or the magnitude of a
    token, which is above 1000. *)
Definition campo_ok (v : value) : Prop :=
  v = VNone ∨ ∃ q, v = VNum q ∧ 1000 < q.

Record datos_ok (d : Datos) : Prop := {
  ok_u24 : campo_ok (d_utilidad_neta_2024 d);
  ok_u23 : campo_ok (d_utilidad_neta_2023 d);
  ok_p24 : campo_ok (d_patrimonio_2024 d);
  ok_p23 : campo_ok (d_patrimonio_2023 d);
  ok_u : d_utilidad_neta_2024 d ≠ VNone → d_utilidad_neta_2023 d ≠ VNone;
  ok_p : d_patrimonio_2024 d ≠ VNone → d_patrimonio_2023 d ≠ VNone
}.

(** The scan state while the pages up to [hi] are read: besides [datos_ok],
    the page recorded with a located net income is one of those pages. *)
Record datos_pagina_ok (hi : nat) (d : Datos) : Prop := {
  dp_datos : datos_ok d;
  dp_pagina :
    d_utilidad_neta_2024 d ≠ VNone →
    ∃ k, d_pagina_encontrada d = num_pagina k ∧ (1 <= k <= hi)%nat
}.

(** A returned record in full: the four located magnitudes, each above
    1000, the two ROE, the label, the page and the timestamp. *)
Definition retorno_completo (ahora : string) (hi : nat) (m : MetricaM002)
    : Prop :=
  ∃ u24 u23 p24 p23 k,
    metrica_de u24 u23 p24 p23 m ∧ razonable (u24 / p24)
    ∧ 1000 < u24 ∧ 1000 < u23 ∧ 1000 < p24 ∧ 1000 < p23
    ∧ nivel_desempeno m = evaluar_desempeno (u24 / ((p24 + p23) / 2))
    ∧ pagina_fuente m = num_pagina k ∧ (1 <= k <= hi)%nat
    ∧ fecha_extraccion m = ahora.

(** An amount that binary64 holds exactly: an integer of at most 53 bits.
    The tokens of a line are made of digits and commas, so a located amount
    of up to fifteen digits is one. *)
Definition exacto (q : Q) : Prop :=
  ∃ z : Z, q == inject_Z z ∧ (Z.abs z <= 2 ^ 53)%Z.

(** The rest of the scan from inside a page: the lines of the page
    [numero_pagina] still to be read, then the pages after it. *)
Definition desde (ahora : string) (numero_pagina : nat) (lineas : list string)
    (resto : list (option string)) (datos : Datos)
    : result (option MetricaM002) :=
  c ← recorrer_lineas ahora numero_pagina lineas datos;
  match c with
  | Continue datos' => recorrer_paginas ahora (S numero_pagina) resto datos'
  | Return m => Ok (Some m)
  end.

(** The positions the scan of [paginas] goes through: the number of the
    page being read (0 before the first one), the lines of that page still
    to be read, the pages after it and the values located so far.  The scan
    moves on through a line that does not end it, from the end of a page to
    the first line of the next, and past a page without text. *)
Inductive alcanza (ahora : string) (paginas : list (option string))
    : nat → list string → list (option string) → Datos → Prop :=
| alcanza_inicio :
    alcanza ahora paginas 0 [] paginas datos_iniciales
| alcanza_linea n linea lineas resto d d' :
    alcanza ahora paginas n (linea :: lineas) resto d →
    procesar_linea ahora n linea d = Ok (Continue d') →
    alcanza ahora paginas n lineas resto d'
| alcanza_pagina n texto resto d :
    alcanza ahora paginas n [] (Some texto :: resto) d →
    texto ≠ "" →
    alcanza ahora paginas (S n) (Str.split_lines texto) resto d
| alcanza_sin_texto n pagina resto d :
    alcanza ahora paginas n [] (pagina :: resto) d →
    pagina = None ∨ pagina = Some "" →
    alcanza ahora paginas (S n) [] resto d.

End M002.

Module M003.

Record MetricaM003 : Type := {
  cartera_vencida_2024 : value;
  cartera_vencida_2023 : value;
  cartera_total_2024 : value;
  cartera_total_2023 : value;
  npl_ratio_2024 : value;
  npl_ratio_2023 : value;
  calidad_cartera : string;
  provision_2024 : value;
  provision_2023 : value;
  coverage_2024 : value;
  coverage_2023 : value;
  pagina_fuente : value;
  fecha_extraccion : string;
  id : string;
  nombre : string;
  cambio_yoy : value;
  cambio_absoluto_vencida : value
}.

(** The generated [__init__] followed by [__post_init__]. *)
Definition nueva (cartera_vencida_2024 cartera_vencida_2023 cartera_total_2024
    cartera_total_2023 npl_ratio_2024 npl_ratio_2023 : value)
    (calidad_cartera : string)
    (provision_2024 provision_2023 coverage_2024 coverage_2023 : value)
    (pagina_fuente : value) (fecha_extraccion : string) : result MetricaM003 :=
  cambio ← sub npl_ratio_2024 npl_ratio_2023;
  cambio_abs ← sub cartera_vencida_2024 cartera_vencida_2023;
  Ok {| cartera_vencida_2024 := cartera_vencida_2024;
        cartera_vencida_2023 := cartera_vencida_2023;
        cartera_total_2024 := cartera_total_2024;
        cartera_total_2023 := cartera_total_2023;
        npl_ratio_2024 := npl_ratio_2024;
        npl_ratio_2023 := npl_ratio_2023;
        calidad_cartera := calidad_cartera;
        provision_2024 := provision_2024;
        provision_2023 := provision_2023;
        coverage_2024 := coverage_2024;
        coverage_2023 := coverage_2023;
        pagina_fuente := pagina_fuente;
        fecha_extraccion := fecha_extraccion;
        id := "M003";
        nombre := "NPL Ratio";
        cambio_yoy := cambio;
        cambio_absoluto_vencida := cambio_abs |}.

Definition to_dict (self : MetricaM003) : result value :=
  Ok (VDict [
    ("id", VStr (id self));
    ("nombre", VStr (nombre self));
    ("valores", VDict [
      ("2024", VDict [
        ("cartera_vencida", cartera_vencida_2024 self);
        ("cartera_total", cartera_total_2024 self);
        ("npl_ratio", npl_ratio_2024 self)]);
      ("2023", VDict [
        ("cartera_vencida", cartera_vencida_2023 self);
        ("cartera_total", cartera_total_2023 self);
        ("npl_ratio", npl_ratio_2023 self)])]);
    ("analisis", VDict [
      ("cambio_yoy_pp", cambio_yoy self);
      ("cambio_vencida_monto", cambio_absoluto_vencida self);
      ("calidad_cartera", VStr (calidad_cartera self))]);
    ("calculo", VDict [
      ("metodo", VStr "indirecto");
      ("fuente", VStr "Provisión / Coverage Ratio");
      ("provision_2024", provision_2024 self);
      ("coverage_2024", coverage_2024 self)]);
    ("metadata", VDict [
      ("pagina_fuente", pagina_fuente self);
      ("fecha_extraccion", VStr (fecha_extraccion self))])]).

Definition evaluar_calidad_cartera (npl_ratio : Q) : string :=
  if Qlt_bool npl_ratio 0.03 then "EXCELENTE"
  else if Qlt_bool npl_ratio 0.05 then "BUENO"
  else if Qlt_bool npl_ratio 0.08 then "ACEPTABLE"
  else if Qlt_bool npl_ratio 0.12 then "ALTO"
  else "CRÍTICO".

(** Modelled from the spec: [calcular_cartera_vencida_desde_cobertura] of
    [parsers/extraer_desde_pagina_95.py], which is not among the sources.
    The spec gives the overdue amount as [provision_amount / coverage_ratio];
    the docstrings of this module say the same ("Cartera Vencida = Provisión
    / Coverage").  It is taken to be that Python division. *)
Definition calcular_cartera_vencida_desde_cobertura (provision coverage : value)
    : result value :=
  div provision coverage.

Section Extractor.

(** The two parsers are not part of the sources; each yields [None] or a
    dictionary, or raises. *)
Variable extraer_tabla_provision : string → result (option dict).
Variable extraer_cobertura_vencida : string → result (option dict).
Variable ahora : string.

Definition extraer_metrica_m003 (ruta_pdf : string)
    : result (option MetricaM003) :=
  (* PASO 1 *)
  datos_provision ← extraer_tabla_provision ruta_pdf;
  match datos_provision with
  | None => Ok None
  | Some datos_provision =>
      if negb (truthy (VDict datos_provision)) then Ok None else
      p ← getitem datos_provision "provision_2024";
      if negb (truthy p) then Ok None else
      provision_2024 ← getitem datos_provision "provision_2024";
      provision_2023 ← getitem datos_provision "provision_2023";
      cartera_total_2024 ← getitem datos_provision "cartera_2024";
      cartera_total_2023 ← getitem datos_provision "cartera_2023";
      _ ← format_num provision_2024;
      _ ← format_num cartera_total_2024;
      (* PASO 2 *)
      datos_coverage ← extraer_cobertura_vencida ruta_pdf;
      match datos_coverage with
      | None => Ok None
      | Some datos_coverage =>
          if negb (truthy (VDict datos_coverage)) then Ok None else
          c ← getitem datos_coverage "cobertura_2024";
          if negb (truthy c) then Ok None else
          coverage_2024 ← getitem datos_coverage "cobertura_2024";
          coverage_2023 ← getitem datos_coverage "cobertura_2023";
          _ ← format_num coverage_2024;
          _ ← format_num coverage_2023;
          (* PASO 3 *)
          cartera_vencida_2024 ←
            calcular_cartera_vencida_desde_cobertura provision_2024 coverage_2024;
          cartera_vencida_2023 ←
            calcular_cartera_vencida_desde_cobertura provision_2023 coverage_2023;
          _ ← format_num cartera_vencida_2024;
          _ ← format_num provision_2024;
          _ ← format_num coverage_2024;
          (* PASO 4 *)
          npl_2024 ← div cartera_vencida_2024 cartera_total_2024;
          npl_2023 ← div cartera_vencida_2023 cartera_total_2023;
          _ ← format_num npl_2024;
          _ ← format_num npl_2023;
          (* PASO 5 *)
          r ← num npl_2024;
          let calidad := evaluar_calidad_cartera r in
          pagina ← getitem datos_coverage "pagina_encontrada";
          metrica ← nueva cartera_vencida_2024 cartera_vencida_2023
                      cartera_total_2024 cartera_total_2023 npl_2024 npl_2023
                      calidad provision_2024 provision_2023
                      coverage_2024 coverage_2023 pagina ahora;
          Ok (Some metrica)
      end
  end.

End Extractor.

(** A record built from provisions [p24 p23], coverages [c24 c23] and total
    portfolios [t24 t23]. *)
Definition de_valores (p24 p23 c24 c23 t24 t23 : Q) (m : MetricaM003) : Prop :=
  provision_2024 m = VNum p24 ∧ provision_2023 m = VNum p23
  ∧ coverage_2024 m = VNum c24 ∧ coverage_2023 m = VNum c23
  ∧ cartera_total_2024 m = VNum t24 ∧ cartera_total_2023 m = VNum t23
  ∧ ¬ p24 == 0 ∧ ¬ c24 == 0 ∧ ¬ c23 == 0 ∧ ¬ t24 == 0 ∧ ¬ t23 == 0
  ∧ cartera_vencida_2024 m = VNum (p24 / c24)
  ∧ cartera_vencida_2023 m = VNum (p23 / c23)
  ∧ npl_ratio_2024 m = VNum (p24 / c24 / t24)
  ∧ npl_ratio_2023 m = VNum (p23 / c23 / t23)
  ∧ cambio_yoy m = VNum (p24 / c24 / t24 - p23 / c23 / t23)
  ∧ cambio_absoluto_vencida m = VNum (p24 / c24 - p23 / c23)
  ∧ calidad_cartera m = evaluar_calidad_cartera (p24 / c24 / t24).

End M003.

Module M004.

Record MetricaM004 : Type := {
  coverage_2024 : value;
  coverage_2023 : value;
  nivel_cobertura : string;
  pagina_fuente : value;
  fecha_extraccion : string;
  id : string;
  nombre : string;
  cambio_yoy : value
}.

(** The generated [__init__] followed by [__post_init__]. *)
Definition nueva (coverage_2024 coverage_2023 : value) (nivel_cobertura : string)
    (pagina_fuente : value) (fecha_extraccion : string) : result MetricaM004 :=
  cambio ← sub coverage_2024 coverage_2023;
  Ok {| coverage_2024 := coverage_2024;
        coverage_2023 := coverage_2023;
        nivel_cobertura := nivel_cobertura;
        pagina_fuente := pagina_fuente;
        fecha_extraccion := fecha_extraccion;
        id := "M004";
        nombre := "Coverage Ratio";
        cambio_yoy := cambio |}.

Definition evaluar_nivel_cobertura (coverage : Q) : string :=
  if Qlt_bool 1.50 coverage then "CONSERVADOR"
  else if Qle_bool 1.00 coverage then "ADECUADO"
  else if Qle_bool 0.80 coverage then "LÍMITE"
  else "INSUFICIENTE".

Definition obtener_implicacion (nivel : string) : value :=
  get [("CONSERVADOR", VStr "Provisión sobrada, postura conservadora.");
       ("ADECUADO", VStr "Provisión suficiente para cubrir pérdidas.");
       ("LÍMITE", VStr "Provisión justa, poco margen de seguridad.");
       ("INSUFICIENTE", VStr "Provisión insuficiente, riesgo de pérdidas.")]
      nivel (VStr "Nivel desconocido").

Section Extractor.

(** The text that the format specification [.0%] gives for a number. *)
Variable formato_pct : Q → string.

Definition to_dict (self : MetricaM004) : result value :=
  c ← format_num (coverage_2024 self);
  Ok (VDict [
    ("id", VStr (id self));
    ("nombre", VStr (nombre self));
    ("valores", VDict [
      ("2024", VDict [("coverage_ratio", coverage_2024 self)]);
      ("2023", VDict [("coverage_ratio", coverage_2023 self)])]);
    ("analisis", VDict [
      ("cambio_yoy_pp", cambio_yoy self);
      ("nivel_cobertura", VStr (nivel_cobertura self))]);
    ("interpretacion", VDict [
      ("significado",
       VStr ("La provisión cubre " +:+ formato_pct c +:+ " de la cartera vencida"));
      ("implicacion", obtener_implicacion (nivel_cobertura self))]);
    ("metadata", VDict [
      ("pagina_fuente", pagina_fuente self);
      ("fecha_extraccion", VStr (fecha_extraccion self))])]).

(** The parser is not part of the sources; it yields [None] or a dictionary,
    or raises. *)
Variable extraer_cobertura_vencida : string → result (option dict).
Variable ahora : string.

Definition extraer_metrica_m004 (ruta_pdf : string)
    : result (option MetricaM004) :=
  datos ← extraer_cobertura_vencida ruta_pdf;
  match datos with
  | None => Ok None
  | Some datos =>
      if negb (truthy (VDict datos)) then Ok None else
      c ← getitem datos "cobertura_2024";
      if negb (truthy c) then Ok None else
      c24 ← getitem datos "cobertura_2024";
      _ ← format_num c24;
      c23 ← getitem datos "cobertura_2023";
      _ ← format_num c23;
      (* Evaluar nivel *)
      c24' ← getitem datos "cobertura_2024";
      r ← num c24';
      let nivel := evaluar_nivel_cobertura r in
      a1 ← getitem datos "cobertura_2024";
      a2 ← getitem datos "cobertura_2023";
      a3 ← getitem datos "pagina_encontrada";
      metrica ← nueva a1 a2 nivel a3 ahora;
      Ok (Some metrica)
  end.

End Extractor.

(** A record built from the coverages [c24 c23]. *)
Definition de_valores (c24 c23 : Q) (m : MetricaM004) : Prop :=
  coverage_2024 m = VNum c24 ∧ coverage_2023 m = VNum c23
  ∧ ¬ c24 == 0
  ∧ cambio_yoy m = VNum (c24 - c23)
  ∧ nivel_cobertura m = evaluar_nivel_cobertura c24.

End M004.

Module M005.

Record MetricaM005 : Type := {
  cartera_a_2024 : value;
  cartera_b_2024 : value;
  cartera_c_2024 : value;
  cartera_d_2024 : value;
  cartera_e_2024 : value;
  cartera_total_2024 : value;
  cartera_a_2023 : value;
  cartera_b_2023 : value;
  cartera_c_2023 : value;
  cartera_d_2023 : value;
  cartera_e_2023 : value;
  cartera_total_2023 : value;
  ratio_riesgosa_2024 : value;
  ratio_riesgosa_2023 : value;
  nivel_riesgo : string;
  pagina_fuente : value;
  fecha_extraccion : string;
  id : string;
  nombre : string;
  cambio_yoy : value
}.

(** The generated [__init__] followed by [__post_init__]. *)
Definition nueva (a24 b24 c24 d24 e24 total24 a23 b23 c23 d23 e23 total23
    ratio_riesgosa_2024 ratio_riesgosa_2023 : value) (nivel_riesgo : string)
    (pagina_fuente : value) (fecha_extraccion : string) : result MetricaM005 :=
  cambio ← sub ratio_riesgosa_2024 ratio_riesgosa_2023;
  Ok {| cartera_a_2024 := a24; cartera_b_2024 := b24; cartera_c_2024 := c24;
        cartera_d_2024 := d24; cartera_e_2024 := e24;
        cartera_total_2024 := total24;
        cartera_a_2023 := a23; cartera_b_2023 := b23; cartera_c_2023 := c23;
        cartera_d_2023 := d23; cartera_e_2023 := e23;
        cartera_total_2023 := total23;
        ratio_riesgosa_2024 := ratio_riesgosa_2024;
        ratio_riesgosa_2023 := ratio_riesgosa_2023;
        nivel_riesgo := nivel_riesgo;
        pagina_fuente := pagina_fuente;
        fecha_extraccion := fecha_extraccion;
        id := "M005";
        nombre := "Cartera Riesgosa (C+D+E)";
        cambio_yoy := cambio |}.

Definition to_dict (self : MetricaM005) : result value :=
  a_pct ← div (cartera_a_2024 self) (cartera_total_2024 self);
  b_pct ← div (cartera_b_2024 self) (cartera_total_2024 self);
  c_pct ← div (cartera_c_2024 self) (cartera_total_2024 self);
  d_pct ← div (cartera_d_2024 self) (cartera_total_2024 self);
  e_pct ← div (cartera_e_2024 self) (cartera_total_2024 self);
  Ok (VDict [
    ("id", VStr (id self));
    ("nombre", VStr (nombre self));
    ("valores", VDict [
      ("2024", VDict [
        ("categoria_a", cartera_a_2024 self);
        ("categoria_b", cartera_b_2024 self);
        ("categoria_c", cartera_c_2024 self);
        ("categoria_d", cartera_d_2024 self);
        ("categoria_e", cartera_e_2024 self);
        ("total", cartera_total_2024 self);
        ("ratio_riesgosa_cde", ratio_riesgosa_2024 self)]);
      ("2023", VDict [
        ("categoria_a", cartera_a_2023 self);
        ("categoria_b", cartera_b_2023 self);
        ("categoria_c", cartera_c_2023 self);
        ("categoria_d", cartera_d_2023 self);
        ("categoria_e", cartera_e_2023 self);
        ("total", cartera_total_2023 self);
        ("ratio_riesgosa_cde", ratio_riesgosa_2023 self)])]);
    ("analisis", VDict [
      ("cambio_yoy_pp", cambio_yoy self);
      ("nivel_riesgo", VStr (nivel_riesgo self))]);
    ("composicion_2024", VDict [
      ("a_pct", a_pct);
      ("b_pct", b_pct);
      ("c_pct", c_pct);
      ("d_pct", d_pct);
      ("e_pct", e_pct)]);
    ("metadata", VDict [
      ("pagina_fuente", pagina_fuente self);
      ("fecha_extraccion", VStr (fecha_extraccion self))])]).

Definition evaluar_nivel_riesgo (ratio : Q) : string :=
  if Qlt_bool ratio 0.03 then "EXCELENTE"
  else if Qlt_bool ratio 0.05 then "BUENO"
  else if Qlt_bool ratio 0.08 then "ACEPTABLE"
  else if Qlt_bool ratio 0.12 then "ALTO"
  else "CRÍTICO".

Section Extractor.

(** [parsers.extraer_calificacion_riesgo.extraer_calificacion_riesgo]: the
    parser is not part of the sources; it yields [None] or a dictionary, or
    raises. *)
Variable extraer_calificacion_riesgo : string → result (option dict).
Variable ahora : string.

Definition extraer_metrica_m005 (ruta_pdf : string)
    : result (option MetricaM005) :=
  datos ← extraer_calificacion_riesgo ruta_pdf;
  match datos with
  | None => Ok None
  | Some datos =>
      if negb (truthy (VDict datos)) then Ok None else
      if negb (truthy (get datos "a_2024" VNone)) then Ok None else
      (* Calcular ratios riesgosos *)
      c24 ← getitem datos "c_2024";
      d24 ← getitem datos "d_2024";
      cd24 ← add c24 d24;
      e24 ← getitem datos "e_2024";
      riesgosa_2024 ← add cd24 e24;
      t24 ← getitem datos "total_2024";
      ratio_2024 ← div riesgosa_2024 t24;
      c23 ← getitem datos "c_2023";
      d23 ← getitem datos "d_2023";
      cd23 ← add c23 d23;
      e23 ← getitem datos "e_2023";
      riesgosa_2023 ← add cd23 e23;
      t23 ← getitem datos "total_2023";
      ratio_2023 ← div riesgosa_2023 t23;
      _ ← format_num riesgosa_2024;
      _ ← format_num ratio_2024;
      _ ← format_num riesgosa_2023;
      _ ← format_num ratio_2023;
      (* Evaluar nivel *)
      r ← num ratio_2024;
      let nivel := evaluar_nivel_riesgo r in
      (* Crear objeto métrica *)
      a1 ← getitem datos "a_2024";
      a2 ← getitem datos "b_2024";
      a3 ← getitem datos "c_2024";
      a4 ← getitem datos "d_2024";
      a5 ← getitem datos "e_2024";
      a6 ← getitem datos "total_2024";
      b1 ← getitem datos "a_2023";
      b2 ← getitem datos "b_2023";
      b3 ← getitem datos "c_2023";
      b4 ← getitem datos "d_2023";
      b5 ← getitem datos "e_2023";
      b6 ← getitem datos "total_2023";
      metrica ← nueva a1 a2 a3 a4 a5 a6 b1 b2 b3 b4 b5 b6 ratio_2024 ratio_2023
                  nivel (get datos "pagina_encontrada" (VNum 0)) ahora;
      Ok (Some metrica)
  end.

End Extractor.

(** A record built from the risky categories and totals of both years. *)
Definition de_valores (c24 d24 e24 t24 c23 d23 e23 t23 : Q) (m : MetricaM005)
    : Prop :=
  cartera_c_2024 m = VNum c24 ∧ cartera_d_2024 m = VNum d24
  ∧ cartera_e_2024 m = VNum e24 ∧ cartera_total_2024 m = VNum t24
  ∧ cartera_c_2023 m = VNum c23 ∧ cartera_d_2023 m = VNum d23
  ∧ cartera_e_2023 m = VNum e23 ∧ cartera_total_2023 m = VNum t23
  ∧ ¬ t24 == 0 ∧ ¬ t23 == 0
  ∧ ratio_riesgosa_2024 m = VNum ((c24 + d24 + e24) / t24)
  ∧ ratio_riesgosa_2023 m = VNum ((c23 + d23 + e23) / t23)
  ∧ cambio_yoy m = VNum ((c24 + d24 + e24) / t24 - (c23 + d23 + e23) / t23)
  ∧ nivel_riesgo m = evaluar_nivel_riesgo ((c24 + d24 + e24) / t24).

End M005.

(** ** Orchestrator and coherence validation *)

Module Orquestador.

(** What an extractor hands to the orchestrator: an instance of one of the
    four dataclasses; [metrica.to_dict()] dispatches on it. *)
Inductive Metrica : Type :=
| DeM001 (m : M001.MetricaM001)
| DeM003 (m : M003.MetricaM003)
| DeM004 (m : M004.MetricaM004)
| DeM005 (m : M005.MetricaM005).

Record Metadata : Type := {
  banco : string;
  año : Z;
  pdf_fuente : string;
  fecha_procesamiento : string;
  version_sistema : string
}.

Record Validacion : Type := {
  metricas_exitosas : list string;
  metricas_fallidas : list string;
  coherencia : gmap string bool
}.

Record Resultados : Type := {
  metadata : Metadata;
  metricas : gmap string value;
  validacion : Validacion
}.

(** [resultados['metricas'][metrica_id] = d] followed by
    [resultados['validacion']['metricas_exitosas'].append(metrica_id)] *)
Definition anotar_exito (metrica_id : string) (d : value) (r : Resultados)
    : Resultados :=
  {| metadata := metadata r;
     metricas := <[metrica_id := d]> (metricas r);
     validacion :=
       {| metricas_exitosas := metricas_exitosas (validacion r) ++ [metrica_id];
          metricas_fallidas := metricas_fallidas (validacion r);
          coherencia := coherencia (validacion r) |} |}.

(** [resultados['validacion']['metricas_fallidas'].append(metrica_id)] *)
Definition anotar_fallo (metrica_id : string) (r : Resultados) : Resultados :=
  {| metadata := metadata r;
     metricas := metricas r;
     validacion :=
       {| metricas_exitosas := metricas_exitosas (validacion r);
          metricas_fallidas := metricas_fallidas (validacion r) ++ [metrica_id];
          coherencia := coherencia (validacion r) |} |}.

(** [validacion[regla] = b] *)
Definition anotar_regla (regla : string) (b : bool) (r : Resultados)
    : Resultados :=
  {| metadata := metadata r;
     metricas := metricas r;
     validacion :=
       {| metricas_exitosas := metricas_exitosas (validacion r);
          metricas_fallidas := metricas_fallidas (validacion r);
          coherencia := <[regla := b]> (coherencia (validacion r)) |} |}.

(** [k in metricas] *)
Definition presente (k : string) (m : gmap string value) : bool :=
  bool_decide (is_Some (m !! k)).

(** [metricas[k]] *)
Definition metricas_getitem (m : gmap string value) (k : string) : result value :=
  match m !! k with
  | Some v => Ok v
  | None => Raise (KeyError k)
  end.

(** [metricas[k]['valores']['2024'][campo]] *)
Definition valor_2024 (m : gmap string value) (k campo : string)
    : result value :=
  d ← metricas_getitem m k;
  v ← subscript d "valores";
  a ← subscript v "2024";
  subscript a campo.

(** Regla 1: Coverage = Provisión / Cartera Vencida *)
Definition regla_coverage (r : Resultados) : result Resultados :=
  let metricas := metricas r in
  if presente "M001" metricas && presente "M003" metricas
     && presente "M004" metricas then
    provision ← valor_2024 metricas "M001" "provision";
    cartera_vencida ← valor_2024 metricas "M003" "cartera_vencida";
    coverage_reportado ← valor_2024 metricas "M004" "coverage_ratio";
    coverage_calculado ← div provision cartera_vencida;
    d ← sub coverage_calculado coverage_reportado;
    diferencia ← abs d;
    cerca ← lt diferencia (VNum 0.01);
    if cerca : bool then
      let r' := anotar_regla "coverage_coherente" true r in
      _ ← format_num coverage_reportado;
      _ ← format_num diferencia;
      Ok r'
    else
      let r' := anotar_regla "coverage_coherente" false r in
      _ ← format_num coverage_reportado;
      _ ← format_num coverage_calculado;
      Ok r'
  else Ok r.

(** Regla 2: Cartera Riesgosa > NPL *)
Definition regla_riesgosa (r : Resultados) : result Resultados :=
  let metricas := metricas r in
  if presente "M003" metricas && presente "M005" metricas then
    npl ← valor_2024 metricas "M003" "npl_ratio";
    riesgosa ← valor_2024 metricas "M005" "ratio_riesgosa_cde";
    mayor ← gt riesgosa npl;
    if mayor : bool then
      let r' := anotar_regla "riesgosa_mayor_que_npl" true r in
      d ← sub riesgosa npl;
      diferencia_pp ← mul d (VNum 100);
      _ ← format_num riesgosa;
      _ ← format_num npl;
      _ ← format_num diferencia_pp;
      Ok r'
    else Ok (anotar_regla "riesgosa_mayor_que_npl" false r)
  else Ok r.

(** Regla 3: Provisión/Cartera en rango razonable, [0.01 <= ratio <= 0.20] *)
Definition regla_rango (r : Resultados) : result Resultados :=
  let metricas := metricas r in
  if presente "M001" metricas then
    ratio ← valor_2024 metricas "M001" "ratio";
    b1 ← le (VNum 0.01) ratio;
    en_rango ← (if b1 : bool then le ratio (VNum 0.20) else Ok false);
    if en_rango : bool then
      let r' := anotar_regla "provision_rango_valido" true r in
      _ ← format_num ratio;
      Ok r'
    else
      let r' := anotar_regla "provision_rango_valido" false r in
      _ ← format_num ratio;
      Ok r'
  else Ok r.

(** The dictionary is updated in place; here the updated [resultados] is
    the outcome. *)
Definition validar_coherencia (resultados : Resultados) : result Resultados :=
  r1 ← regla_coverage resultados;
  r2 ← regla_riesgosa r1;
  regla_rango r2.

(** The dictionaries that successful extractions leave in
    [resultados['metricas']]: [to_dict] of a record of the right shape. *)
Definition es_m001 (d : value) : Prop :=
  ∃ m p24 p23 c24 c23,
    M001.de_valores p24 p23 c24 c23 m ∧ M001.to_dict m = Ok d.

Definition es_m003 (d : value) : Prop :=
  ∃ m p24 p23 c24 c23 t24 t23,
    M003.de_valores p24 p23 c24 c23 t24 t23 m ∧ M003.to_dict m = Ok d.

Definition es_m004 (d : value) : Prop :=
  ∃ formato_pct m c24 c23,
    M004.de_valores c24 c23 m ∧ M004.to_dict formato_pct m = Ok d.

Definition es_m005 (d : value) : Prop :=
  ∃ m c24 d24 e24 t24 c23 d23 e23 t23,
    M005.de_valores c24 d24 e24 t24 c23 d23 e23 t23 m ∧ M005.to_dict m = Ok d.

(** A set of successfully computed metrics: whatever is stored under one of
    the four ids is the dictionary of a successful extraction of that
    metric, with the figures as exact arithmetic gives them (an overdue
    amount that has underflowed to zero is not among them).  Any of the
    four may be absent. *)
Definition bien_formadas (metricas : gmap string value) : Prop :=
  (∀ d, metricas !! "M001" = Some d → es_m001 d)
  ∧ (∀ d, metricas !! "M003" = Some d → es_m003 d)
  ∧ (∀ d, metricas !! "M004" = Some d → es_m004 d)
  ∧ (∀ d, metricas !! "M005" = Some d → es_m005 d).

(** The outcome each rule records, as a function of the values it reads. *)
Definition coverage_coherente (provision cartera_vencida coverage : Q) : bool :=
  Qlt_bool (Qabs (provision / cartera_vencida - coverage)) 0.01.

Definition riesgosa_mayor_que_npl (riesgosa npl : Q) : bool :=
  Qlt_bool npl riesgosa.

Definition provision_rango_valido (ratio : Q) : bool :=
  Qle_bool 0.01 ratio && Qle_bool ratio 0.20.

(** One row of [generar_resumen_visual]: the four [if] blocks of the source
    differ only in the id and in the field read from ['valores']['2024'];
    each reads ['analisis']['nivel_riesgo'] and formats the ratio with
    [>11.2%] and the level with [<12]. *)
Definition fila_resumen (metricas : gmap string value) (k campo : string)
    : result unit :=
  if presente k metricas then
    m ← metricas_getitem metricas k;
    v ← subscript m "valores";
    a ← subscript v "2024";
    ratio ← subscript a campo;
    an ← subscript m "analisis";
    nivel ← subscript an "nivel_riesgo";
    _ ← format_num ratio;
    format_align nivel
  else Ok tt.

Definition generar_resumen_visual (resultados : Resultados) : result unit :=
  let metricas := metricas resultados in
  _ ← fila_resumen metricas "M001" "ratio";
  _ ← fila_resumen metricas "M003" "npl_ratio";
  _ ← fila_resumen metricas "M004" "coverage_ratio";
  fila_resumen metricas "M005" "ratio_riesgosa_cde".

(** A number read by a rule. *)
Definition numero_2024 (metricas : gmap string value) (k campo : string)
    : option Q :=
  match valor_2024 metricas k campo with
  | Ok (VNum q) => Some q
  | _ => None
  end.

(** What each rule has to record for a given set of metrics: [None] when the
    rule does not apply. *)
Definition anotacion_coverage (metricas : gmap string value) : option bool :=
  if presente "M001" metricas && presente "M003" metricas
     && presente "M004" metricas then
    p ← numero_2024 metricas "M001" "provision";
    cv ← numero_2024 metricas "M003" "cartera_vencida";
    c ← numero_2024 metricas "M004" "coverage_ratio";
    Some (coverage_coherente p cv c)
  else None.

Definition anotacion_riesgosa (metricas : gmap string value) : option bool :=
  if presente "M003" metricas && presente "M005" metricas then
    npl ← numero_2024 metricas "M003" "npl_ratio";
    riesgosa ← numero_2024 metricas "M005" "ratio_riesgosa_cde";
    Some (riesgosa_mayor_que_npl riesgosa npl)
  else None.

Definition anotacion_rango (metricas : gmap string value) : option bool :=
  if presente "M001" metricas then
    ratio ← numero_2024 metricas "M001" "ratio";
    Some (provision_rango_valido ratio)
  else None.

Definition aplicar (regla : string) (o : option bool) (c : gmap string bool)
    : gmap string bool :=
  match o with
  | Some b => <[regla := b]> c
  | None => c
  end.

(** The three annotations, each computed from the metrics alone. *)
Definition coherencia_esperada (metricas : gmap string value)
    (c : gmap string bool) : gmap string bool :=
  aplicar "provision_rango_valido" (anotacion_rango metricas)
    (aplicar "riesgosa_mayor_que_npl" (anotacion_riesgosa metricas)
       (aplicar "coverage_coherente" (anotacion_coverage metricas) c)).

(** [resultados] with its annotations replaced. *)
Definition con_coherencia (c : gmap string bool) (r : Resultados) : Resultados :=
  {| metadata := metadata r;
     metricas := metricas r;
     validacion :=
       {| metricas_exitosas := metricas_exitosas (validacion r);
          metricas_fallidas := metricas_fallidas (validacion r);
          coherencia := c |} |}.

Definition Extractor : Type := string → result (option Metrica).

Section Run.

(** The parsers of the package [parsers], which is not part of the sources:
    each yields [None] or a dictionary, or raises. *)
Variable extraer_tabla_provision : string → result (option dict).
Variable extraer_cobertura_vencida : string → result (option dict).
Variable extraer_calificacion_riesgo : string → result (option dict).
Variable ahora : string.
Variable formato_pct : Q → string.

(** [metrica.to_dict()] *)
Definition to_dict (metrica : Metrica) : result value :=
  match metrica with
  | DeM001 m => M001.to_dict m
  | DeM003 m => M003.to_dict m
  | DeM004 m => M004.to_dict formato_pct m
  | DeM005 m => M005.to_dict m
  end.

Definition extraer_metrica_m001 (ruta_pdf : string) : result (option Metrica) :=
  m ← M001.extraer_metrica_m001 extraer_tabla_provision ahora ruta_pdf;
  Ok (option_map DeM001 m).

Definition extraer_metrica_m003 (ruta_pdf : string) : result (option Metrica) :=
  m ← M003.extraer_metrica_m003 extraer_tabla_provision extraer_cobertura_vencida
      ahora ruta_pdf;
  Ok (option_map DeM003 m).

Definition extraer_metrica_m004 (ruta_pdf : string) : result (option Metrica) :=
  m ← M004.extraer_metrica_m004 extraer_cobertura_vencida ahora ruta_pdf;
  Ok (option_map DeM004 m).

Definition extraer_metrica_m005 (ruta_pdf : string) : result (option Metrica) :=
  m ← M005.extraer_metrica_m005 extraer_calificacion_riesgo ahora ruta_pdf;
  Ok (option_map DeM005 m).

Definition extractores : list (string * Extractor * string) :=
  [("M001", extraer_metrica_m001, "Provisión/Cartera Total");
   ("M003", extraer_metrica_m003, "NPL Ratio");
   ("M004", extraer_metrica_m004, "Coverage Ratio");
   ("M005", extraer_metrica_m005, "Cartera Riesgosa (C+D+E)")].

(** What an extractor contributes to [resultados['metricas']]: the
    dictionary of its record, or nothing when it returns [None] or when it
    or [to_dict] raises. *)
Definition resultado_de (ruta_pdf : string) (funcion_extractora : Extractor)
    : option value :=
  match funcion_extractora ruta_pdf with
  | Ok (Some m) =>
      match to_dict m with
      | Ok d => Some d
      | Raise _ => None
      end
  | _ => None
  end.

(** The [try] block of the loop body. *)
Definition intentar (ruta_pdf metrica_id : string)
    (funcion_extractora : Extractor) (resultados : Resultados)
    : result Resultados :=
  metrica ← funcion_extractora ruta_pdf;
  match metrica with
  | Some m =>
      d ← to_dict m;
      Ok (anotar_exito metrica_id d resultados)
  | None => Ok (anotar_fallo metrica_id resultados)
  end.

(** The body of [for metrica_id, funcion_extractora, nombre in extractores]:
    [except Exception] records the failure on the [resultados] the iteration
    started with, nothing having been written before the exception. *)
Definition ejecutar_extractor (ruta_pdf : string) (resultados : Resultados)
    (e : string * Extractor * string) : Resultados :=
  let '(metrica_id, funcion_extractora, _) := e in
  match intentar ruta_pdf metrica_id funcion_extractora resultados with
  | Ok resultados' => resultados'
  | Raise _ => anotar_fallo metrica_id resultados
  end.

Definition resultados_iniciales (ruta_pdf banco : string) (año : Z)
    : Resultados :=
  {| metadata :=
       {| banco := banco;
          año := año;
          pdf_fuente := ruta_pdf;
          fecha_procesamiento := ahora;
          version_sistema := "1.0.0" |};
     metricas := ∅;
     validacion :=
       {| metricas_exitosas := [];
          metricas_fallidas := [];
          coherencia := ∅ |} |}.

(** The loop over the catalogue, from a given [resultados]. *)
Definition ejecutar_extractores (ruta_pdf : string)
    (catalogo : list (string * Extractor * string)) (resultados : Resultados)
    : Resultados :=
  foldl (ejecutar_extractor ruta_pdf) resultados catalogo.

Definition id_de (e : string * Extractor * string) : string := e.1.1.

Definition funcion_de (e : string * Extractor * string) : Extractor := e.1.2.

(** The ids of the catalogue whose extraction succeeds, with the dictionary
    each one contributes, and the ids of those that fail, both in catalogue
    order. *)
Definition exitos (ruta_pdf : string)
    (catalogo : list (string * Extractor * string)) : list (string * value) :=
  omap (fun e => (fun d => (id_de e, d)) <$> resultado_de ruta_pdf (funcion_de e))
       catalogo.

Definition fallos (ruta_pdf : string)
    (catalogo : list (string * Extractor * string)) : list string :=
  omap (fun e => match resultado_de ruta_pdf (funcion_de e) with
                 | Some _ => None
                 | None => Some (id_de e)
                 end)
       catalogo.

(** [validar_coherencia] is called outside the [try]: what it raises leaves
    [extraer_todas_metricas]. *)
Definition extraer_todas_metricas (ruta_pdf banco : string) (año : Z)
    : result Resultados :=
  let resultados :=
    ejecutar_extractores ruta_pdf extractores
      (resultados_iniciales ruta_pdf banco año) in
  validar_coherencia resultados.

End Run.

End Orquestador.

(** ** Threshold bands

    The band tables of the classifiers as data: an interval of ratios and
    its label, read off the docstrings and the comparisons of each
    classifier.  A bound carries a flag, [true] when the bound itself
    belongs to the band; [None] is an unbounded side. *)

Module Bandas.

Record Banda : Type := {
  desde : option (Q * bool);
  hasta : option (Q * bool);
  etiqueta : string
}.

Definition sobre (lim : option (Q * bool)) (r : Q) : bool :=
  match lim with
  | None => true
  | Some (q, true) => Qle_bool q r
  | Some (q, false) => Qlt_bool q r
  end.

Definition bajo (lim : option (Q * bool)) (r : Q) : bool :=
  match lim with
  | None => true
  | Some (q, true) => Qle_bool r q
  | Some (q, false) => Qlt_bool r q
  end.

Definition en_banda (b : Banda) (r : Q) : bool :=
  sobre (desde b) r && bajo (hasta b) r.

Definition banda (lo hi : option (Q * bool)) (l : string) : Banda :=
  {| desde := lo; hasta := hi; etiqueta := l |}.

(** M001: below 4%, 4-7%, 7-10%, 10% and above. *)
Definition m001 : list Banda :=
  [banda None (Some (0.04, false)) "BAJO";
   banda (Some (0.04, true)) (Some (0.07, false)) "MEDIO";
   banda (Some (0.07, true)) (Some (0.10, false)) "ALTO";
   banda (Some (0.10, true)) None "CRÍTICO"].

(** M002: below 5%, 5-10%, 10-15%, 15% and above. *)
Definition m002 : list Banda :=
  [banda None (Some (0.05, false)) "BAJO";
   banda (Some (0.05, true)) (Some (0.10, false)) "MEDIO";
   banda (Some (0.10, true)) (Some (0.15, false)) "ALTO";
   banda (Some (0.15, true)) None "EXCELENTE"].

(** M003 and M005: below 3%, 3-5%, 5-8%, 8-12%, 12% and above. *)
Definition m003 : list Banda :=
  [banda None (Some (0.03, false)) "EXCELENTE";
   banda (Some (0.03, true)) (Some (0.05, false)) "BUENO";
   banda (Some (0.05, true)) (Some (0.08, false)) "ACEPTABLE";
   banda (Some (0.08, true)) (Some (0.12, false)) "ALTO";
   banda (Some (0.12, true)) None "CRÍTICO"].

Definition m005 : list Banda := m003.

(** M004: below 80%, 80-100%, 100-150% with both ends, above 150%. *)
Definition m004 : list Banda :=
  [banda None (Some (0.80, false)) "INSUFICIENTE";
   banda (Some (0.80, true)) (Some (1.00, false)) "LÍMITE";
   banda (Some (1.00, true)) (Some (1.50, true)) "ADECUADO";
   banda (Some (1.50, false)) None "CONSERVADOR"].

(** [f] classifies by [tabla]: every ratio lies in exactly one band of the
    table, and [f] answers the label of that band. *)
Definition clasifica (tabla : list Banda) (f : Q → string) : Prop :=
  ∀ r : Q, ∃ b, b ∈ tabla ∧ en_banda b r = true ∧ f r = etiqueta b
    ∧ ∀ b', b' ∈ tabla → en_banda b' r = true → b' = b.

(** The place of a label in a table, counted from the lowest band; the
    length of the table for a label that is not in it. *)
Fixpoint posicion (tabla : list Banda) (l : string) : nat :=
  match tabla with
  | [] => 0
  | b :: resto => if String.eqb (etiqueta b) l then 0 else S (posicion resto l)
  end.

End Bandas.

(** ** Sample inputs *)

Module Ejemplos.

(** A page whose first equity line gives an implausible ROE (9000 / 10000)
    and whose later lines give a plausible one (2900 / 10000). *)
Definition pagina_roe : string :=
  "Utilidad neta 9,000 8,000
Total patrimonio 10,000 9,500
Utilidad neta del periodo 2,900 2,000
Total equity 10,000 2,000".

(** The state of the scan after the first line of [pagina_roe]. *)
Definition datos_tras_utilidad : M002.Datos :=
  {| M002.d_utilidad_neta_2024 := VNum 9000;
     M002.d_utilidad_neta_2023 := VNum 8000;
     M002.d_patrimonio_2024 := VNone;
     M002.d_patrimonio_2023 := VNone;
     M002.d_pagina_encontrada := VNum 1 |}.

(** The same state once the second line has been read. *)
Definition datos_tras_patrimonio : M002.Datos :=
  {| M002.d_utilidad_neta_2024 := VNum 9000;
     M002.d_utilidad_neta_2023 := VNum 8000;
     M002.d_patrimonio_2024 := VNum 10000;
     M002.d_patrimonio_2023 := VNum 9500;
     M002.d_pagina_encontrada := VNum 1 |}.

(** Parsers of a document with provision 1000 (900 the year before), total
    portfolio 20000 (18000) and coverage 125% (120%); the risk-category
    parser fails. *)
Definition tabla_provision (_ : string) : result (option dict) :=
  Ok (Some [("provision_2024", VNum 1000); ("provision_2023", VNum 900);
            ("cartera_2024", VNum 20000); ("cartera_2023", VNum 18000);
            ("pagina_encontrada", VNum 95)]).

Definition cobertura_vencida (_ : string) : result (option dict) :=
  Ok (Some [("cobertura_2024", VNum 1.25); ("cobertura_2023", VNum 1.20);
            ("pagina_encontrada", VNum 95)]).

Definition calificacion_riesgo (_ : string) : result (option dict) :=
  Raise (OtherError "sin tabla de calificación").

Definition formato (_ : Q) : string := "125%".

(** A risk-category table: 1000 of 20000 in the categories C, D and E
    (600 of 18000 the year before). *)
Definition calificacion_riesgo_completa (_ : string) : result (option dict) :=
  Ok (Some [("a_2024", VNum 18000); ("b_2024", VNum 1000);
            ("c_2024", VNum 500); ("d_2024", VNum 300); ("e_2024", VNum 200);
            ("total_2024", VNum 20000);
            ("a_2023", VNum 16500); ("b_2023", VNum 900);
            ("c_2023", VNum 300); ("d_2023", VNum 200); ("e_2023", VNum 100);
            ("total_2023", VNum 18000);
            ("pagina_encontrada", VNum 97)]).

(** The same table with no figure for category B in 2024 and no page. *)
Definition calificacion_riesgo_sin_b (_ : string) : result (option dict) :=
  Ok (Some [("a_2024", VNum 18000); ("b_2024", VNone);
            ("c_2024", VNum 500); ("d_2024", VNum 300); ("e_2024", VNum 200);
            ("total_2024", VNum 20000);
            ("a_2023", VNum 16500); ("b_2023", VNum 900);
            ("c_2023", VNum 300); ("d_2023", VNum 200); ("e_2023", VNum 100);
            ("total_2023", VNum 18000)]).

(** A dictionary with none of the keys the extractors test. *)
Definition tabla_ajena : dict := [("pagina_encontrada", VNum 95)].

(** A provision table whose total portfolio of 2024 is zero. *)
Definition tabla_cartera_nula (_ : string) : result (option dict) :=
  Ok (Some [("provision_2024", VNum 1000); ("provision_2023", VNum 900);
            ("cartera_2024", VNum 0); ("cartera_2023", VNum 18000);
            ("pagina_encontrada", VNum 95)]).

(** A document of two pages: the figures of the first give an implausible
    ROE (9000 / 10000), those of the second a plausible one
    (2900 / 10000). *)
Definition documento_dos_paginas : list (option string) :=
  [Some "Utilidad neta 9,000 8,000
Total patrimonio 10,000 9,500";
   Some "Utilidad neta del periodo 2,900 2,000
Total equity 10,000 9,800"].

(** The state of the scan of [documento_dos_paginas] after the first line
    of the second page. *)
Definition datos_segunda_pagina : M002.Datos :=
  {| M002.d_utilidad_neta_2024 := VNum 2900;
     M002.d_utilidad_neta_2023 := VNum 2000;
     M002.d_patrimonio_2024 := VNone;
     M002.d_patrimonio_2023 := VNum 9500;
     M002.d_pagina_encontrada := VNum 2 |}.

(** The same state once the equity line of the second page is read. *)
Definition datos_segunda_completa : M002.Datos :=
  {| M002.d_utilidad_neta_2024 := VNum 2900;
     M002.d_utilidad_neta_2023 := VNum 2000;
     M002.d_patrimonio_2024 := VNum 10000;
     M002.d_patrimonio_2023 := VNum 9800;
     M002.d_pagina_encontrada := VNum 2 |}.

(** Parsers of a document with a provision of 2^-600 and a coverage of
    2^600 in 2024 (1000 and 125% the year before) and total portfolios of
    16384 and 12800. *)
Definition tabla_provision_infima (_ : string) : result (option dict) :=
  Ok (Some [("provision_2024", VNum (1 # 2 ^ 600)); ("provision_2023", VNum 1000);
            ("cartera_2024", VNum 16384); ("cartera_2023", VNum 12800);
            ("pagina_encontrada", VNum 95)]).

Definition cobertura_enorme (_ : string) : result (option dict) :=
  Ok (Some [("cobertura_2024", VNum (inject_Z (2 ^ 600)));
            ("cobertura_2023", VNum 1.25);
            ("pagina_encontrada", VNum 95)]).

(** The text that [.0%] gives for 2^600. *)
Definition formato_enorme (_ : Q) : string :=
  "414951556888099295851240786369116115101244623224243689999565732969065281141290814639970704894710379428819788661130078918239515107541177530788687483411396368706118180340150952368537600%".

(** The record [extraer_metrica_m003] builds from these two in binary64,
    where the quotient of 2^-600 by 2^600 is 0.0: the overdue amount and the
    NPL ratio of 2024 are zero. *)
Definition m003_subdesbordado : M003.MetricaM003 :=
  {| M003.cartera_vencida_2024 := VNum 0;
     M003.cartera_vencida_2023 := VNum 800;
     M003.cartera_total_2024 := VNum 16384;
     M003.cartera_total_2023 := VNum 12800;
     M003.npl_ratio_2024 := VNum 0;
     M003.npl_ratio_2023 := VNum 0.0625;
     M003.calidad_cartera := "EXCELENTE";
     M003.provision_2024 := VNum (1 # 2 ^ 600);
     M003.provision_2023 := VNum 1000;
     M003.coverage_2024 := VNum (inject_Z (2 ^ 600));
     M003.coverage_2023 := VNum 1.25;
     M003.pagina_fuente := VNum 95;
     M003.fecha_extraccion := "2024-12-31";
     M003.id := "M003";
     M003.nombre := "NPL Ratio";
     M003.cambio_yoy := VNum (-0.0625);
     M003.cambio_absoluto_vencida := VNum (-800) |}.

End Ejemplos.

Module EjemploRun.

(** What the loop leaves for the sample document: M001, M003 and M004
    succeed, M005 fails. *)
Definition resultados : Orquestador.Resultados :=
  Orquestador.ejecutar_extractores Ejemplos.formato "informe.pdf"
    (Orquestador.extractores Ejemplos.tabla_provision Ejemplos.cobertura_vencida
       Ejemplos.calificacion_riesgo "2024-12-31")
    (Orquestador.resultados_iniciales "2024-12-31" "informe.pdf" "bancolombia"
       2024).

(** A report put together by hand in which M003 carries an overdue
    portfolio of zero. *)
Definition informe_vencida_nula : Orquestador.Resultados :=
  {| Orquestador.metadata := Orquestador.metadata resultados;
     Orquestador.metricas :=
       {[ "M001" := VDict [("valores", VDict [("2024", VDict [
                      ("provision", VNum 1000); ("ratio", VNum 0.05)])])];
          "M003" := VDict [("valores", VDict [("2024", VDict [
                      ("cartera_vencida", VNum 0); ("npl_ratio", VNum 0)])])];
          "M004" := VDict [("valores", VDict [("2024", VDict [
                      ("coverage_ratio", VNum 1.25)])])] ]};
     Orquestador.validacion := Orquestador.validacion resultados |}.

(** What the loop leaves in binary64 for the document of
    [Ejemplos.tabla_provision_infima] and [Ejemplos.cobertura_enorme]: the
    turns of M001, M004 and M005 as the loop body takes them, that of M003
    with the record whose overdue amount has underflowed to zero. *)
Definition informe_subdesbordado : Orquestador.Resultados :=
  let paso :=
    Orquestador.ejecutar_extractor Ejemplos.formato_enorme "informe.pdf" in
  let r0 :=
    Orquestador.resultados_iniciales "2024-12-31" "informe.pdf" "bancolombia"
      2024 in
  let r1 :=
    paso r0 ("M001",
             Orquestador.extraer_metrica_m001 Ejemplos.tabla_provision_infima
               "2024-12-31",
             "Provisión/Cartera Total") in
  let r3 :=
    paso r1 ("M003", fun _ => Ok (Some (Orquestador.DeM003
                                          Ejemplos.m003_subdesbordado)),
             "NPL Ratio") in
  let r4 :=
    paso r3 ("M004",
             Orquestador.extraer_metrica_m004 Ejemplos.cobertura_enorme
               "2024-12-31",
             "Coverage Ratio") in
  paso r4 ("M005",
           Orquestador.extraer_metrica_m005 Ejemplos.calificacion_riesgo
             "2024-12-31",
           "Cartera Riesgosa (C+D+E)").

End EjemploRun.

(** ** Year-over-year change *)

(** [cambio] is the difference of two numeric ratios, current minus prior. *)
Definition delta_yoy (actual previo cambio : value) : Prop :=
  ∃ a b : Q, actual = VNum a ∧ previo = VNum b ∧ cambio = VNum (a - b).

(** * Part II: properties *)

(** ** Facts about the Python layer *)

Module PyFacts.

Lemma Qlt_bool_iff x y : Qlt_bool x y = true ↔ x < y.
Proof.
  unfold Qlt_bool. rewrite negb_true_iff, <- not_true_iff_false, Qle_bool_iff.
  split; [apply Qnot_le_lt | apply Qlt_not_le].
Qed.

Lemma div_Ok a b c :
  div a b = Ok c → ∃ x y, a = VNum x ∧ b = VNum y ∧ ¬ y == 0 ∧ c = VNum (x / y).
Proof.
  destruct a as [|x| |], b as [|y| |]; simpl; try discriminate.
  destruct (Qeq_bool y 0) eqn:E; [discriminate|].
  intros [= <-]. exists x, y. repeat split; auto.
  rewrite <- Qeq_bool_iff, E. discriminate.
Qed.

Lemma div_num x y : ¬ y == 0 → div (VNum x) (VNum y) = Ok (VNum (x / y)).
Proof.
  intros H. simpl. destruct (Qeq_bool y 0) eqn:E; [|done].
  apply Qeq_bool_iff in E. contradiction.
Qed.

Lemma sub_Ok a b c :
  sub a b = Ok c → ∃ x y, a = VNum x ∧ b = VNum y ∧ c = VNum (x - y).
Proof.
  destruct a as [|x| |], b as [|y| |]; simpl; try discriminate.
  intros [= <-]. eauto.
Qed.

Lemma format_num_Ok v q : format_num v = Ok q → v = VNum q.
Proof. destruct v; simpl; congruence. Qed.

Lemma truthy_num q : truthy (VNum q) = true ↔ ¬ q == 0.
Proof.
  simpl. rewrite negb_true_iff, <- not_true_iff_false, Qeq_bool_iff. done.
Qed.

(** Invert a successful run of a monadic block, one step at a time: a bind
    succeeded on its first part, a guard was passed, a lookup was a hit. *)
Ltac inv_step H :=
  lazymatch type of H with
  | (?r ≫= _) = Ok _ =>
      let a := fresh "a" in
      let E := fresh "E" in
      revert H; destruct r as [a|?] eqn:E; intros H;
      [ cbn [mbind result_bind] in H | discriminate H ]
  | (if ?b then _ else _) = Ok _ =>
      let E := fresh "E" in
      revert H; destruct b eqn:E; intros H; try discriminate H
  | match ?o with Some _ => _ | None => _ end = Ok _ =>
      let E := fresh "E" in
      revert H; destruct o eqn:E; intros H; try discriminate H
  end.

Ltac inv_ok H := repeat inv_step H.

Lemma Qle_bool_false x y : Qle_bool x y = false ↔ y < x.
Proof.
  rewrite <- not_true_iff_false, Qle_bool_iff.
  split; [apply Qnot_le_lt | apply Qlt_not_le].
Qed.

(** Turn the boolean comparisons in the context and the goal into
    propositions. *)
Ltac q_props :=
  unfold Qlt_bool in *;
  repeat match goal with
  | H : negb _ = true |- _ => apply negb_true_iff in H
  | H : negb _ = false |- _ => apply negb_false_iff in H
  | H : _ && _ = true |- _ => apply andb_true_iff in H as [? ?]
  | H : Qle_bool _ _ = true |- _ => apply Qle_bool_iff in H
  | H : Qle_bool _ _ = false |- _ => apply Qle_bool_false in H
  end.

End PyFacts.
Import PyFacts.

(** ** Classifier totality *)

Module BandasFacts.
Import Bandas.

(** A classifier written as a cascade of comparisons classifies by its
    table: split on each comparison, pick the band, and refute the others
    by arithmetic. *)
Ltac cerrar_banda :=
  split; [ apply list_elem_of_In; simpl; tauto | ];
  split; [ unfold en_banda; simpl; unfold Qlt_bool;
           repeat match goal with H : Qle_bool _ _ = _ |- _ => rewrite H end;
           reflexivity | ];
  split; [ reflexivity | ];
  let b' := fresh "b'" in
  let Hb' := fresh "Hb'" in
  let Hin := fresh "Hin" in
  intros b' Hb' Hin; apply list_elem_of_In in Hb'; simpl in Hb';
  repeat match goal with H : _ ∨ _ |- _ => destruct H end;
  subst; try reflexivity; try contradiction;
  exfalso; unfold en_banda in Hin; simpl in Hin; q_props; lra.

Ltac elegir_banda tabla :=
  lazymatch tabla with
  | ?b :: ?t => first [ exists b; cerrar_banda | elegir_banda t ]
  end.

Ltac por_casos f tabla :=
  let r := fresh "r" in
  intros r; unfold f, Qlt_bool;
  repeat match goal with
  | |- context [Qle_bool ?a ?b] => destruct (Qle_bool a b) eqn:?
  end; simpl;
  let t := eval unfold tabla in tabla in elegir_banda t.

Lemma clasifica_m001 : clasifica m001 M001.evaluar_nivel_riesgo.
Proof. por_casos M001.evaluar_nivel_riesgo m001. Qed.

Lemma clasifica_m002 : clasifica m002 M002.evaluar_desempeno.
Proof. por_casos M002.evaluar_desempeno m002. Qed.

Lemma clasifica_m003 : clasifica m003 M003.evaluar_calidad_cartera.
Proof. por_casos M003.evaluar_calidad_cartera m003. Qed.

Lemma clasifica_m004 : clasifica m004 M004.evaluar_nivel_cobertura.
Proof. por_casos M004.evaluar_nivel_cobertura m004. Qed.

Lemma clasifica_m005 : clasifica m005 M005.evaluar_nivel_riesgo.
Proof. unfold m005. por_casos M005.evaluar_nivel_riesgo m003. Qed.

End BandasFacts.

(** ** The numeric token extractor *)

Module StrFacts.
Import Str.

Lemma append_cons c (s t : string) : String c s +:+ t = String c (s +:+ t).
Proof. reflexivity. Qed.

Lemma append_nil_r (s : string) : s +:+ "" = s.
Proof.
  induction s as [|c s IH]; [done|]. by rewrite append_cons, IH.
Qed.

Lemma append_assoc (a b c : string) : (a +:+ b) +:+ c = a +:+ (b +:+ c).
Proof.
  induction a as [|x a IH]; [done|]. by rewrite !append_cons, IH.
Qed.

Lemma span_clase_length s g r :
  span_clase s = (g, r) → (String.length r <= String.length s)%nat.
Proof.
  revert g r. induction s as [|c t IH]; intros g r; simpl.
  - intros [= <- <-]. simpl. lia.
  - destruct (es_clase c).
    + destruct (span_clase t) as [g' r'] eqn:E. intros [= <- <-].
      specialize (IH _ _ eq_refl). lia.
    + intros [= <- <-]. simpl. lia.
Qed.

Lemma span_clase_length_lt s g r :
  span_clase s = (g, r) → g ≠ "" → (String.length r < String.length s)%nat.
Proof.
  destruct s as [|c t]; simpl.
  - intros [= <- <-]. congruence.
  - destruct (es_clase c).
    + destruct (span_clase t) as [g' r'] eqn:E. intros [= <- <-] _.
      apply span_clase_length in E. lia.
    + intros [= <- <-]. congruence.
Qed.

Lemma tras_cierre_length r :
  (String.length (tras_cierre r) <= String.length r)%nat.
Proof.
  destruct r as [|c t]; simpl; [lia|]. destruct (Ascii.eqb c ")"); simpl; lia.
Qed.

(** Reading on from [g] through [s]: the run that [span_clase] takes off the
    head of [s] completes [g], and the scan starts afresh on what is left. *)
Lemma grupos_aux_span s : ∀ g h r,
  span_clase s = (h, r) → grupos_aux g s = emitir (g +:+ h) ++ grupos r.
Proof.
  induction s as [|c t IH]; intros g h r; simpl.
  - intros [= <- <-]. rewrite append_nil_r. unfold grupos. simpl.
    by rewrite app_nil_r.
  - destruct (es_clase c) eqn:Ec.
    + destruct (span_clase t) as [h' r'] eqn:E. intros [= <- <-].
      rewrite (IH _ _ _ eq_refl). by rewrite append_assoc.
    + intros [= <- <-]. rewrite append_nil_r. unfold grupos. simpl.
      by rewrite Ec.
Qed.

Lemma grupos_tras_cierre r : grupos (tras_cierre r) = grupos r.
Proof.
  destruct r as [|c t]; simpl; [done|].
  destruct (Ascii.eqb c ")") eqn:E; [|done].
  apply Ascii.eqb_eq in E as ->. reflexivity.
Qed.

Lemma grupos_no_clase c t : es_clase c = false → grupos (String c t) = grupos t.
Proof. intros E. unfold grupos. simpl. by rewrite E. Qed.

Lemma match_grupo_None s : match_grupo s = None → span_clase s = ("", s).
Proof.
  unfold match_grupo. destruct s as [|c t]; simpl; [done|].
  destruct (es_clase c); [|done].
  destruct (span_clase t); discriminate.
Qed.

Lemma match_grupo_Some s g r :
  match_grupo s = Some (g, r) →
  grupos s = g :: grupos r ∧ (String.length r < String.length s)%nat.
Proof.
  unfold match_grupo. destruct (span_clase s) as [h r'] eqn:E.
  destruct h as [|c h]; [discriminate|]. intros [= <- <-]. split.
  - unfold grupos at 1. rewrite (grupos_aux_span _ _ _ _ E). simpl.
    by rewrite grupos_tras_cierre.
  - apply span_clase_length_lt in E; [|done].
    pose proof (tras_cierre_length r'). lia.
Qed.

Lemma match_patron_Some s g r :
  match_patron s = Some (g, r) →
  grupos s = g :: grupos r ∧ (String.length r < String.length s)%nat.
Proof.
  destruct s as [|c t]; [discriminate|]. unfold match_patron.
  destruct (Ascii.eqb c "(") eqn:Ec.
  - apply Ascii.eqb_eq in Ec as ->.
    destruct (match_grupo t) as [[g' r']|] eqn:E.
    + intros [= <- <-]. apply match_grupo_Some in E as [E1 E2]. split.
      * by rewrite grupos_no_clase.
      * simpl. lia.
    + apply match_grupo_Some.
  - apply match_grupo_Some.
Qed.

Lemma match_patron_None c t :
  match_patron (String c t) = None → grupos (String c t) = grupos t.
Proof.
  unfold match_patron. destruct (Ascii.eqb c "(") eqn:Ec.
  - apply Ascii.eqb_eq in Ec as ->. intros _. by apply grupos_no_clase.
  - intros E. apply match_grupo_None in E. simpl in E.
    destruct (es_clase c) eqn:E'.
    + destruct (span_clase t); discriminate.
    + by apply grupos_no_clase.
Qed.

Lemma toda_clase_app g h :
  toda_clase (g +:+ h) = toda_clase g && toda_clase h.
Proof.
  induction g as [|c g IH]; [done|].
  rewrite append_cons. simpl. by rewrite IH, andb_assoc.
Qed.

(** Every run is a non-empty string of digits and commas. *)
Lemma grupos_aux_clase s : ∀ g,
  toda_clase g = true →
  Forall (fun h => h ≠ "" ∧ toda_clase h = true) (grupos_aux g s).
Proof.
  assert (Hemitir : ∀ g, toda_clase g = true →
            Forall (fun h => h ≠ "" ∧ toda_clase h = true) (emitir g)).
  { intros [|c g] Hg; simpl; [constructor|]. by repeat constructor. }
  induction s as [|c t IH]; intros g Hg; simpl; [by apply Hemitir|].
  destruct (es_clase c) eqn:Ec.
  - apply IH. rewrite toda_clase_app, Hg. simpl. by rewrite Ec.
  - apply Forall_app. split; [by apply Hemitir | by apply IH].
Qed.

Lemma grupos_clase s :
  Forall (fun h => h ≠ "" ∧ toda_clase h = true) (grupos s).
Proof. by apply grupos_aux_clase. Qed.

Lemma findall_fuel_S fuel c t :
  findall_fuel (S fuel) (String c t)
  = match match_patron (String c t) with
    | Some (g, r) => g :: findall_fuel fuel r
    | None => findall_fuel fuel t
    end.
Proof. reflexivity. Qed.

(** With as many scan steps as the line has characters, [re.findall] yields
    exactly the maximal runs of digits and commas. *)
Lemma findall_fuel_grupos fuel : ∀ s,
  (String.length s <= fuel)%nat → findall_fuel fuel s = grupos s.
Proof.
  induction fuel as [|fuel IH]; intros s Hs.
  - destruct s; [reflexivity | simpl in Hs; lia].
  - destruct s as [|c t]; [reflexivity|]. rewrite findall_fuel_S.
    destruct (match_patron (String c t)) as [[g r]|] eqn:E.
    + apply match_patron_Some in E as [-> Hlt].
      rewrite IH; [done | simpl in *; lia].
    + rewrite (match_patron_None _ _ E). apply IH. simpl in Hs. lia.
Qed.

Lemma findall_grupos s : findall s = grupos s.
Proof. apply findall_fuel_grupos. done. Qed.

End StrFacts.

(** ** The ROE extractor (M002) *)

Module M002Facts.
Import Str StrFacts M002.

Lemma foldl_agregar_numero ms : ∀ numeros,
  foldl agregar_numero numeros ms
  = numeros ++ List.filter (Qlt_bool 1000) (omap magnitud ms).
Proof.
  induction ms as [|m ms IH]; intros numeros; simpl.
  - by rewrite app_nil_r.
  - rewrite IH. unfold agregar_numero, magnitud.
    destruct (float (sin_comas m)) as [numero|]; simpl; [|done].
    destruct (Qlt_bool 1000 numero); simpl; [|done].
    by rewrite <- app_assoc.
Qed.

(** The loop of the source is a filter over the magnitudes of the runs. *)
Lemma extraer_numeros_de_linea_filter linea :
  extraer_numeros_de_linea linea
  = List.filter (Qlt_bool 1000) (omap magnitud (grupos linea)).
Proof.
  unfold extraer_numeros_de_linea.
  by rewrite foldl_agregar_numero, findall_grupos.
Qed.

Lemma extraer_numeros_de_linea_gt linea n :
  n ∈ extraer_numeros_de_linea linea → 1000 < n.
Proof.
  rewrite extraer_numeros_de_linea_filter, list_elem_of_In, filter_In.
  intros [_ H]. by apply Qlt_bool_iff.
Qed.

Lemma index_neg_Ok {A} (l : list A) k :
  (1 <= k)%nat → (k <= length l)%nat → ∃ x, index_neg l k = Ok x ∧ x ∈ l.
Proof.
  intros H1 H2. unfold index_neg.
  destruct (Nat.leb_spec k (length l)); [|lia].
  destruct (l !! (length l - k)%nat) as [x|] eqn:E.
  - exists x. split; [done|]. by eapply list_elem_of_lookup_2.
  - apply lookup_ge_None in E. lia.
Qed.

Lemma campo_ok_abs n : 1000 < n → campo_ok (VNum (Qabs n)).
Proof.
  intros H. right. exists (Qabs n). split; [done|].
  eapply Qlt_le_trans; [exact H | apply Qle_Qabs].
Qed.

Lemma datos_iniciales_ok : datos_ok datos_iniciales.
Proof. split; simpl; try (by left); done. Qed.

Lemma descartar_ok d : datos_ok d → datos_ok (descartar d).
Proof. intros []. split; simpl; try (by left); done. Qed.

Lemma buscar_utilidad_ok n linea ll d :
  datos_ok d → ∃ d', buscar_utilidad n linea ll d = Ok d' ∧ datos_ok d'.
Proof.
  intros Hd. unfold buscar_utilidad.
  destruct (_ || _); [|by eauto].
  destruct (negb _); [|by eauto].
  destruct (_ && _) eqn:E; [|by eauto].
  apply andb_true_iff in E as [E _]. apply Nat.leb_le in E.
  destruct (index_neg_Ok (extraer_numeros_de_linea linea) 2) as (x & -> & Hx);
    [lia | done |].
  destruct (index_neg_Ok (extraer_numeros_de_linea linea) 1) as (y & -> & Hy);
    [lia | lia |].
  simpl. eexists. split; [done|].
  apply extraer_numeros_de_linea_gt in Hx, Hy.
  destruct Hd. split; simpl; auto using campo_ok_abs; done.
Qed.

Lemma buscar_patrimonio_ok linea ll d :
  datos_ok d → ∃ d', buscar_patrimonio linea ll d = Ok d' ∧ datos_ok d'.
Proof.
  intros Hd. unfold buscar_patrimonio.
  destruct (_ || _); [|by eauto].
  destruct (_ && _) eqn:E; [|by eauto].
  apply andb_true_iff in E as [E _]. apply Nat.leb_le in E.
  destruct (index_neg_Ok (extraer_numeros_de_linea linea) 2) as (x & -> & Hx);
    [lia | done |].
  destruct (index_neg_Ok (extraer_numeros_de_linea linea) 1) as (y & -> & Hy);
    [lia | lia |].
  simpl. eexists. split; [done|].
  apply extraer_numeros_de_linea_gt in Hx, Hy.
  destruct Hd. split; simpl; auto using campo_ok_abs; done.
Qed.

Lemma truthy_gt q : 1000 < q → truthy (VNum q) = true.
Proof. intros H. apply truthy_num. intros E. lra. Qed.

Lemma div_gt x y : 1000 < y → div (VNum x) (VNum y) = Ok (VNum (x / y)).
Proof. intros H. apply div_num. intros E. lra. Qed.

Lemma roe_razonable_num x :
  roe_razonable (VNum x) = Ok (Qlt_bool (-0.10) x && Qlt_bool x 0.30).
Proof.
  unfold roe_razonable. simpl. by destruct (Qlt_bool (-0.10) x).
Qed.

Lemma razonable_bool x :
  Qlt_bool (-0.10) x && Qlt_bool x 0.30 = true ↔ razonable x.
Proof.
  unfold razonable. by rewrite andb_true_iff, !Qlt_bool_iff.
Qed.

Lemma promedio_no_nulo p q : 1000 < p → 1000 < q → ¬ (p + q) / 2 == 0.
Proof.
  intros H1 H2 H.
  assert (E : (p + q) / 2 == (p + q) * (1 # 2)) by (unfold Qdiv; reflexivity).
  rewrite E in H. lra.
Qed.

Lemma construir_Ok ahora d u24 u23 p24 p23 :
  d_utilidad_neta_2024 d = VNum u24 → d_utilidad_neta_2023 d = VNum u23 →
  d_patrimonio_2024 d = VNum p24 → d_patrimonio_2023 d = VNum p23 →
  1000 < p24 → 1000 < p23 →
  ∃ m, construir ahora d = Ok m ∧ metrica_de u24 u23 p24 p23 m.
Proof.
  intros E1 E2 E3 E4 H24 H23. unfold construir. rewrite E1, E2, E3, E4.
  cbn [add mbind result_bind].
  rewrite (div_num (p24 + p23) 2) by (intros E; lra).
  cbn [mbind result_bind].
  rewrite (div_num u24 _ (promedio_no_nulo _ _ H24 H23)).
  cbn [mbind result_bind]. rewrite (div_gt u23 p23 H23).
  cbn [mbind result_bind num nueva sub].
  eexists. split; [reflexivity|]. unfold metrica_de; simpl. repeat split.
Qed.

(** The three ways the validation block can end. *)
Lemma validar_y_salir_casos ahora d :
  datos_ok d →
  ((d_utilidad_neta_2024 d = VNone ∨ d_patrimonio_2024 d = VNone)
   ∧ validar_y_salir ahora d = Ok (Continue d))
  ∨ (∃ u p, d_utilidad_neta_2024 d = VNum u ∧ d_patrimonio_2024 d = VNum p
       ∧ ¬ razonable (u / p)
       ∧ validar_y_salir ahora d = Ok (Continue (descartar d)))
  ∨ (∃ u24 u23 p24 p23 m,
       d_utilidad_neta_2024 d = VNum u24 ∧ d_patrimonio_2024 d = VNum p24
       ∧ razonable (u24 / p24) ∧ metrica_de u24 u23 p24 p23 m
       ∧ validar_y_salir ahora d = Ok (Return m)).
Proof.
  intros [Hu24 Hu23 Hp24 Hp23 Hu Hp]. unfold validar_y_salir.
  destruct Hu24 as [Eu|(u24 & Eu & Gu)].
  { left. rewrite Eu. simpl. auto. }
  destruct Hp24 as [Ep|(p24 & Ep & Gp)].
  { left. rewrite Ep. rewrite andb_false_r. auto. }
  right. rewrite Eu, Ep, (truthy_gt _ Gu), (truthy_gt _ Gp), (div_gt _ _ Gp).
  cbn [andb mbind result_bind]. rewrite roe_razonable_num.
  cbn [mbind result_bind].
  destruct (Qlt_bool (-0.10) (u24 / p24) && Qlt_bool (u24 / p24) 0.30) eqn:E.
  - right. apply razonable_bool in E.
    destruct Hu23 as [Eu3|(u23 & Eu3 & _)]; [rewrite Eu in Hu; by destruct Hu|].
    destruct Hp23 as [Ep3|(p23 & Ep3 & Gp3)]; [rewrite Ep in Hp; by destruct Hp|].
    destruct (construir_Ok ahora d u24 u23 p24 p23) as (m & -> & Hm); try done.
    exists u24, u23, p24, p23, m. do 3 (split; [done|]). split; done.
  - left. exists u24, p24. split; [done|]. split; [done|]. split; [|done].
    rewrite <- razonable_bool, E. discriminate.
Qed.

Lemma procesar_linea_ok ahora n linea d :
  datos_ok d →
  (∃ d', procesar_linea ahora n linea d = Ok (Continue d') ∧ datos_ok d')
  ∨ (∃ m, procesar_linea ahora n linea d = Ok (Return m) ∧ retorno_ok m).
Proof.
  intros Hd. unfold procesar_linea.
  destruct (buscar_utilidad_ok n linea (lower linea) d Hd) as (d1 & -> & Hd1).
  cbn [mbind result_bind].
  destruct (buscar_patrimonio_ok linea (lower linea) d1 Hd1) as (d2 & -> & Hd2).
  cbn [mbind result_bind].
  destruct (validar_y_salir_casos ahora d2 Hd2)
    as [[_ ->]|[(u & p & _ & _ & _ & ->)|(u24 & u23 & p24 & p23 & m & _ & _ & Hr & Hm & ->)]].
  - left. eauto.
  - left. eauto using descartar_ok.
  - right. exists m. split; [done|]. by exists u24, u23, p24, p23.
Qed.

(** An implausible match is dropped and the scan goes on with the next
    line. *)
Lemma procesar_linea_descarta ahora n linea d d1 d2 u p :
  datos_ok d →
  buscar_utilidad n linea (lower linea) d = Ok d1 →
  buscar_patrimonio linea (lower linea) d1 = Ok d2 →
  d_utilidad_neta_2024 d2 = VNum u → d_patrimonio_2024 d2 = VNum p →
  ¬ razonable (u / p) →
  procesar_linea ahora n linea d = Ok (Continue (descartar d2)).
Proof.
  intros Hd E1 E2 Eu Ep Hno. unfold procesar_linea. rewrite E1.
  cbn [mbind result_bind]. rewrite E2. cbn [mbind result_bind].
  destruct (buscar_utilidad_ok n linea (lower linea) d Hd) as (d1' & E1' & Hd1).
  destruct (buscar_patrimonio_ok linea (lower linea) d1' Hd1) as (d2' & E2' & Hd2).
  assert (d1' = d1) as -> by congruence.
  assert (d2' = d2) as -> by congruence.
  destruct (validar_y_salir_casos ahora d2 Hd2)
    as [[[?|?] _]|[(u' & p' & _ & _ & _ & ->)|(u24 & u23 & p24 & p23 & m & Eu' & Ep' & Hr & _)]];
    congruence.
Qed.

Lemma recorrer_lineas_ok ahora n lineas : ∀ d,
  datos_ok d →
  (∃ d', recorrer_lineas ahora n lineas d = Ok (Continue d') ∧ datos_ok d')
  ∨ (∃ m, recorrer_lineas ahora n lineas d = Ok (Return m) ∧ retorno_ok m).
Proof.
  induction lineas as [|linea resto IH]; intros d Hd; simpl.
  - left. eauto.
  - destruct (procesar_linea_ok ahora n linea d Hd)
      as [(d' & -> & Hd')|(m & -> & Hm)]; cbn [mbind result_bind].
    + by apply IH.
    + right. eauto.
Qed.

Lemma recorrer_paginas_ok ahora paginas : ∀ n d,
  datos_ok d →
  recorrer_paginas ahora n paginas d = Ok None
  ∨ ∃ m, recorrer_paginas ahora n paginas d = Ok (Some m) ∧ retorno_ok m.
Proof.
  induction paginas as [|texto resto IH]; intros n d Hd; simpl.
  - by left.
  - destruct texto as [texto|]; [|by apply IH].
    destruct (negb _); [by apply IH|].
    destruct (recorrer_lineas_ok ahora n (split_lines texto) d Hd)
      as [(d' & -> & Hd')|(m & -> & Hm)]; cbn [mbind result_bind].
    + by apply IH.
    + right. eauto.
Qed.

(** The extractor never raises: it answers [None], or a record that passed
    the plausibility check. *)
Lemma extraer_metrica_m002_ok ahora existe paginas :
  extraer_metrica_m002 ahora existe paginas = Ok None
  ∨ ∃ m, extraer_metrica_m002 ahora existe paginas = Ok (Some m) ∧ retorno_ok m.
Proof.
  unfold extraer_metrica_m002. destruct existe; simpl; [|by left].
  apply recorrer_paginas_ok, datos_iniciales_ok.
Qed.

End M002Facts.

(** ** The extractors of the catalogue *)

Module ExtractorFacts.

Lemma num_Ok v q : num v = Ok q → v = VNum q.
Proof. destruct v; simpl; congruence. Qed.

Lemma add_Ok a b c :
  add a b = Ok c →
  (∃ x y, a = VNum x ∧ b = VNum y ∧ c = VNum (x + y))
  ∨ (∃ s t, a = VStr s ∧ b = VStr t ∧ c = VStr (s +:+ t)).
Proof.
  destruct a as [|x|s|], b as [|y|t|]; simpl; try discriminate;
    intros [= <-]; eauto 10.
Qed.

(** Read the values out of the successful steps. *)
Ltac inv_vals :=
  repeat match goal with
  | H : div _ _ = Ok _ |- _ =>
      apply div_Ok in H as (? & ? & ? & ? & ? & ?); subst
  | H : sub _ _ = Ok _ |- _ =>
      apply sub_Ok in H as (? & ? & ? & ? & ?); subst
  | H : add _ _ = Ok _ |- _ =>
      apply add_Ok in H as [(? & ? & ? & ? & ?)|(? & ? & ? & ? & ?)]; subst
  | H : format_num _ = Ok _ |- _ => apply format_num_Ok in H; subst
  | H : num _ = Ok _ |- _ => apply num_Ok in H; subst
  | H : VNum _ = VNum _ |- _ => injection H as H; subst
  | H : VStr _ = VNum _ |- _ => discriminate H
  | H : VNum _ = VStr _ |- _ => discriminate H
  | H : Ok _ = Ok _ |- _ => injection H as H; subst
  | H : Some _ = Some _ |- _ => injection H as H; subst
  | H : negb _ = false |- _ => apply negb_false_iff in H
  | H : truthy (VNum _) = true |- _ => apply truthy_num in H
  end.

(** A successful extraction of M001 in terms of the four located values. *)
Lemma extraer_metrica_m001_Some tp ahora ruta m :
  M001.extraer_metrica_m001 tp ahora ruta = Ok (Some m) →
  ∃ p24 p23 c24 c23, M001.de_valores p24 p23 c24 c23 m.
Proof.
  unfold M001.extraer_metrica_m001. intros H. inv_ok H.
  match goal with
  | H : M001.nueva _ _ _ _ _ _ _ _ _ = Ok _ |- _ =>
      unfold M001.nueva in H; inv_ok H
  end.
  inv_vals.
  do 4 eexists. unfold M001.de_valores; simpl. by repeat split.
Qed.

Lemma extraer_metrica_m003_Some tp cv ahora ruta m :
  M003.extraer_metrica_m003 tp cv ahora ruta = Ok (Some m) →
  ∃ p24 p23 c24 c23 t24 t23, M003.de_valores p24 p23 c24 c23 t24 t23 m.
Proof.
  unfold M003.extraer_metrica_m003, M003.calcular_cartera_vencida_desde_cobertura.
  intros H. inv_ok H.
  match goal with
  | H : M003.nueva _ _ _ _ _ _ _ _ _ _ _ _ _ = Ok _ |- _ =>
      unfold M003.nueva in H; inv_ok H
  end.
  inv_vals.
  do 6 eexists. unfold M003.de_valores; simpl. by repeat split.
Qed.

Lemma extraer_metrica_m004_Some cv ahora ruta m :
  M004.extraer_metrica_m004 cv ahora ruta = Ok (Some m) →
  ∃ c24 c23, M004.de_valores c24 c23 m.
Proof.
  unfold M004.extraer_metrica_m004. intros H. inv_ok H.
  match goal with
  | H : M004.nueva _ _ _ _ _ = Ok _ |- _ => unfold M004.nueva in H; inv_ok H
  end.
  inv_vals.
  do 2 eexists. unfold M004.de_valores; simpl. by repeat split.
Qed.

Lemma extraer_metrica_m005_Some cr ahora ruta m :
  M005.extraer_metrica_m005 cr ahora ruta = Ok (Some m) →
  ∃ c24 d24 e24 t24 c23 d23 e23 t23,
    M005.de_valores c24 d24 e24 t24 c23 d23 e23 t23 m.
Proof.
  unfold M005.extraer_metrica_m005. intros H. inv_ok H.
  match goal with
  | H : M005.nueva _ _ _ _ _ _ _ _ _ _ _ _ _ _ _ _ _ = Ok _ |- _ =>
      unfold M005.nueva in H; inv_ok H
  end.
  inv_vals.
  do 8 eexists. unfold M005.de_valores; simpl. by repeat split.
Qed.

End ExtractorFacts.

(** ** Coherence validation *)

Module CoherenciaFacts.
Import Orquestador.

(** The NPL ratio that the second rule reads from the dictionary of a
    record of M003 is a number. *)
Lemma valor_m003 (metricas : gmap string value) d :
  metricas !! "M003" = Some d → es_m003 d →
  ∃ npl, valor_2024 metricas "M003" "npl_ratio" = Ok (VNum npl).
Proof.
  intros Hd (m & p24 & p23 & c24 & c23 & t24 & t23 & Hm & Ht).
  destruct Hm as (_ & _ & _ & _ & _ & _ & _ & _ & _ & _ & _ & _ & _ & E2 & _).
  unfold M003.to_dict in Ht. injection Ht as <-.
  exists (p24 / c24 / t24). unfold valor_2024, metricas_getitem.
  rewrite Hd. simpl. by rewrite E2.
Qed.

Lemma con_coherencia_id r : con_coherencia (coherencia (validacion r)) r = r.
Proof. by destruct r as [? ? []]. Qed.

Lemma aplicar_lookup k o (c : gmap string bool) :
  aplicar k o c !! k = match o with Some b => Some b | None => c !! k end.
Proof. destruct o; simpl; [by rewrite lookup_insert_eq | done]. Qed.

Lemma aplicar_lookup_ne k k' o (c : gmap string bool) :
  k ≠ k' → aplicar k o c !! k' = c !! k'.
Proof. intros H. destruct o; simpl; [by rewrite lookup_insert_ne | done]. Qed.

(** Each annotation is read back as its own rule left it: the other rules do
    not touch it. *)
Lemma coherencia_esperada_lookup metricas (c : gmap string bool) :
  coherencia_esperada metricas c !! "coverage_coherente"
  = match anotacion_coverage metricas with
    | Some b => Some b
    | None => c !! "coverage_coherente"
    end
  ∧ coherencia_esperada metricas c !! "riesgosa_mayor_que_npl"
    = match anotacion_riesgosa metricas with
      | Some b => Some b
      | None => c !! "riesgosa_mayor_que_npl"
      end
  ∧ coherencia_esperada metricas c !! "provision_rango_valido"
    = match anotacion_rango metricas with
      | Some b => Some b
      | None => c !! "provision_rango_valido"
      end.
Proof.
  unfold coherencia_esperada. repeat split.
  - rewrite !aplicar_lookup_ne by done. apply aplicar_lookup.
  - rewrite aplicar_lookup_ne by done. rewrite aplicar_lookup.
    destruct (anotacion_riesgosa metricas); [done|].
    by rewrite aplicar_lookup_ne.
  - rewrite aplicar_lookup. destruct (anotacion_rango metricas); [done|].
    by rewrite !aplicar_lookup_ne.
Qed.

End CoherenciaFacts.

(** ** The extraction loop *)

Module OrquestadorFacts.
Import Orquestador ExtractorFacts CoherenciaFacts.

Section Lazo.

Context (formato_pct : Q → string) (ruta_pdf : string).

Local Abbreviation resultado_de := (resultado_de formato_pct ruta_pdf).
Local Abbreviation ejecutar_extractor := (ejecutar_extractor formato_pct ruta_pdf).
Local Abbreviation ejecutar_extractores := (ejecutar_extractores formato_pct ruta_pdf).
Local Abbreviation exitos := (exitos formato_pct ruta_pdf).
Local Abbreviation fallos := (fallos formato_pct ruta_pdf).

(** The loop body, by the outcome of the extractor. *)
Lemma ejecutar_extractor_resultado r e :
  ejecutar_extractor r e
  = match resultado_de (funcion_de e) with
    | Some d => anotar_exito (id_de e) d r
    | None => anotar_fallo (id_de e) r
    end.
Proof.
  destruct e as [[k f] n]. unfold ejecutar_extractor, intentar, Orquestador.resultado_de.
  cbn [funcion_de id_de fst snd].
  destruct (f ruta_pdf) as [[m|]|]; cbn [mbind result_bind]; [|done..].
  by destruct (to_dict formato_pct m).
Qed.

(** The exception handler: an extractor that raises is a failure. *)
Lemma resultado_de_raises f : raises (f ruta_pdf) → resultado_de f = None.
Proof. intros [e He]. unfold Orquestador.resultado_de. by rewrite He. Qed.

Lemma resultado_de_Some f m d :
  f ruta_pdf = Ok (Some m) → to_dict formato_pct m = Ok d →
  resultado_de f = Some d.
Proof. intros Hf Hd. unfold Orquestador.resultado_de. by rewrite Hf, Hd. Qed.

Lemma ejecutar_extractores_cons e catalogo r :
  ejecutar_extractores (e :: catalogo) r
  = ejecutar_extractores catalogo (ejecutar_extractor r e).
Proof. reflexivity. Qed.

(** The loop touches neither the metadata nor the annotations. *)
Lemma ejecutar_extractores_marco catalogo : ∀ r,
  metadata (ejecutar_extractores catalogo r) = metadata r
  ∧ coherencia (validacion (ejecutar_extractores catalogo r))
    = coherencia (validacion r).
Proof.
  induction catalogo as [|e catalogo IH]; intros r; [done|].
  rewrite ejecutar_extractores_cons.
  destruct (IH (ejecutar_extractor r e)) as [-> ->].
  rewrite ejecutar_extractor_resultado. by destruct (resultado_de _).
Qed.

(** The two lists grow by the successes and by the failures. *)
Lemma ejecutar_extractores_listas catalogo : ∀ r,
  metricas_exitosas (validacion (ejecutar_extractores catalogo r))
  = metricas_exitosas (validacion r) ++ (exitos catalogo).*1
  ∧ metricas_fallidas (validacion (ejecutar_extractores catalogo r))
    = metricas_fallidas (validacion r) ++ fallos catalogo.
Proof.
  induction catalogo as [|e catalogo IH]; intros r.
  - simpl. by rewrite !app_nil_r.
  - rewrite ejecutar_extractores_cons.
    destruct (IH (ejecutar_extractor r e)) as [-> ->].
    rewrite ejecutar_extractor_resultado.
    unfold Orquestador.exitos, Orquestador.fallos. cbn [omap list_omap].
    destruct (resultado_de _); simpl; by rewrite <- !app_assoc.
Qed.

(** Every id of the catalogue ends in one of the two lists. *)
Lemma exitos_fallos_perm catalogo :
  id_de <$> catalogo ≡ₚ (exitos catalogo).*1 ++ fallos catalogo.
Proof.
  induction catalogo as [|e catalogo IH]; [done|].
  unfold Orquestador.exitos, Orquestador.fallos. cbn [omap list_omap fmap list_fmap].
  destruct (resultado_de _); simpl.
  - by f_equiv.
  - rewrite <- Permutation_middle. by f_equiv.
Qed.

(** The keys of the mapping are the successes. *)
Lemma ejecutar_extractores_dom catalogo : ∀ r,
  dom (metricas (ejecutar_extractores catalogo r))
  = dom (metricas r) ∪ list_to_set (exitos catalogo).*1.
Proof.
  induction catalogo as [|e catalogo IH]; intros r.
  - simpl. set_solver.
  - rewrite ejecutar_extractores_cons, IH, ejecutar_extractor_resultado.
    unfold Orquestador.exitos. cbn [omap list_omap].
    destruct (resultado_de _); simpl; [|done].
    rewrite dom_insert_L. set_solver.
Qed.

(** What is stored under an id: the dictionary of its extractor, the entry
    being written once and never touched by the other iterations. *)
Lemma ejecutar_extractores_lookup catalogo : ∀ r,
  NoDup (id_de <$> catalogo) →
  (∀ e, e ∈ catalogo →
     metricas (ejecutar_extractores catalogo r) !! id_de e
     = match resultado_de (funcion_de e) with
       | Some d => Some d
       | None => metricas r !! id_de e
       end)
  ∧ (∀ k, k ∉ id_de <$> catalogo →
       metricas (ejecutar_extractores catalogo r) !! k = metricas r !! k).
Proof.
  induction catalogo as [|e0 catalogo IH]; intros r Hnd.
  - split; [intros e He; by apply elem_of_nil in He | done].
  - rewrite fmap_cons in Hnd. apply NoDup_cons in Hnd as [Hnotin Hnd].
    destruct (IH (ejecutar_extractor r e0) Hnd) as [IH1 IH2].
    assert (Hpaso : ∀ k, k ≠ id_de e0 →
              metricas (ejecutar_extractor r e0) !! k = metricas r !! k).
    { intros k Hk. rewrite ejecutar_extractor_resultado.
      destruct (resultado_de _); simpl; [|done]. by rewrite lookup_insert_ne. }
    split.
    + intros e He. rewrite ejecutar_extractores_cons.
      apply elem_of_cons in He as [->|He].
      * rewrite (IH2 _ Hnotin), ejecutar_extractor_resultado.
        destruct (resultado_de _); simpl; [|done]. by rewrite lookup_insert_eq.
      * rewrite (IH1 _ He). destruct (resultado_de _); [done|].
        apply Hpaso. intros Heq. apply Hnotin. rewrite <- Heq.
        by apply list_elem_of_fmap_2.
    + intros k Hk. rewrite fmap_cons in Hk. apply not_elem_of_cons in Hk as [Hk1 Hk2].
      rewrite ejecutar_extractores_cons, (IH2 _ Hk2). by apply Hpaso.
Qed.

Lemma elem_of_fallos catalogo e :
  e ∈ catalogo → resultado_de (funcion_de e) = None → id_de e ∈ fallos catalogo.
Proof.
  intros He Hr. unfold Orquestador.fallos. apply list_elem_of_omap.
  exists e. split; [done|]. by rewrite Hr.
Qed.

Lemma elem_of_exitos catalogo e d :
  e ∈ catalogo → resultado_de (funcion_de e) = Some d →
  id_de e ∈ (exitos catalogo).*1.
Proof.
  intros He Hr. apply list_elem_of_fmap. exists (id_de e, d). split; [done|].
  unfold Orquestador.exitos. apply list_elem_of_omap.
  exists e. split; [done|]. by rewrite Hr.
Qed.

End Lazo.

(** Two lists that together are a repetition-free list split it. *)
Lemma listas_particion (ex fa ids : list string) :
  ex ++ fa ≡ₚ ids → NoDup ids →
  ∀ k, k ∈ ids → (k ∈ ex ∧ k ∉ fa) ∨ ((k ∉ ex) ∧ k ∈ fa).
Proof.
  intros Hp Hnd k Hk. rewrite <- Hp in Hnd, Hk.
  apply NoDup_app in Hnd as (_ & Hdis & _).
  apply elem_of_app in Hk as [Hk|Hk].
  - left. split; [done|]. by apply Hdis.
  - right. split; [|done]. intros Hex. by apply (Hdis _ Hex).
Qed.

Section Catalogo.

Context (extraer_tabla_provision extraer_cobertura_vencida
           extraer_calificacion_riesgo : string → result (option dict))
        (ahora : string) (formato_pct : Q → string) (ruta_pdf : string).

Local Abbreviation extractores :=
  (extractores extraer_tabla_provision extraer_cobertura_vencida
     extraer_calificacion_riesgo ahora).
Local Abbreviation resultado_de := (resultado_de formato_pct ruta_pdf).
Local Abbreviation ejecutar_extractores :=
  (ejecutar_extractores formato_pct ruta_pdf).

Lemma ids_extractores : id_de <$> extractores = ["M001"; "M003"; "M004"; "M005"].
Proof. reflexivity. Qed.

Lemma ids_extractores_NoDup : NoDup (id_de <$> extractores).
Proof.
  rewrite ids_extractores. apply (bool_decide_unpack _). by vm_compute.
Qed.

(** Whatever an extractor of the catalogue contributes is the dictionary of
    a record of its metric. *)
Lemma resultado_m001 d :
  resultado_de (extraer_metrica_m001 extraer_tabla_provision ahora) = Some d →
  es_m001 d.
Proof.
  unfold Orquestador.resultado_de, extraer_metrica_m001.
  destruct (M001.extraer_metrica_m001 _ _ _) as [[m|]|] eqn:E;
    cbn [mbind result_bind option_map to_dict]; try discriminate.
  intros H. apply extraer_metrica_m001_Some in E as (p24 & p23 & c24 & c23 & Hm).
  exists m, p24, p23, c24, c23. split; [done|].
  by destruct (M001.to_dict m); simplify_eq.
Qed.

Lemma resultado_m003 d :
  resultado_de (extraer_metrica_m003 extraer_tabla_provision
                  extraer_cobertura_vencida ahora) = Some d →
  es_m003 d.
Proof.
  unfold Orquestador.resultado_de, extraer_metrica_m003.
  destruct (M003.extraer_metrica_m003 _ _ _ _) as [[m|]|] eqn:E;
    cbn [mbind result_bind option_map to_dict]; try discriminate.
  intros H.
  apply extraer_metrica_m003_Some in E as (p24 & p23 & c24 & c23 & t24 & t23 & Hm).
  exists m, p24, p23, c24, c23, t24, t23. split; [done|].
  by destruct (M003.to_dict m); simplify_eq.
Qed.

Lemma resultado_m004 d :
  resultado_de (extraer_metrica_m004 extraer_cobertura_vencida ahora) = Some d →
  es_m004 d.
Proof.
  unfold Orquestador.resultado_de, extraer_metrica_m004.
  destruct (M004.extraer_metrica_m004 _ _ _) as [[m|]|] eqn:E;
    cbn [mbind result_bind option_map to_dict]; try discriminate.
  intros H. apply extraer_metrica_m004_Some in E as (c24 & c23 & Hm).
  exists formato_pct, m, c24, c23. split; [done|].
  by destruct (M004.to_dict formato_pct m); simplify_eq.
Qed.

Lemma resultado_m005 d :
  resultado_de (extraer_metrica_m005 extraer_calificacion_riesgo ahora) = Some d →
  es_m005 d.
Proof.
  unfold Orquestador.resultado_de, extraer_metrica_m005.
  destruct (M005.extraer_metrica_m005 _ _ _) as [[m|]|] eqn:E;
    cbn [mbind result_bind option_map to_dict]; try discriminate.
  intros H.
  apply extraer_metrica_m005_Some
    in E as (c24 & d24 & e24 & t24 & c23 & d23 & e23 & t23 & Hm).
  exists m, c24, d24, e24, t24, c23, d23, e23, t23. split; [done|].
  by destruct (M005.to_dict m); simplify_eq.
Qed.

(** What the loop stores under an id of the catalogue, starting from an
    empty mapping. *)
Lemma metricas_de_catalogo r e :
  metricas r = ∅ → e ∈ extractores →
  metricas (ejecutar_extractores extractores r) !! id_de e
  = resultado_de (funcion_de e).
Proof.
  intros Hr He.
  destruct (ejecutar_extractores_lookup formato_pct ruta_pdf extractores r
              ids_extractores_NoDup) as [H _].
  rewrite (H e He), Hr, lookup_empty. by destruct (resultado_de _).
Qed.

(** The metrics gathered by the loop are well formed. *)
Lemma ejecutar_extractores_bien_formadas r :
  metricas r = ∅ → bien_formadas (metricas (ejecutar_extractores extractores r)).
Proof.
  intros Hr.
  pose proof (metricas_de_catalogo r) as H.
  repeat split; intros d Hd.
  - apply resultado_m001. rewrite <- Hd. symmetry.
    apply (H ("M001", extraer_metrica_m001 extraer_tabla_provision ahora,
              "Provisión/Cartera Total") Hr).
    set_solver.
  - apply resultado_m003. rewrite <- Hd. symmetry.
    apply (H ("M003", extraer_metrica_m003 extraer_tabla_provision
                        extraer_cobertura_vencida ahora,
              "NPL Ratio") Hr).
    set_solver.
  - apply resultado_m004. rewrite <- Hd. symmetry.
    apply (H ("M004", extraer_metrica_m004 extraer_cobertura_vencida ahora,
              "Coverage Ratio") Hr).
    set_solver.
  - apply resultado_m005. rewrite <- Hd. symmetry.
    apply (H ("M005", extraer_metrica_m005 extraer_calificacion_riesgo ahora,
              "Cartera Riesgosa (C+D+E)") Hr).
    set_solver.
Qed.

End Catalogo.

End OrquestadorFacts.


(** ** The scan of the ROE extractor, position by position *)

Module EscaneoFacts.
Import Str StrFacts M002 M002Facts.

Lemma desde_inicio ahora paginas :
  desde ahora 0 [] paginas datos_iniciales
  = extraer_metrica_m002 ahora true paginas.
Proof. reflexivity. Qed.

Lemma desde_linea ahora n linea lineas resto d d' :
  procesar_linea ahora n linea d = Ok (Continue d') →
  desde ahora n (linea :: lineas) resto d = desde ahora n lineas resto d'.
Proof.
  intros H. unfold desde. cbn [recorrer_lineas]. by rewrite H.
Qed.

Lemma desde_retorno ahora n linea lineas resto d m :
  procesar_linea ahora n linea d = Ok (Return m) →
  desde ahora n (linea :: lineas) resto d = Ok (Some m).
Proof.
  intros H. unfold desde. cbn [recorrer_lineas]. by rewrite H.
Qed.

Lemma desde_pagina ahora n texto resto d :
  texto ≠ "" →
  desde ahora n [] (Some texto :: resto) d
  = desde ahora (S n) (split_lines texto) resto d.
Proof.
  intros H. unfold desde. cbn [recorrer_lineas mbind result_bind recorrer_paginas].
  destruct texto; [done|]. reflexivity.
Qed.

Lemma desde_sin_texto ahora n pagina resto d :
  pagina = None ∨ pagina = Some "" →
  desde ahora n [] (pagina :: resto) d = desde ahora (S n) [] resto d.
Proof. by intros [->| ->]. Qed.

(** The extractor's answer is that of the rest of the scan from any
    position the scan goes through, and the values located there are
    well formed. *)
Lemma alcanza_desde ahora paginas n lineas resto d :
  alcanza ahora paginas n lineas resto d →
  extraer_metrica_m002 ahora true paginas = desde ahora n lineas resto d
  ∧ datos_ok d.
Proof.
  induction 1 as [|n linea lineas resto d d' _ [IH Hd] Hl
                  |n texto resto d _ [IH Hd] Ht
                  |n pagina resto d _ [IH Hd] Hp].
  - split; [done | apply datos_iniciales_ok].
  - split; [by rewrite IH; apply desde_linea|].
    destruct (procesar_linea_ok ahora n linea d Hd)
      as [(d'' & E & Hd'')|(m & E & _)]; congruence.
  - split; [by rewrite IH; apply desde_pagina | done].
  - split; [by rewrite IH; apply desde_sin_texto | done].
Qed.

Lemma desde_fin ahora n d : desde ahora n [] [] d = Ok None.
Proof. reflexivity. Qed.

Lemma construir_pagina ahora d m :
  construir ahora d = Ok m → pagina_fuente m = d_pagina_encontrada d.
Proof.
  unfold construir, nueva. intros H. inv_ok H. by injection H as <-.
Qed.

(** A line after which both 2024 values are there and give a plausible
    preliminary ROE ends the scan with the record of those values. *)
Lemma procesar_linea_retorna ahora n linea d d1 d2 u u23 p p23 :
  datos_ok d →
  buscar_utilidad n linea (lower linea) d = Ok d1 →
  buscar_patrimonio linea (lower linea) d1 = Ok d2 →
  d_utilidad_neta_2024 d2 = VNum u → d_utilidad_neta_2023 d2 = VNum u23 →
  d_patrimonio_2024 d2 = VNum p → d_patrimonio_2023 d2 = VNum p23 →
  razonable (u / p) →
  ∃ m, procesar_linea ahora n linea d = Ok (Return m)
       ∧ metrica_de u u23 p p23 m
       ∧ pagina_fuente m = d_pagina_encontrada d2.
Proof.
  intros Hd E1 E2 Eu Eu' Ep Ep' Hr.
  destruct (buscar_utilidad_ok n linea (lower linea) d Hd) as (d1' & E1' & Hd1).
  rewrite E1 in E1'. injection E1' as <-.
  destruct (buscar_patrimonio_ok linea (lower linea) d1 Hd1) as (d2' & E2' & Hd2).
  rewrite E2 in E2'. injection E2' as <-.
  assert (Gp : 1000 < p).
  { destruct (ok_p24 _ Hd2) as [H|(q & H & G)]; rewrite Ep in H; [done|].
    by injection H as ->. }
  assert (Gp' : 1000 < p23).
  { destruct (ok_p23 _ Hd2) as [H|(q & H & G)]; rewrite Ep' in H; [done|].
    by injection H as ->. }
  assert (Gu : 1000 < u).
  { destruct (ok_u24 _ Hd2) as [H|(q & H & G)]; rewrite Eu in H; [done|].
    by injection H as ->. }
  destruct (construir_Ok ahora d2 u u23 p p23 Eu Eu' Ep Ep' Gp Gp')
    as (m & Hc & Hm).
  exists m. split; [|split; [done|by eapply construir_pagina]].
  unfold procesar_linea. rewrite E1. cbn [mbind result_bind]. rewrite E2.
  cbn [mbind result_bind]. unfold validar_y_salir.
  rewrite Eu, Ep, (truthy_gt u Gu), (truthy_gt p Gp). cbn [andb].
  rewrite (div_gt u p Gp). cbn [mbind result_bind].
  rewrite roe_razonable_num. cbn [mbind result_bind].
  rewrite (proj2 (razonable_bool (u / p)) Hr). by rewrite Hc.
Qed.

End EscaneoFacts.


(** ** The rules on an arbitrary report *)

Module ValidacionFacts.
Import Orquestador CoherenciaFacts OrquestadorFacts.

(** What a rule reads is a number whenever the rule goes through. *)
Lemma div_Ok_inv a b v :
  div a b = Ok v → ∃ x y, a = VNum x ∧ b = VNum y ∧ ¬ y == 0 ∧ v = VNum (x / y).
Proof.
  destruct a as [|x| |], b as [|y| |]; try discriminate. cbn [div].
  destruct (Qeq_bool y 0) eqn:E; [discriminate|]. intros [= <-].
  exists x, y. repeat split. by apply Qeq_bool_neq.
Qed.

Lemma sub_Ok_inv a b v :
  sub a b = Ok v → ∃ x y, a = VNum x ∧ b = VNum y ∧ v = VNum (x - y).
Proof.
  destruct a as [|x| |], b as [|y| |]; try discriminate. intros [= <-]. eauto.
Qed.

Lemma le_num_inv x b c : le (VNum x) b = Ok c → ∃ y, b = VNum y ∧ c = Qle_bool x y.
Proof. destruct b as [|y| |]; try discriminate. intros [= <-]. eauto. Qed.

Lemma lt_num_inv x b c : lt (VNum x) b = Ok c → ∃ y, b = VNum y ∧ c = Qlt_bool x y.
Proof. destruct b as [|y| |]; try discriminate. intros [= <-]. eauto. Qed.

(** A rule that goes through leaves the report it would leave on
    well-formed metrics: only its own annotation is written. *)
Lemma regla_coverage_inv r r' :
  regla_coverage r = Ok r' →
  r' = con_coherencia
         (aplicar "coverage_coherente" (anotacion_coverage (metricas r))
            (coherencia (validacion r))) r.
Proof.
  unfold regla_coverage, anotacion_coverage. intros H.
  destruct (_ && _); [|injection H as <-; cbn [aplicar];
                        by rewrite con_coherencia_id].
  destruct (valor_2024 (metricas r) "M001" "provision") as [v1|] eqn:V1;
    [|discriminate H].
  destruct (valor_2024 (metricas r) "M003" "cartera_vencida") as [v3|] eqn:V3;
    [|discriminate H].
  destruct (valor_2024 (metricas r) "M004" "coverage_ratio") as [v4|] eqn:V4;
    [|discriminate H].
  cbn [mbind result_bind] in H.
  destruct (div v1 v3) as [cc|] eqn:D; [|discriminate H].
  apply div_Ok_inv in D as (p & cv & -> & -> & Hcv & ->).
  cbn [mbind result_bind] in H.
  destruct v4 as [|c| |]; try discriminate H.
  cbn [sub abs lt mbind result_bind format_num] in H.
  unfold numero_2024. rewrite V1, V3, V4. cbn [mbind option_bind aplicar].
  unfold coverage_coherente.
  by destruct (Qlt_bool _ _); injection H as <-.
Qed.

Lemma regla_riesgosa_inv r r' :
  regla_riesgosa r = Ok r' →
  (∀ v, valor_2024 (metricas r) "M003" "npl_ratio" = Ok v → ∃ q, v = VNum q) →
  r' = con_coherencia
         (aplicar "riesgosa_mayor_que_npl" (anotacion_riesgosa (metricas r))
            (coherencia (validacion r))) r.
Proof.
  unfold regla_riesgosa, anotacion_riesgosa. intros H Hnum.
  destruct (_ && _); [|injection H as <-; cbn [aplicar];
                        by rewrite con_coherencia_id].
  destruct (valor_2024 (metricas r) "M003" "npl_ratio") as [v3|] eqn:V3;
    [|discriminate H].
  destruct (valor_2024 (metricas r) "M005" "ratio_riesgosa_cde") as [v5|] eqn:V5;
    [|discriminate H].
  cbn [mbind result_bind] in H. unfold gt in H.
  unfold numero_2024. rewrite V3, V5.
  destruct (Hnum v3 eq_refl) as [npl ->].
  destruct v5 as [|rg| |]; try discriminate H.
  cbn [lt mbind result_bind option_bind aplicar sub mul format_num] in H |- *.
  unfold riesgosa_mayor_que_npl.
  by destruct (Qlt_bool _ _); injection H as <-.
Qed.

Lemma regla_rango_inv r r' :
  regla_rango r = Ok r' →
  r' = con_coherencia
         (aplicar "provision_rango_valido" (anotacion_rango (metricas r))
            (coherencia (validacion r))) r.
Proof.
  unfold regla_rango, anotacion_rango. intros H.
  destruct (presente _ _); [|injection H as <-; cbn [aplicar];
                             by rewrite con_coherencia_id].
  destruct (valor_2024 (metricas r) "M001" "ratio") as [v|] eqn:V;
    [|discriminate H].
  cbn [mbind result_bind] in H.
  unfold numero_2024. rewrite V.
  destruct v as [|ratio| |]; try discriminate H.
  cbn [le mbind result_bind option_bind aplicar format_num] in H |- *.
  unfold provision_rango_valido.
  destruct (Qle_bool 0.01 ratio); cbn [mbind result_bind andb] in H |- *;
    [|by injection H as <-].
  by destruct (Qle_bool ratio 0.20); injection H as <-.
Qed.

(** [validar_coherencia], when it returns, has written the three
    annotations that apply and nothing else. *)
Lemma validar_coherencia_inv r r' :
  validar_coherencia r = Ok r' →
  (∀ v, valor_2024 (metricas r) "M003" "npl_ratio" = Ok v → ∃ q, v = VNum q) →
  r' = con_coherencia
         (coherencia_esperada (metricas r) (coherencia (validacion r))) r.
Proof.
  unfold validar_coherencia. intros H Hnum.
  destruct (regla_coverage r) as [r1|] eqn:E1; [|discriminate H].
  cbn [mbind result_bind] in H.
  destruct (regla_riesgosa r1) as [r2|] eqn:E2; [|discriminate H].
  cbn [mbind result_bind] in H.
  apply regla_coverage_inv in E1. subst r1.
  apply regla_riesgosa_inv in E2; [|exact Hnum].
  apply regla_rango_inv in H. subst r' r2. reflexivity.
Qed.

Section Corrida.

Context (tp cv cr : string → result (option dict))
        (ahora : string) (fmt : Q → string) (ruta banco : string) (año : Z).

Local Abbreviation corrida :=
  (ejecutar_extractores fmt ruta (extractores tp cv cr ahora)
     (resultados_iniciales ahora ruta banco año)).

(** A run that returns: the report is what the loop leaves, with the
    annotations of the validation. *)
Lemma extraer_todas_metricas_inv r :
  extraer_todas_metricas tp cv cr ahora fmt ruta banco año = Ok r →
  r = con_coherencia (coherencia_esperada (metricas corrida) ∅) corrida.
Proof.
  unfold extraer_todas_metricas. intros H. apply validar_coherencia_inv in H.
  - destruct (ejecutar_extractores_marco fmt ruta
                (extractores tp cv cr ahora)
                (resultados_iniciales ahora ruta banco año)) as [_ Hc].
    by rewrite Hc in H.
  - intros v Hv.
    destruct (ejecutar_extractores_bien_formadas tp cv cr ahora fmt ruta
                (resultados_iniciales ahora ruta banco año) eq_refl)
      as (_ & H3 & _).
    destruct (metricas corrida !! "M003") as [d|] eqn:Hd.
    + destruct (valor_m003 _ d Hd (H3 d eq_refl)) as (npl & Hn).
      rewrite Hn in Hv. injection Hv as <-. eauto.
    + unfold valor_2024, metricas_getitem in Hv. by rewrite Hd in Hv.
Qed.

(** An extractor of the catalogue is among the successes exactly when it
    returned a record that [to_dict] converted, and that dictionary is what
    the report holds under its id. *)
Lemma exito_de_extractor e :
  e ∈ extractores tp cv cr ahora →
  id_de e ∈ metricas_exitosas (validacion corrida)
  ↔ ∃ m d, funcion_de e ruta = Ok (Some m) ∧ to_dict fmt m = Ok d
           ∧ metricas corrida !! id_de e = Some d.
Proof.
  intros He.
  destruct (ejecutar_extractores_listas fmt ruta (extractores tp cv cr ahora)
              (resultados_iniciales ahora ruta banco año)) as [-> _].
  cbn [resultados_iniciales validacion metricas_exitosas app].
  rewrite (metricas_de_catalogo tp cv cr ahora fmt ruta
             (resultados_iniciales ahora ruta banco año) e eq_refl He).
  split.
  - intros Hx. apply list_elem_of_fmap in Hx as ([k d] & Hk & Hx).
    cbn [fst] in Hk. unfold exitos in Hx. apply list_elem_of_omap in Hx
      as (e' & He' & Hr).
    destruct (resultado_de fmt ruta (funcion_de e')) as [d'|] eqn:Hd;
      [|discriminate Hr].
    injection Hr as Hk' <-. subst k.
    assert (e' = e) as ->.
    { pose proof (ids_extractores_NoDup tp cv cr ahora) as Hnd.
      apply (NoDup_fmap_1 id_de) in Hnd as _.
      destruct (list_elem_of_lookup_1 _ _ He') as [i Hi].
      destruct (list_elem_of_lookup_1 _ _ He) as [j Hj].
      assert (i = j) as ->.
      { eapply (NoDup_lookup (id_de <$> extractores tp cv cr ahora));
          [apply ids_extractores_NoDup| |];
          rewrite list_lookup_fmap; [rewrite Hi|rewrite Hj]; cbn; [done|].
        by rewrite Hk'. }
      congruence. }
    unfold resultado_de in Hd |- *.
    destruct (funcion_de e ruta) as [[m|]|]; try discriminate Hd.
    destruct (to_dict fmt m) as [d''|] eqn:T; [|discriminate Hd].
    injection Hd as ->. by exists m, d'.
  - intros (m & d & Hf & Ht & _).
    eapply elem_of_exitos; [done|]. by eapply resultado_de_Some.
Qed.

(** It is among the failures exactly when it returned [None], raised, or
    returned a record that [to_dict] could not convert. *)
Lemma fallo_de_extractor e :
  e ∈ extractores tp cv cr ahora →
  id_de e ∈ metricas_fallidas (validacion corrida)
  ↔ funcion_de e ruta = Ok None ∨ raises (funcion_de e ruta)
    ∨ ∃ m, funcion_de e ruta = Ok (Some m) ∧ raises (to_dict fmt m).
Proof.
  intros He.
  assert (Hn : resultado_de fmt ruta (funcion_de e) = None
               ↔ funcion_de e ruta = Ok None ∨ raises (funcion_de e ruta)
                 ∨ ∃ m, funcion_de e ruta = Ok (Some m)
                        ∧ raises (to_dict fmt m)).
  { unfold resultado_de, raises.
    destruct (funcion_de e ruta) as [[m|]|x];
      [destruct (to_dict fmt m) as [d|x] eqn:E|..].
    - split; [done|]. intros [?|[[? ?]|(? & [= <-] & ? & ?)]]; congruence.
    - split; [|done]. intros _. right. right. eauto.
    - split; [|done]. by left.
    - split; [|done]. intros _. right. left. eauto. }
  rewrite <- Hn.
  destruct (ejecutar_extractores_listas fmt ruta (extractores tp cv cr ahora)
              (resultados_iniciales ahora ruta banco año)) as [_ ->].
  cbn [resultados_iniciales validacion metricas_fallidas app].
  split.
  - intros Hf. destruct (resultado_de fmt ruta (funcion_de e))
      as [d|] eqn:Hr; [|done].
    pose proof (elem_of_exitos _ _ _ _ _ He Hr) as Hx.
    destruct (listas_particion _ _ _
                (symmetry (exitos_fallos_perm fmt ruta
                             (extractores tp cv cr ahora)))
                (ids_extractores_NoDup _ _ _ _)
                (id_de e)) as [[_ ?]|[? _]]; try done.
    by apply list_elem_of_fmap_2.
  - by apply elem_of_fallos.
Qed.

End Corrida.

End ValidacionFacts.

(** * Part III: main results *)

Import Bandas Orquestador.



(** C2. Every classifier is a total function of the ratio: for each of
    [evaluar_nivel_riesgo] (M001 and M005), [evaluar_desempeno],
    [evaluar_calidad_cartera] and [evaluar_nivel_cobertura], every ratio,
    negative or arbitrarily large, lies in exactly one band of the
    classifier's table and the classifier answers the label of that band;
    the labels of a table are pairwise distinct, so there is neither a gap
    nor an overlap at a boundary.  For M001 the ratio 0.04 is "MEDIO", the
    first band being closed by a strict comparison. *)
Theorem clasificadores_totales :
  clasifica m001 M001.evaluar_nivel_riesgo
  ∧ clasifica m002 M002.evaluar_desempeno
  ∧ clasifica m003 M003.evaluar_calidad_cartera
  ∧ clasifica m004 M004.evaluar_nivel_cobertura
  ∧ clasifica m005 M005.evaluar_nivel_riesgo
  ∧ Forall (fun tabla => NoDup (etiqueta <$> tabla)) [m001; m002; m003; m004; m005]
  ∧ M001.evaluar_nivel_riesgo 0.04 = "MEDIO".
Proof.
  split; [apply BandasFacts.clasifica_m001|].
  split; [apply BandasFacts.clasifica_m002|].
  split; [apply BandasFacts.clasifica_m003|].
  split; [apply BandasFacts.clasifica_m004|].
  split; [apply BandasFacts.clasifica_m005|].
  split; [|reflexivity].
  apply (bool_decide_unpack _). by vm_compute.
Qed.

(** C4.  [validar_coherencia] on the report the loop leaves, in binary64,
    for a document with a provision of 2^-600 and a coverage of 2^600: M001,
    M003 and M004 are the successes, the overdue amount of M003 is zero, and
    the validation raises [ZeroDivisionError] in its first rule.  Nothing is
    recorded, although the second rule would have been skipped without
    harm and the third would have recorded [False] for the ratio of
    M001. *)
Theorem validar_coherencia_fatal :
  metricas_exitosas (validacion EjemploRun.informe_subdesbordado)
  = ["M001"; "M003"; "M004"]
  ∧ metricas_fallidas (validacion EjemploRun.informe_subdesbordado) = ["M005"]
  ∧ validar_coherencia EjemploRun.informe_subdesbordado
    = Raise ZeroDivisionError
  ∧ regla_riesgosa EjemploRun.informe_subdesbordado
    = Ok EjemploRun.informe_subdesbordado
  ∧ regla_rango EjemploRun.informe_subdesbordado
    = Ok (anotar_regla "provision_rango_valido" false
            EjemploRun.informe_subdesbordado).
Proof.
  split; [reflexivity|]. split; [reflexivity|].
  split; [by vm_compute|]. split; [reflexivity|].
  unfold regla_rango.
  assert (P : presente "M001" (metricas EjemploRun.informe_subdesbordado) = true)
    by reflexivity.
  rewrite P.
  assert (V : valor_2024 (metricas EjemploRun.informe_subdesbordado) "M001"
                "ratio" = Ok (VNum ((1 # 2 ^ 600) / 16384))) by reflexivity.
  rewrite V. cbn [mbind result_bind le].
  assert (E : Qle_bool 0.01 ((1 # 2 ^ 600) / 16384) = false) by (by vm_compute).
  by rewrite E.
Qed.

(** C5, as stated, fails at the floor itself: the magnitude 1000 is not
    below the noise floor of 1000, so the claim keeps it, while the source
    keeps a magnitude only if it is greater than 1000. *)
Lemma extraer_numeros_de_linea_piso_1000 :
  M002.numeros_sobre_piso "1,000" = [1000]
  ∧ M002.extraer_numeros_de_linea "1,000" = [].
Proof. split; reflexivity. Qed.

(** C5, amended.  For every line, [extraer_numeros_de_linea] returns, in
    left-to-right order of appearance, the magnitudes of the maximal runs
    of digits and commas (parentheses around a run play no part), commas
    stripped, keeping a magnitude only when it exceeds 1000 (1000 itself is
    discarded) and skipping a run that does not parse (commas only) without
    aborting.  The line "Utilidad neta (1,234,567) 987,654" yields
    [1234567; 987654] and "page 3 of 45" yields the empty list. *)
Theorem extraer_numeros_de_linea_spec :
  (∀ linea,
     M002.extraer_numeros_de_linea linea
     = List.filter (Qlt_bool 1000) (omap Str.magnitud (Str.grupos linea)))
  ∧ (∀ linea,
       Str.findall linea = Str.grupos linea
       ∧ Forall (fun g => g ≠ "" ∧ Str.toda_clase g = true) (Str.grupos linea))
  ∧ M002.extraer_numeros_de_linea "Utilidad neta (1,234,567) 987,654"
    = [1234567; 987654]
  ∧ M002.extraer_numeros_de_linea "page 3 of 45" = []
  ∧ M002.extraer_numeros_de_linea "(2,500) ,, 1,000 999 1,001" = [2500; 1001].
Proof.
  split; [apply M002Facts.extraer_numeros_de_linea_filter|].
  split; [intros linea; split;
          [apply StrFacts.findall_grupos | apply StrFacts.grupos_clase]|].
  repeat split; reflexivity.
Qed.

(** C6.  The coverage rule on the same report: M001, M003 and M004 are all
    present, the rule reads a provision of 2^-600, an overdue amount of zero
    and a coverage of 2^600, and raises [ZeroDivisionError] where it
    recomputes the coverage: it is neither skipped nor evaluated, and
    [coverage_coherente] is not recorded. *)
Theorem regla_coverage_no_evaluada :
  presente "M001" (metricas EjemploRun.informe_subdesbordado)
  && presente "M003" (metricas EjemploRun.informe_subdesbordado)
  && presente "M004" (metricas EjemploRun.informe_subdesbordado) = true
  ∧ valor_2024 (metricas EjemploRun.informe_subdesbordado) "M001" "provision"
    = Ok (VNum (1 # 2 ^ 600))
  ∧ valor_2024 (metricas EjemploRun.informe_subdesbordado) "M003"
      "cartera_vencida" = Ok (VNum 0)
  ∧ valor_2024 (metricas EjemploRun.informe_subdesbordado) "M004"
      "coverage_ratio" = Ok (VNum (inject_Z (2 ^ 600)))
  ∧ regla_coverage EjemploRun.informe_subdesbordado = Raise ZeroDivisionError
  ∧ coherencia (validacion EjemploRun.informe_subdesbordado)
    !! "coverage_coherente" = None.
Proof.
  assert (V1 : valor_2024 (metricas EjemploRun.informe_subdesbordado) "M001"
                 "provision" = Ok (VNum (1 # 2 ^ 600))) by reflexivity.
  assert (V3 : valor_2024 (metricas EjemploRun.informe_subdesbordado) "M003"
                 "cartera_vencida" = Ok (VNum 0)) by reflexivity.
  assert (V4 : valor_2024 (metricas EjemploRun.informe_subdesbordado) "M004"
                 "coverage_ratio" = Ok (VNum (inject_Z (2 ^ 600))))
    by reflexivity.
  assert (P : presente "M001" (metricas EjemploRun.informe_subdesbordado)
              && presente "M003" (metricas EjemploRun.informe_subdesbordado)
              && presente "M004" (metricas EjemploRun.informe_subdesbordado)
              = true) by reflexivity.
  do 4 (split; [done|]). split; [|reflexivity].
  unfold regla_coverage. rewrite P, V1, V3, V4. reflexivity.
Qed.

(** C7.  In [extraer_metrica_m002], at whatever line of whatever page the
    scan has come to, when the values located up to that line fail the
    plausibility check (the preliminary ROE [u / p] is not strictly between
    -10% and 30%; in particular when it lies outside [-10%, 30%]), the match
    is not returned: both 2024 entries go back to [None] and the scan goes
    on from the next line with that state.  When they pass it (here by a
    basis point at least), the extractor returns the record of those values,
    also after earlier matches were dropped.  When the scan comes to the end
    of the last page, or the file does not exist, the extractor answers
    [None].  It never raises, and a record it returns always passed the
    check.  The amounts are integers that binary64 holds exactly. *)
Theorem m002_descarta_y_continua :
  (∀ ahora paginas n linea lineas resto d d1 d2 u p,
     M002.alcanza ahora paginas n (linea :: lineas) resto d →
     M002.buscar_utilidad n linea (Str.lower linea) d = Ok d1 →
     M002.buscar_patrimonio linea (Str.lower linea) d1 = Ok d2 →
     M002.d_utilidad_neta_2024 d2 = VNum u →
     M002.d_patrimonio_2024 d2 = VNum p →
     M002.exacto u → M002.exacto p →
     u / p <= -0.10 ∨ 0.30 <= u / p →
     M002.procesar_linea ahora n linea d = Ok (Continue (M002.descartar d2))
     ∧ M002.d_utilidad_neta_2024 (M002.descartar d2) = VNone
     ∧ M002.d_patrimonio_2024 (M002.descartar d2) = VNone
     ∧ M002.alcanza ahora paginas n lineas resto (M002.descartar d2)
     ∧ M002.extraer_metrica_m002 ahora true paginas
       = M002.desde ahora n lineas resto (M002.descartar d2))
  ∧ (∀ ahora paginas n linea lineas resto d d1 d2 u u23 p p23,
       M002.alcanza ahora paginas n (linea :: lineas) resto d →
       M002.buscar_utilidad n linea (Str.lower linea) d = Ok d1 →
       M002.buscar_patrimonio linea (Str.lower linea) d1 = Ok d2 →
       M002.d_utilidad_neta_2024 d2 = VNum u →
       M002.d_utilidad_neta_2023 d2 = VNum u23 →
       M002.d_patrimonio_2024 d2 = VNum p →
       M002.d_patrimonio_2023 d2 = VNum p23 →
       M002.exacto u → M002.exacto u23 → M002.exacto p → M002.exacto p23 →
       -0.0999 <= u / p → u / p <= 0.2999 →
       ∃ m,
         M002.extraer_metrica_m002 ahora true paginas = Ok (Some m)
         ∧ M002.metrica_de u u23 p p23 m
         ∧ M002.pagina_fuente m = M002.d_pagina_encontrada d2)
  ∧ (∀ ahora paginas n d,
       M002.alcanza ahora paginas n [] [] d →
       M002.extraer_metrica_m002 ahora true paginas = Ok None)
  ∧ (∀ ahora paginas, M002.extraer_metrica_m002 ahora false paginas = Ok None)
  ∧ (∀ ahora existe paginas,
       M002.extraer_metrica_m002 ahora existe paginas = Ok None
       ∨ ∃ m u p,
           M002.extraer_metrica_m002 ahora existe paginas = Ok (Some m)
           ∧ M002.utilidad_neta_2024 m = VNum u
           ∧ M002.patrimonio_2024 m = VNum p
           ∧ -0.10 < u / p ∧ u / p < 0.30).
Proof.
  split; [|split; [|split; [|split]]].
  - intros * Ha E1 E2 Eu Ep _ _ Hfuera.
    destruct (EscaneoFacts.alcanza_desde _ _ _ _ _ _ Ha) as [Hx Hd].
    assert (Hno : ¬ M002.razonable (u / p)).
    { unfold M002.razonable. intros [H1 H2]. destruct Hfuera; lra. }
    pose proof (M002Facts.procesar_linea_descarta ahora n linea d d1 d2 u p
                  Hd E1 E2 Eu Ep Hno) as Hpaso.
    split; [done|]. split; [done|]. split; [done|].
    split; [by eapply M002.alcanza_linea|].
    rewrite Hx. by apply EscaneoFacts.desde_linea.
  - intros * Ha E1 E2 Eu Eu' Ep Ep' _ _ _ _ H1 H2.
    destruct (EscaneoFacts.alcanza_desde _ _ _ _ _ _ Ha) as [Hx Hd].
    assert (Hr : M002.razonable (u / p)) by (unfold M002.razonable; lra).
    destruct (EscaneoFacts.procesar_linea_retorna ahora n linea d d1 d2
                u u23 p p23 Hd E1 E2 Eu Eu' Ep Ep' Hr) as (m & Hm & Hde & Hp).
    exists m. split; [|done].
    rewrite Hx. by apply EscaneoFacts.desde_retorno.
  - intros * Ha.
    by destruct (EscaneoFacts.alcanza_desde _ _ _ _ _ _ Ha) as [-> _].
  - reflexivity.
  - intros ahora existe paginas.
    destruct (M002Facts.extraer_metrica_m002_ok ahora existe paginas)
      as [H|(m & H & u24 & u23 & p24 & p23 & [Hr1 Hr2] & Hm)]; [by left|].
    right. destruct Hm as (E1 & _ & E3 & _). by exists m, u24, p24.
Qed.

(** On the document of two pages the match of the first page is dropped and
    the record returned is that of the second page. *)
Lemma m002_descarta_y_continua_witness :
  ∃ m,
    M002.extraer_metrica_m002 "2024-12-31" true Ejemplos.documento_dos_paginas
    = Ok (Some m)
    ∧ M002.metrica_de 2900 2000 10000 9800 m
    ∧ M002.pagina_fuente m = VNum 2.
Proof.
  pose proof (M002.alcanza_inicio "2024-12-31" Ejemplos.documento_dos_paginas)
    as A0.
  pose proof (M002.alcanza_pagina _ _ _ _ _ _ A0 ltac:(discriminate)) as A1.
  pose proof (M002.alcanza_linea "2024-12-31" Ejemplos.documento_dos_paginas
                1 "Utilidad neta 9,000 8,000"
                ["Total patrimonio 10,000 9,500"] _ M002.datos_iniciales
                Ejemplos.datos_tras_utilidad A1 eq_refl) as A2.
  destruct (proj1 m002_descarta_y_continua "2024-12-31"
              Ejemplos.documento_dos_paginas 1%nat
              "Total patrimonio 10,000 9,500" [] _
              Ejemplos.datos_tras_utilidad Ejemplos.datos_tras_utilidad
              Ejemplos.datos_tras_patrimonio 9000 10000 A2
              eq_refl eq_refl eq_refl eq_refl)
    as (_ & _ & _ & A3 & _).
  { exists 9000%Z. split; [reflexivity | by vm_compute]. }
  { exists 10000%Z. split; [reflexivity | by vm_compute]. }
  { right. by vm_compute. }
  pose proof (M002.alcanza_pagina _ _ _ _ _ _ A3 ltac:(discriminate)) as A4.
  pose proof (M002.alcanza_linea "2024-12-31" Ejemplos.documento_dos_paginas
                2 "Utilidad neta del periodo 2,900 2,000"
                ["Total equity 10,000 9,800"] [] _
                Ejemplos.datos_segunda_pagina A4 eq_refl) as A5.
  refine (proj1 (proj2 m002_descarta_y_continua) "2024-12-31"
            Ejemplos.documento_dos_paginas 2%nat
            "Total equity 10,000 9,800" [] []
            Ejemplos.datos_segunda_pagina Ejemplos.datos_segunda_pagina
            Ejemplos.datos_segunda_completa 2900 2000 10000 9800 A5
            eq_refl eq_refl eq_refl eq_refl eq_refl eq_refl _ _ _ _ _ _).
  - exists 2900%Z. split; [reflexivity | by vm_compute].
  - exists 2000%Z. split; [reflexivity | by vm_compute].
  - exists 10000%Z. split; [reflexivity | by vm_compute].
  - exists 9800%Z. split; [reflexivity | by vm_compute].
  - by vm_compute.
  - by vm_compute.
Defined.

(** C8. In every successfully built record of M001, M003, M004 and M005 the
    stored year-over-year change is the current-period primary ratio minus
    the prior-period one ([ratio_2024 - ratio_2023], [npl_ratio_2024 -
    npl_ratio_2023], [coverage_2024 - coverage_2023], [ratio_riesgosa_2024 -
    ratio_riesgosa_2023]).  It is computed by the constructor, from the two
    ratios the record stores; the same holds of the records the extractors
    return. *)
Theorem cambio_yoy_es_diferencia :
  (∀ p24 p23 c24 c23 r24 r23 nivel pagina fecha m,
     M001.nueva p24 p23 c24 c23 r24 r23 nivel pagina fecha = Ok m →
     M001.ratio_2024 m = r24 ∧ M001.ratio_2023 m = r23
     ∧ delta_yoy r24 r23 (M001.cambio_yoy m))
  ∧ (∀ v24 v23 t24 t23 n24 n23 calidad p24 p23 c24 c23 pagina fecha m,
       M003.nueva v24 v23 t24 t23 n24 n23 calidad p24 p23 c24 c23 pagina fecha
       = Ok m →
       M003.npl_ratio_2024 m = n24 ∧ M003.npl_ratio_2023 m = n23
       ∧ delta_yoy n24 n23 (M003.cambio_yoy m))
  ∧ (∀ c24 c23 nivel pagina fecha m,
       M004.nueva c24 c23 nivel pagina fecha = Ok m →
       M004.coverage_2024 m = c24 ∧ M004.coverage_2023 m = c23
       ∧ delta_yoy c24 c23 (M004.cambio_yoy m))
  ∧ (∀ a24 b24 c24 d24 e24 t24 a23 b23 c23 d23 e23 t23 r24 r23 nivel pagina
       fecha m,
       M005.nueva a24 b24 c24 d24 e24 t24 a23 b23 c23 d23 e23 t23 r24 r23 nivel
         pagina fecha = Ok m →
       M005.ratio_riesgosa_2024 m = r24 ∧ M005.ratio_riesgosa_2023 m = r23
       ∧ delta_yoy r24 r23 (M005.cambio_yoy m))
  ∧ (∀ tp ahora ruta m,
       M001.extraer_metrica_m001 tp ahora ruta = Ok (Some m) →
       delta_yoy (M001.ratio_2024 m) (M001.ratio_2023 m) (M001.cambio_yoy m))
  ∧ (∀ tp cv ahora ruta m,
       M003.extraer_metrica_m003 tp cv ahora ruta = Ok (Some m) →
       delta_yoy (M003.npl_ratio_2024 m) (M003.npl_ratio_2023 m)
         (M003.cambio_yoy m))
  ∧ (∀ cv ahora ruta m,
       M004.extraer_metrica_m004 cv ahora ruta = Ok (Some m) →
       delta_yoy (M004.coverage_2024 m) (M004.coverage_2023 m)
         (M004.cambio_yoy m))
  ∧ (∀ cr ahora ruta m,
       M005.extraer_metrica_m005 cr ahora ruta = Ok (Some m) →
       delta_yoy (M005.ratio_riesgosa_2024 m) (M005.ratio_riesgosa_2023 m)
         (M005.cambio_yoy m)).
Proof.
  assert (Hsub : ∀ x y c, sub x y = Ok c → delta_yoy x y c).
  { intros x y c H. apply sub_Ok in H as (a & b & -> & -> & ->).
    by exists a, b. }
  split; [|split; [|split; [|split; [|split; [|split; [|split]]]]]].
  - intros * H. unfold M001.nueva in H. inv_ok H. injection H as <-. auto.
  - intros * H. unfold M003.nueva in H. inv_ok H. injection H as <-. auto.
  - intros * H. unfold M004.nueva in H. inv_ok H. injection H as <-. auto.
  - intros * H. unfold M005.nueva in H. inv_ok H. injection H as <-. auto.
  - intros * H. apply ExtractorFacts.extraer_metrica_m001_Some in H
      as (p24 & p23 & c24 & c23 & Hm).
    destruct Hm as (_ & _ & _ & _ & _ & _ & _ & -> & -> & -> & _).
    unfold delta_yoy; eauto.
  - intros * H. apply ExtractorFacts.extraer_metrica_m003_Some in H
      as (p24 & p23 & c24 & c23 & t24 & t23 & Hm).
    destruct Hm as (_ & _ & _ & _ & _ & _ & _ & _ & _ & _ & _ & _ & _
                    & -> & -> & -> & _).
    unfold delta_yoy; eauto.
  - intros * H. apply ExtractorFacts.extraer_metrica_m004_Some in H
      as (c24 & c23 & Hm).
    destruct Hm as (-> & -> & _ & -> & _).
    unfold delta_yoy; eauto.
  - intros * H. apply ExtractorFacts.extraer_metrica_m005_Some in H
      as (c24 & d24 & e24 & t24 & c23 & d23 & e23 & t23 & Hm).
    destruct Hm as (_ & _ & _ & _ & _ & _ & _ & _ & _ & _ & -> & -> & -> & _).
    unfold delta_yoy; eauto.
Qed.

(** The constructor of M004 on the coverages 1.25 and 1.20. *)
Lemma cambio_yoy_es_diferencia_witness :
  ∃ m, M004.nueva (VNum 1.25) (VNum 1.20) "ADECUADO" (VNum 95) "2024-12-31"
       = Ok m
       ∧ delta_yoy (VNum 1.25) (VNum 1.20) (M004.cambio_yoy m).
Proof.
  eexists. split; [reflexivity|].
  apply (proj1 (proj2 (proj2 cambio_yoy_es_diferencia))
           (VNum 1.25) (VNum 1.20) "ADECUADO" (VNum 95) "2024-12-31" _ eq_refl).
Defined.

(** C9.  In the report of any run of [extraer_todas_metricas] the two lists
    together hold each id of the catalogue (M001, M003, M004, M005) once, so
    every id is in exactly one of them, and the keys of [metricas] are
    exactly the ids listed in [metricas_exitosas].  An id is listed there
    exactly when its extractor returned a record that [to_dict] converted,
    and the entry of [metricas] under that id is then that dictionary. *)
Theorem particion_de_metricas
    (extraer_tabla_provision extraer_cobertura_vencida
       extraer_calificacion_riesgo : string → result (option dict))
    (ahora : string) (formato_pct : Q → string) (ruta_pdf banco : string)
    (año : Z) (r : Resultados) :
  extraer_todas_metricas extraer_tabla_provision extraer_cobertura_vencida
    extraer_calificacion_riesgo ahora formato_pct ruta_pdf banco año = Ok r →
  metricas_exitosas (validacion r) ++ metricas_fallidas (validacion r)
  ≡ₚ ["M001"; "M003"; "M004"; "M005"]
  ∧ Forall (fun k =>
              (k ∈ metricas_exitosas (validacion r)
               ∧ k ∉ metricas_fallidas (validacion r))
              ∨ ((k ∉ metricas_exitosas (validacion r))
                 ∧ k ∈ metricas_fallidas (validacion r)))
           ["M001"; "M003"; "M004"; "M005"]
  ∧ dom (metricas r) = list_to_set (metricas_exitosas (validacion r))
  ∧ ∀ e,
      e ∈ extractores extraer_tabla_provision extraer_cobertura_vencida
            extraer_calificacion_riesgo ahora →
      (id_de e ∈ metricas_exitosas (validacion r)
       ↔ ∃ m d,
           funcion_de e ruta_pdf = Ok (Some m)
           ∧ to_dict formato_pct m = Ok d
           ∧ metricas r !! id_de e = Some d)
      ∧ (is_Some (metricas r !! id_de e)
         ↔ ∃ m d,
             funcion_de e ruta_pdf = Ok (Some m)
             ∧ to_dict formato_pct m = Ok d).
Proof.
  intros Hr. apply ValidacionFacts.extraer_todas_metricas_inv in Hr as ->.
  set (catalogo := extractores _ _ _ _).
  set (r0 := resultados_iniciales ahora ruta_pdf banco año).
  cbn [con_coherencia metricas validacion metricas_exitosas metricas_fallidas].
  assert (Hp : metricas_exitosas
                 (validacion (ejecutar_extractores formato_pct ruta_pdf
                                catalogo r0))
               ++ metricas_fallidas
                    (validacion (ejecutar_extractores formato_pct ruta_pdf
                                   catalogo r0))
               ≡ₚ ["M001"; "M003"; "M004"; "M005"]).
  { destruct (OrquestadorFacts.ejecutar_extractores_listas formato_pct ruta_pdf
                catalogo r0) as [-> ->].
    symmetry.
    exact (OrquestadorFacts.exitos_fallos_perm formato_pct ruta_pdf catalogo). }
  split; [done|]. split; [|split].
  - apply Forall_forall. apply OrquestadorFacts.listas_particion; [done|].
    apply (OrquestadorFacts.ids_extractores_NoDup extraer_tabla_provision
             extraer_cobertura_vencida extraer_calificacion_riesgo ahora).
  - rewrite OrquestadorFacts.ejecutar_extractores_dom.
    destruct (OrquestadorFacts.ejecutar_extractores_listas formato_pct ruta_pdf
                catalogo r0) as [-> _].
    cbn [r0 resultados_iniciales validacion metricas metricas_exitosas app].
    rewrite dom_empty_L. set_solver.
  - intros e He. subst catalogo r0.
    pose proof (ValidacionFacts.exito_de_extractor extraer_tabla_provision
                  extraer_cobertura_vencida extraer_calificacion_riesgo ahora
                  formato_pct ruta_pdf banco año e He) as Hx.
    split; [exact Hx|]. split.
    + intros [d Hd]. apply elem_of_dom_2 in Hd.
      rewrite OrquestadorFacts.ejecutar_extractores_dom in Hd.
      cbn [resultados_iniciales metricas] in Hd.
      rewrite dom_empty_L, union_empty_l_L, elem_of_list_to_set in Hd.
      destruct (OrquestadorFacts.ejecutar_extractores_listas formato_pct
                  ruta_pdf
                  (extractores extraer_tabla_provision extraer_cobertura_vencida
                     extraer_calificacion_riesgo ahora)
                  (resultados_iniciales ahora ruta_pdf banco año)) as [Hl _].
      cbn [resultados_iniciales validacion metricas_exitosas app] in Hl.
      rewrite <- Hl in Hd. apply Hx in Hd as (m & d' & ? & ? & _). eauto.
    + intros (m & d & Hf & Ht).
      rewrite (OrquestadorFacts.metricas_de_catalogo extraer_tabla_provision
                 extraer_cobertura_vencida extraer_calificacion_riesgo ahora
                 formato_pct ruta_pdf
                 (resultados_iniciales ahora ruta_pdf banco año) e eq_refl He).
      exists d. by eapply OrquestadorFacts.resultado_de_Some.
Qed.

(** The run on the sample document, whose risk-category parser fails: M001,
    M003 and M004 are the keys and the successes, M005 the failure. *)
Lemma particion_de_metricas_witness :
  ∃ r,
    extraer_todas_metricas Ejemplos.tabla_provision Ejemplos.cobertura_vencida
      Ejemplos.calificacion_riesgo "2024-12-31" Ejemplos.formato "informe.pdf"
      "bancolombia" 2024 = Ok r
    ∧ metricas_exitosas (validacion r) ++ metricas_fallidas (validacion r)
      ≡ₚ ["M001"; "M003"; "M004"; "M005"]
    ∧ dom (metricas r) = list_to_set (metricas_exitosas (validacion r)).
Proof.
  destruct (extraer_todas_metricas Ejemplos.tabla_provision
              Ejemplos.cobertura_vencida Ejemplos.calificacion_riesgo
              "2024-12-31" Ejemplos.formato "informe.pdf" "bancolombia" 2024)
    as [r|e] eqn:E; [|vm_compute in E; discriminate E].
  exists r. split; [reflexivity|].
  destruct (particion_de_metricas _ _ _ _ _ _ _ _ r E) as (H1 & _ & H2 & _).
  split; assumption.
Defined.

(** C10.  A record returned by [extraer_metrica_m002] has its two ROE on
    different denominators: [roe_2024] is [utilidad_neta_2024] over the
    average [(patrimonio_2024 + patrimonio_2023) / 2], [roe_2023] is
    [utilidad_neta_2023] over [patrimonio_2023] alone.  The plausibility
    check bears on [utilidad_neta_2024 / patrimonio_2024], not on the stored
    [roe_2024]: the sample page yields a record whose stored [roe_2024] is
    above 30%. *)
Theorem m002_denominadores :
  (∀ ahora existe paginas m,
     M002.extraer_metrica_m002 ahora existe paginas = Ok (Some m) →
     ∃ u24 u23 p24 p23,
       M002.utilidad_neta_2024 m = VNum u24
       ∧ M002.utilidad_neta_2023 m = VNum u23
       ∧ M002.patrimonio_2024 m = VNum p24
       ∧ M002.patrimonio_2023 m = VNum p23
       ∧ M002.roe_2024 m = VNum (u24 / ((p24 + p23) / 2))
       ∧ M002.roe_2023 m = VNum (u23 / p23)
       ∧ -0.10 < u24 / p24 ∧ u24 / p24 < 0.30)
  ∧ (∃ m r,
       M002.extraer_metrica_m002 "2024-12-31" true [Some Ejemplos.pagina_roe]
       = Ok (Some m)
       ∧ M002.roe_2024 m = VNum r ∧ 0.30 <= r).
Proof.
  split.
  - intros * H.
    destruct (M002Facts.extraer_metrica_m002_ok ahora existe paginas)
      as [H'|(m' & H' & u24 & u23 & p24 & p23 & [Hr1 Hr2] & Hm)];
      [congruence|].
    assert (m' = m) as -> by congruence.
    destruct Hm as (E1 & E2 & E3 & E4 & E5 & E6 & _).
    by exists u24, u23, p24, p23.
  - eexists _, _. split; [vm_compute; reflexivity|].
    split; [reflexivity|]. vm_compute. discriminate.
Qed.

(** The record extracted from the sample page. *)
Lemma m002_denominadores_witness :
  ∃ m u24 u23 p24 p23,
    M002.extraer_metrica_m002 "2024-12-31" true [Some Ejemplos.pagina_roe]
    = Ok (Some m)
    ∧ M002.roe_2024 m = VNum (u24 / ((p24 + p23) / 2))
    ∧ M002.roe_2023 m = VNum (u23 / p23).
Proof.
  eexists.
  destruct (proj1 m002_denominadores "2024-12-31" true
              [Some Ejemplos.pagina_roe] _ eq_refl)
    as (u24 & u23 & p24 & p23 & _ & _ & _ & _ & H1 & H2 & _).
  exists u24, u23, p24, p23. split; [reflexivity|]. split; assumption.
Defined.

(** * Part IV: further properties of the code *)

(** X1.  The classifiers are monotone: a larger ratio never falls in a lower
    band.  With the bands of each table counted from the lowest, the place
    of the label of [r1] is at most the place of the label of [r2] whenever
    [r1 <= r2]; in particular two representations of the same ratio get the
    same place. *)
Theorem clasificadores_monotonos (r1 r2 : Q) :
  r1 <= r2 →
  (posicion m001 (M001.evaluar_nivel_riesgo r1)
   <= posicion m001 (M001.evaluar_nivel_riesgo r2))%nat
  ∧ (posicion m002 (M002.evaluar_desempeno r1)
     <= posicion m002 (M002.evaluar_desempeno r2))%nat
  ∧ (posicion m003 (M003.evaluar_calidad_cartera r1)
     <= posicion m003 (M003.evaluar_calidad_cartera r2))%nat
  ∧ (posicion m004 (M004.evaluar_nivel_cobertura r1)
     <= posicion m004 (M004.evaluar_nivel_cobertura r2))%nat
  ∧ (posicion m005 (M005.evaluar_nivel_riesgo r1)
     <= posicion m005 (M005.evaluar_nivel_riesgo r2))%nat.
Proof.
  intros H.
  unfold M001.evaluar_nivel_riesgo, M002.evaluar_desempeno,
    M003.evaluar_calidad_cartera, M004.evaluar_nivel_cobertura,
    M005.evaluar_nivel_riesgo, Qlt_bool.
  repeat split;
    repeat match goal with
    | |- context [Qle_bool ?a ?b] => destruct (Qle_bool a b) eqn:?
    end;
    first [ vm_compute; lia | exfalso; q_props; lra ].
Qed.

Lemma clasificadores_monotonos_witness :
  (posicion m001 (M001.evaluar_nivel_riesgo 0.03)
   <= posicion m001 (M001.evaluar_nivel_riesgo 0.08))%nat.
Proof.
  exact (proj1 (clasificadores_monotonos 0.03 0.08 ltac:(discriminate))).
Defined.

(** ** More on the ROE extractor *)

Module M002Mas.
Import Str StrFacts M002 M002Facts.

Lemma campo_ok_num q r : campo_ok (VNum q) → VNum q = VNum r → 1000 < r.
Proof. intros [?|(q' & E & H)] [= <-]; [discriminate|]. by injection E as ->. Qed.

Lemma datos_pagina_ok_mono hi hi' d :
  (hi <= hi')%nat → datos_pagina_ok hi d → datos_pagina_ok hi' d.
Proof.
  intros Hle [Hd Hp]. split; [done|]. intros Hu.
  destruct (Hp Hu) as (k & E & Hk). exists k. split; [done | lia].
Qed.

Lemma datos_iniciales_pagina_ok hi : datos_pagina_ok hi datos_iniciales.
Proof. split; [apply datos_iniciales_ok | done]. Qed.

Lemma descartar_pagina_ok hi d :
  datos_pagina_ok hi d → datos_pagina_ok hi (descartar d).
Proof. intros [Hd _]. split; [by apply descartar_ok | done]. Qed.

Lemma buscar_utilidad_pagina_ok hi n linea ll d :
  (1 <= n <= hi)%nat → datos_pagina_ok hi d →
  ∃ d', buscar_utilidad n linea ll d = Ok d' ∧ datos_pagina_ok hi d'.
Proof.
  intros Hn [Hd Hp].
  destruct (buscar_utilidad_ok n linea ll d Hd) as (d' & E & Hd').
  exists d'. split; [done|]. split; [done|].
  revert E. unfold buscar_utilidad.
  destruct (_ || _); [|by intros [= <-]].
  destruct (negb _); [|by intros [= <-]].
  destruct (_ && _); [|by intros [= <-]].
  destruct (index_neg _ 2); [|discriminate].
  destruct (index_neg _ 1); [|discriminate].
  cbn [mbind result_bind]. intros [= <-] _. simpl. by exists n.
Qed.

Lemma buscar_patrimonio_pagina_ok hi linea ll d :
  datos_pagina_ok hi d →
  ∃ d', buscar_patrimonio linea ll d = Ok d' ∧ datos_pagina_ok hi d'.
Proof.
  intros [Hd Hp].
  destruct (buscar_patrimonio_ok linea ll d Hd) as (d' & E & Hd').
  exists d'. split; [done|]. split; [done|].
  revert E. unfold buscar_patrimonio.
  destruct (_ || _); [|by intros [= <-]].
  destruct (_ && _); [|by intros [= <-]].
  destruct (index_neg _ 2); [|discriminate].
  destruct (index_neg _ 1); [|discriminate].
  cbn [mbind result_bind]. intros [= <-]. simpl. exact Hp.
Qed.

(** The record that [construir] builds, field by field. *)
Lemma construir_campos ahora d u24 u23 p24 p23 :
  d_utilidad_neta_2024 d = VNum u24 → d_utilidad_neta_2023 d = VNum u23 →
  d_patrimonio_2024 d = VNum p24 → d_patrimonio_2023 d = VNum p23 →
  1000 < p24 → 1000 < p23 →
  ∃ m, construir ahora d = Ok m
       ∧ metrica_de u24 u23 p24 p23 m
       ∧ nivel_desempeno m = evaluar_desempeno (u24 / ((p24 + p23) / 2))
       ∧ pagina_fuente m = d_pagina_encontrada d
       ∧ fecha_extraccion m = ahora.
Proof.
  intros E1 E2 E3 E4 H24 H23. unfold construir. rewrite E1, E2, E3, E4.
  cbn [add mbind result_bind].
  rewrite (div_num (p24 + p23) 2) by (intros E; lra).
  cbn [mbind result_bind].
  rewrite (div_num u24 _ (promedio_no_nulo _ _ H24 H23)).
  cbn [mbind result_bind]. rewrite (div_gt u23 p23 H23).
  cbn [mbind result_bind num nueva sub].
  eexists. split; [reflexivity|]. unfold metrica_de; simpl. repeat split.
Qed.

Lemma validar_y_salir_completo ahora hi d :
  datos_pagina_ok hi d →
  (∃ d', validar_y_salir ahora d = Ok (Continue d') ∧ datos_pagina_ok hi d')
  ∨ (∃ m, validar_y_salir ahora d = Ok (Return m) ∧ retorno_completo ahora hi m).
Proof.
  intros Hdp. pose proof Hdp as [[Hu24 Hu23 Hp24 Hp23 Hu Hp] Hpag].
  unfold validar_y_salir.
  destruct Hu24 as [Eu|(u24 & Eu & Gu)].
  { left. rewrite Eu. simpl. eauto. }
  destruct Hp24 as [Ep|(p24 & Ep & Gp)].
  { left. rewrite Ep, andb_false_r. eauto. }
  rewrite Eu, Ep, (truthy_gt _ Gu), (truthy_gt _ Gp), (div_gt _ _ Gp).
  cbn [andb mbind result_bind]. rewrite roe_razonable_num.
  cbn [mbind result_bind].
  destruct (Qlt_bool (-0.10) (u24 / p24) && Qlt_bool (u24 / p24) 0.30) eqn:E.
  - right. apply razonable_bool in E.
    destruct Hu23 as [Eu3|(u23 & Eu3 & Gu3)]; [rewrite Eu in Hu; by destruct Hu|].
    destruct Hp23 as [Ep3|(p23 & Ep3 & Gp3)]; [rewrite Ep in Hp; by destruct Hp|].
    destruct (construir_campos ahora d u24 u23 p24 p23)
      as (m & -> & Hm & Hn & Hpg & Hf); try done.
    destruct Hpag as (k & Ek & Hk); [by rewrite Eu|].
    exists m. split; [done|]. exists u24, u23, p24, p23, k.
    rewrite Hpg, Ek. by repeat (split; [done|]).
  - left. eexists. split; [done|]. by apply descartar_pagina_ok.
Qed.

Lemma procesar_linea_completo ahora hi n linea d :
  (1 <= n <= hi)%nat → datos_pagina_ok hi d →
  (∃ d', procesar_linea ahora n linea d = Ok (Continue d') ∧ datos_pagina_ok hi d')
  ∨ (∃ m, procesar_linea ahora n linea d = Ok (Return m)
          ∧ retorno_completo ahora hi m).
Proof.
  intros Hn Hd. unfold procesar_linea.
  destruct (buscar_utilidad_pagina_ok hi n linea (lower linea) d Hn Hd)
    as (d1 & -> & Hd1).
  cbn [mbind result_bind].
  destruct (buscar_patrimonio_pagina_ok hi linea (lower linea) d1 Hd1)
    as (d2 & -> & Hd2).
  cbn [mbind result_bind]. by apply validar_y_salir_completo.
Qed.

Lemma recorrer_lineas_completo ahora hi n lineas : ∀ d,
  (1 <= n <= hi)%nat → datos_pagina_ok hi d →
  (∃ d', recorrer_lineas ahora n lineas d = Ok (Continue d')
         ∧ datos_pagina_ok hi d')
  ∨ (∃ m, recorrer_lineas ahora n lineas d = Ok (Return m)
          ∧ retorno_completo ahora hi m).
Proof.
  induction lineas as [|linea resto IH]; intros d Hn Hd; simpl.
  - left. eauto.
  - destruct (procesar_linea_completo ahora hi n linea d Hn Hd)
      as [(d' & -> & Hd')|(m & -> & Hm)]; cbn [mbind result_bind].
    + by apply IH.
    + right. eauto.
Qed.

Lemma recorrer_paginas_completo ahora hi paginas : ∀ n d,
  (1 <= n)%nat → (n + length paginas <= S hi)%nat → datos_pagina_ok hi d →
  recorrer_paginas ahora n paginas d = Ok None
  ∨ ∃ m, recorrer_paginas ahora n paginas d = Ok (Some m)
         ∧ retorno_completo ahora hi m.
Proof.
  induction paginas as [|texto resto IH]; intros n d Hn Hlen Hd; simpl.
  - by left.
  - simpl in Hlen.
    destruct texto as [texto|]; [|apply IH; [lia | lia | done]].
    destruct (negb _); [apply IH; [lia | lia | done]|].
    destruct (recorrer_lineas_completo ahora hi n (split_lines texto) d)
      as [(d' & -> & Hd')|(m & -> & Hm)]; [lia | done | |];
      cbn [mbind result_bind].
    + apply IH; [lia | lia | done].
    + right. eauto.
Qed.

(** Everything a returned record is known to satisfy. *)
Lemma extraer_metrica_m002_completo ahora existe paginas m :
  extraer_metrica_m002 ahora existe paginas = Ok (Some m) →
  retorno_completo ahora (length paginas) m.
Proof.
  unfold extraer_metrica_m002. destruct existe; simpl; [|discriminate].
  intros H.
  destruct (recorrer_paginas_completo ahora (length paginas) paginas 1
              datos_iniciales) as [H'|(m' & H' & Hm)];
    [lia | simpl; lia | apply datos_iniciales_pagina_ok | congruence |].
  by assert (m' = m) as <- by congruence.
Qed.

(** Once a page has produced a record, the pages after it are not read. *)
Lemma recorrer_paginas_app ahora paginas mas m : ∀ n d,
  recorrer_paginas ahora n paginas d = Ok (Some m) →
  recorrer_paginas ahora n (paginas ++ mas) d = Ok (Some m).
Proof.
  induction paginas as [|texto resto IH]; intros n d; simpl; [discriminate|].
  destruct texto as [texto|]; [|apply IH].
  destruct (negb _); [apply IH|].
  destruct (recorrer_lineas ahora n (split_lines texto) d) as [[d'|m']|];
    cbn [mbind result_bind]; [apply IH | done | done].
Qed.

End M002Mas.

(** X2.  [extraer_metrica_m002] never reports a loss: in every record it
    returns the four stored magnitudes are above 1000 (the sign of a
    parenthesised or negative figure is gone with [abs] and the pattern),
    and, when the two equity figures are within the range of binary64, both
    ROE are positive and the preliminary ROE lies strictly between 0 and
    30%, so the lower end -10% of the plausibility window never decides. *)
Theorem m002_nunca_negativo ahora existe paginas m :
  M002.extraer_metrica_m002 ahora existe paginas = Ok (Some m) →
  ∃ u24 u23 p24 p23 r24 r23,
    M002.utilidad_neta_2024 m = VNum u24 ∧ 1000 < u24
    ∧ M002.utilidad_neta_2023 m = VNum u23 ∧ 1000 < u23
    ∧ M002.patrimonio_2024 m = VNum p24 ∧ 1000 < p24
    ∧ M002.patrimonio_2023 m = VNum p23 ∧ 1000 < p23
    ∧ M002.roe_2024 m = VNum r24
    ∧ M002.roe_2023 m = VNum r23
    ∧ (acotado p24 → acotado p23 →
       0 < r24 ∧ 0 < r23 ∧ 0 < u24 / p24 ∧ u24 / p24 < 0.30).
Proof.
  intros H. apply M002Mas.extraer_metrica_m002_completo in H
    as (u24 & u23 & p24 & p23 & k & Hm & [_ Hr] & G1 & G2 & G3 & G4 & _).
  destruct Hm as (E1 & E2 & E3 & E4 & E5 & E6 & _).
  exists u24, u23, p24, p23, (u24 / ((p24 + p23) / 2)), (u23 / p23).
  assert (Hprom : 0 < (p24 + p23) / 2).
  { apply Qlt_shift_div_l; lra. }
  repeat (split; [done|]). intros _ _.
  split; [apply Qlt_shift_div_l; lra|].
  split; [apply Qlt_shift_div_l; lra|].
  split; [apply Qlt_shift_div_l; lra | done].
Qed.

Lemma m002_nunca_negativo_witness :
  ∃ m r24,
    M002.extraer_metrica_m002 "2024-12-31" true [Some Ejemplos.pagina_roe]
    = Ok (Some m)
    ∧ M002.roe_2024 m = VNum r24 ∧ 0 < r24.
Proof.
  eexists.
  destruct (m002_nunca_negativo "2024-12-31" true [Some Ejemplos.pagina_roe]
              _ eq_refl)
    as (u24 & u23 & p24 & p23 & r24 & r23 & _ & _ & _ & _ & E3 & _ & E4 & _
        & H1 & _ & H).
  exists r24. split; [reflexivity|]. split; [exact H1|].
  injection E3 as <-. injection E4 as <-.
  apply H; by vm_compute.
Defined.

(** X3.  The provenance and the label of a record returned by
    [extraer_metrica_m002]: [pagina_fuente] is the 1-based number of a page
    of the document (between 1 and the number of pages), [fecha_extraccion]
    is the time of the call, and [nivel_desempeno] is [evaluar_desempeno] of
    the stored [roe_2024], not of the preliminary ROE that was validated. *)
Theorem m002_procedencia ahora existe paginas m :
  M002.extraer_metrica_m002 ahora existe paginas = Ok (Some m) →
  ∃ k r24,
    M002.pagina_fuente m = M002.num_pagina k
    ∧ (1 <= k <= length paginas)%nat
    ∧ M002.fecha_extraccion m = ahora
    ∧ M002.roe_2024 m = VNum r24
    ∧ M002.nivel_desempeno m = M002.evaluar_desempeno r24.
Proof.
  intros H. apply M002Mas.extraer_metrica_m002_completo in H
    as (u24 & u23 & p24 & p23 & k & Hm & _ & _ & _ & _ & _ & Hn & Hp & Hk & Hf).
  destruct Hm as (_ & _ & _ & _ & E5 & _).
  by exists k, (u24 / ((p24 + p23) / 2)).
Qed.

Lemma m002_procedencia_witness :
  ∃ m k,
    M002.extraer_metrica_m002 "2024-12-31" true
      [None; Some Ejemplos.pagina_roe] = Ok (Some m)
    ∧ M002.pagina_fuente m = M002.num_pagina k
    ∧ (1 <= k <= 2)%nat.
Proof.
  eexists.
  destruct (m002_procedencia "2024-12-31" true [None; Some Ejemplos.pagina_roe]
              _ eq_refl)
    as (k & r24 & H1 & H2 & _).
  exists k. split; [reflexivity|]. split; assumption.
Defined.

(** X4.  The first plausible match wins: once [extraer_metrica_m002] has
    found a record in a document, pages added after the last one change
    nothing, whatever they hold. *)
Theorem m002_primera_coincidencia ahora existe paginas mas m :
  M002.extraer_metrica_m002 ahora existe paginas = Ok (Some m) →
  M002.extraer_metrica_m002 ahora existe (paginas ++ mas) = Ok (Some m).
Proof.
  unfold M002.extraer_metrica_m002. destruct existe; simpl; [|discriminate].
  apply M002Mas.recorrer_paginas_app.
Qed.

Lemma m002_primera_coincidencia_witness :
  M002.extraer_metrica_m002 "2024-12-31" true
    ([Some Ejemplos.pagina_roe] ++ [Some "Utilidad neta 5,000 4,000"])
  = M002.extraer_metrica_m002 "2024-12-31" true [Some Ejemplos.pagina_roe].
Proof.
  destruct (M002.extraer_metrica_m002 "2024-12-31" true
              [Some Ejemplos.pagina_roe]) as [[m|]|] eqn:E.
  - exact (m002_primera_coincidencia "2024-12-31" true
             [Some Ejemplos.pagina_roe] [Some "Utilidad neta 5,000 4,000"] m E).
  - vm_compute in E. discriminate E.
  - vm_compute in E. discriminate E.
Defined.

(** ** More on the numeric token extractor *)

Module StrMas.
Import Str StrFacts.

Lemma grupos_aux_app a c b : ∀ g,
  es_clase c = false →
  grupos_aux g (a +:+ String c b) = grupos_aux g a ++ grupos b.
Proof.
  induction a as [|x a IH]; intros g Hc.
  - simpl. by rewrite Hc.
  - rewrite append_cons. simpl. destruct (es_clase x).
    + by apply IH.
    + rewrite (IH _ Hc). by rewrite app_assoc.
Qed.

Lemma grupos_aux_solo_clase s : ∀ g,
  grupos_aux g (solo_clase s) = grupos_aux g s.
Proof.
  induction s as [|c t IH]; intros g; [done|]. simpl.
  assert (Hsp : es_clase " " = false) by reflexivity.
  destruct (es_clase c) eqn:Ec.
  - rewrite Ec. apply IH.
  - by rewrite Hsp, IH.
Qed.

Lemma filter_omap_app {A B} (f : A → option B) (p : B → bool) (l1 l2 : list A) :
  List.filter p (omap f (l1 ++ l2))
  = List.filter p (omap f l1) ++ List.filter p (omap f l2).
Proof. by rewrite omap_app, List.filter_app. Qed.

End StrMas.

(** X5.  [extraer_numeros_de_linea] reads nothing but digits and commas.
    Replacing every other character of a line by a space changes nothing:
    a minus sign, a pair of parentheses, a decimal point or a currency
    symbol only separates tokens.  And the tokens of a line cut at such a
    character are those of the left part followed by those of the right
    part. *)
Theorem extraer_numeros_de_linea_separadores :
  (∀ linea,
     M002.extraer_numeros_de_linea (Str.solo_clase linea)
     = M002.extraer_numeros_de_linea linea)
  ∧ (∀ a c b,
       Str.es_clase c = false →
       M002.extraer_numeros_de_linea (a +:+ String c b)
       = M002.extraer_numeros_de_linea a ++ M002.extraer_numeros_de_linea b).
Proof.
  split.
  - intros linea. rewrite !M002Facts.extraer_numeros_de_linea_filter.
    unfold Str.grupos. by rewrite StrMas.grupos_aux_solo_clase.
  - intros a c b Hc. rewrite !M002Facts.extraer_numeros_de_linea_filter.
    unfold Str.grupos at 1. rewrite (StrMas.grupos_aux_app _ _ _ _ Hc).
    apply StrMas.filter_omap_app.
Qed.

Lemma extraer_numeros_de_linea_separadores_witness :
  M002.extraer_numeros_de_linea ("Utilidad (1,234,567)" +:+ String "-" "987,654")
  = M002.extraer_numeros_de_linea "Utilidad (1,234,567)"
    ++ M002.extraer_numeros_de_linea "987,654".
Proof.
  exact (proj2 extraer_numeros_de_linea_separadores "Utilidad (1,234,567)"
           "-"%char "987,654" eq_refl).
Defined.

(** ** More on the extractors of the catalogue *)

Module ExtractorMas.
Import ExtractorFacts.

Lemma truthy_VDict d : negb (truthy (VDict d)) = true → d = [].
Proof. by destruct d. Qed.

Lemma truthy_VDict_cons d : d ≠ [] → negb (truthy (VDict d)) = false.
Proof. by destruct d. Qed.

Lemma getitem_Ok_cons d k v : getitem d k = Ok v → d ≠ [].
Proof. by destruct d. Qed.

Lemma getitem_None d k : lookup_key k d = None → getitem d k = Raise (KeyError k).
Proof. unfold getitem. by intros ->. Qed.

End ExtractorMas.

(** X6.  [extraer_metrica_m001] returns [None] exactly when the parser
    returns without an exception and gives no usable current-period
    figures: no dictionary, an empty one, or a [provision_2024] or
    [cartera_2024] that is [None] or zero.  Missing prior-period figures
    never make it return [None]. *)
Theorem m001_none_iff tp ahora ruta :
  M001.extraer_metrica_m001 tp ahora ruta = Ok None
  ↔ ∃ datos, tp ruta = Ok datos ∧ M001.sin_datos_actuales datos.
Proof.
  unfold M001.extraer_metrica_m001, M001.sin_datos_actuales. split.
  - intros H. inv_ok H; try discriminate H.
    + apply ExtractorMas.truthy_VDict in E1 as ->. eauto.
    + apply negb_true_iff in E3. eexists. split; [done|].
      right. right. eexists. split; [done|]. left. eauto.
    + apply negb_true_iff in E5. apply negb_false_iff in E3.
      eexists. split; [done|].
      right. right. eexists. split; [done|]. right. eauto 10.
    + eauto.
  - intros (datos & -> & [->|[->|(d & -> & Hd)]]); cbn [mbind result_bind];
      [done | done |].
    destruct Hd as [(v & E & Hv)|(v & w & E & Hv & E' & Hw)].
    + rewrite (ExtractorMas.truthy_VDict_cons d)
        by (by eapply ExtractorMas.getitem_Ok_cons).
      rewrite E. cbn [mbind result_bind]. by rewrite Hv.
    + rewrite (ExtractorMas.truthy_VDict_cons d)
        by (by eapply ExtractorMas.getitem_Ok_cons).
      rewrite E. cbn [mbind result_bind]. rewrite Hv. cbn [negb].
      rewrite E'. cbn [mbind result_bind]. by rewrite Hw.
Qed.

(** X7.  With usable current-period figures and unusable prior-period ones,
    [extraer_metrica_m001] raises instead of returning [None] or a record:
    [KeyError] when [provision_2023] is absent from the dictionary,
    [TypeError] when it is [None], [ZeroDivisionError] when [cartera_2023]
    is zero.  The figures it divides are within the range of binary64. *)
Theorem m001_periodo_anterior tp ahora ruta d p c :
  tp ruta = Ok (Some d) →
  getitem d "provision_2024" = Ok (VNum p) → ¬ p == 0 → acotado p →
  getitem d "cartera_2024" = Ok (VNum c) → ¬ c == 0 → acotado c →
  (lookup_key "provision_2023" d = None →
   M001.extraer_metrica_m001 tp ahora ruta = Raise (KeyError "provision_2023"))
  ∧ (∀ w, getitem d "provision_2023" = Ok VNone →
          getitem d "cartera_2023" = Ok w →
          M001.extraer_metrica_m001 tp ahora ruta = Raise TypeError)
  ∧ (∀ p23 c23, getitem d "provision_2023" = Ok (VNum p23) → acotado p23 →
                getitem d "cartera_2023" = Ok (VNum c23) → c23 == 0 →
                M001.extraer_metrica_m001 tp ahora ruta = Raise ZeroDivisionError).
Proof.
  intros Htp Ep Hp _ Ec Hc _. unfold M001.extraer_metrica_m001.
  rewrite Htp. cbn [mbind result_bind].
  rewrite (ExtractorMas.truthy_VDict_cons d)
    by (by eapply ExtractorMas.getitem_Ok_cons).
  rewrite Ep. cbn [mbind result_bind].
  rewrite (proj2 (truthy_num p) Hp). cbn [negb].
  rewrite Ec. cbn [mbind result_bind].
  rewrite (proj2 (truthy_num c) Hc). cbn [negb].
  rewrite (div_num p c Hc). cbn [mbind result_bind].
  split; [|split].
  - intros H. by rewrite (ExtractorMas.getitem_None _ _ H).
  - intros w E1 E2. rewrite E1, E2. reflexivity.
  - intros p23 c23 E1 _ E2 H0. rewrite E1, E2. cbn [mbind result_bind div].
    apply Qeq_bool_iff in H0. by rewrite H0.
Qed.

Lemma m001_periodo_anterior_witness :
  M001.extraer_metrica_m001
    (fun _ => Ok (Some [("provision_2024", VNum 1000); ("cartera_2024", VNum 20000);
                        ("provision_2023", VNone); ("cartera_2023", VNone);
                        ("pagina_encontrada", VNum 95)]))
    "2024-12-31" "informe.pdf"
  = Raise TypeError.
Proof.
  refine (proj1 (proj2 (m001_periodo_anterior
                          (fun _ => Ok (Some [("provision_2024", VNum 1000);
                                              ("cartera_2024", VNum 20000);
                                              ("provision_2023", VNone);
                                              ("cartera_2023", VNone);
                                              ("pagina_encontrada", VNum 95)]))
                          "2024-12-31" "informe.pdf" _
                          1000 20000 eq_refl eq_refl _ _ eq_refl _ _))
            VNone eq_refl eq_refl); by vm_compute.
Defined.


(** ** Outcomes of the extractors of the catalogue *)

Module OrigenFacts.
Import ExtractorFacts ExtractorMas.

Lemma get_getitem d k v w : getitem d k = Ok v → get d k w = v.
Proof. unfold get, getitem. destruct (lookup_key k d); congruence. Qed.

(** Run a block forwards along lookups and operations known to succeed. *)
Ltac avanzar :=
  repeat first
    [ progress cbn [mbind result_bind negb format_num num sub add]
    | match goal with
      | H : getitem ?d ?k = Ok _ |- context [getitem ?d ?k] => rewrite H
      | H : ¬ ?y == 0 |- context [div (VNum ?x) (VNum ?y)] =>
          rewrite (div_num x y H)
      | H : ¬ ?q == 0 |- context [truthy (VNum ?q)] =>
          rewrite (proj2 (truthy_num q) H)
      | H : ?f ?r = Ok _ |- context [?f ?r] => rewrite H
      | H : getitem ?d _ = Ok _ |- context [truthy (VDict ?d)] =>
          rewrite (truthy_VDict_cons d (getitem_Ok_cons _ _ _ H))
      end ].

(** Where the fields of a returned record come from. *)
Lemma extraer_metrica_m001_origen tp ahora ruta m :
  M001.extraer_metrica_m001 tp ahora ruta = Ok (Some m) →
  ∃ datos p24 p23 c24 c23 pag,
    tp ruta = Ok (Some datos)
    ∧ getitem datos "provision_2024" = Ok (VNum p24)
    ∧ getitem datos "provision_2023" = Ok (VNum p23)
    ∧ getitem datos "cartera_2024" = Ok (VNum c24)
    ∧ getitem datos "cartera_2023" = Ok (VNum c23)
    ∧ getitem datos "pagina_encontrada" = Ok pag
    ∧ M001.de_valores p24 p23 c24 c23 m
    ∧ M001.pagina_fuente m = pag ∧ M001.fecha_extraccion m = ahora
    ∧ M001.id m = "M001".
Proof.
  unfold M001.extraer_metrica_m001. intros H. inv_ok H.
  match goal with
  | H : M001.nueva _ _ _ _ _ _ _ _ _ = Ok _ |- _ =>
      unfold M001.nueva in H; inv_ok H
  end.
  inv_vals.
  do 6 eexists. unfold M001.de_valores; simpl.
  repeat (split; [eassumption || done|]). done.
Qed.

Lemma extraer_metrica_m003_origen tp cv ahora ruta m :
  M003.extraer_metrica_m003 tp cv ahora ruta = Ok (Some m) →
  ∃ dp dc p24 p23 c24 c23 t24 t23 pag,
    tp ruta = Ok (Some dp) ∧ cv ruta = Ok (Some dc)
    ∧ getitem dp "provision_2024" = Ok (VNum p24)
    ∧ getitem dp "provision_2023" = Ok (VNum p23)
    ∧ getitem dp "cartera_2024" = Ok (VNum t24)
    ∧ getitem dp "cartera_2023" = Ok (VNum t23)
    ∧ getitem dc "cobertura_2024" = Ok (VNum c24)
    ∧ getitem dc "cobertura_2023" = Ok (VNum c23)
    ∧ getitem dc "pagina_encontrada" = Ok pag
    ∧ M003.de_valores p24 p23 c24 c23 t24 t23 m
    ∧ M003.pagina_fuente m = pag ∧ M003.fecha_extraccion m = ahora
    ∧ M003.id m = "M003".
Proof.
  unfold M003.extraer_metrica_m003, M003.calcular_cartera_vencida_desde_cobertura.
  intros H. inv_ok H.
  match goal with
  | H : M003.nueva _ _ _ _ _ _ _ _ _ _ _ _ _ = Ok _ |- _ =>
      unfold M003.nueva in H; inv_ok H
  end.
  inv_vals.
  do 9 eexists. unfold M003.de_valores; simpl.
  repeat (split; [eassumption || done|]). done.
Qed.

Lemma extraer_metrica_m004_origen cv ahora ruta m :
  M004.extraer_metrica_m004 cv ahora ruta = Ok (Some m) →
  ∃ dc c24 c23 pag,
    cv ruta = Ok (Some dc)
    ∧ getitem dc "cobertura_2024" = Ok (VNum c24)
    ∧ getitem dc "cobertura_2023" = Ok (VNum c23)
    ∧ getitem dc "pagina_encontrada" = Ok pag
    ∧ M004.de_valores c24 c23 m
    ∧ M004.pagina_fuente m = pag ∧ M004.fecha_extraccion m = ahora
    ∧ M004.id m = "M004".
Proof.
  unfold M004.extraer_metrica_m004. intros H. inv_ok H.
  match goal with
  | H : M004.nueva _ _ _ _ _ = Ok _ |- _ => unfold M004.nueva in H; inv_ok H
  end.
  inv_vals.
  do 4 eexists. unfold M004.de_valores; simpl.
  repeat (split; [eassumption || done|]). done.
Qed.

Lemma extraer_metrica_m005_origen cr ahora ruta m :
  M005.extraer_metrica_m005 cr ahora ruta = Ok (Some m) →
  ∃ dr a24 b24 c24 d24 e24 t24 a23 b23 c23 d23 e23 t23,
    cr ruta = Ok (Some dr)
    ∧ getitem dr "a_2024" = Ok a24 ∧ truthy a24 = true
    ∧ getitem dr "b_2024" = Ok b24
    ∧ getitem dr "c_2024" = Ok (VNum c24)
    ∧ getitem dr "d_2024" = Ok (VNum d24)
    ∧ getitem dr "e_2024" = Ok (VNum e24)
    ∧ getitem dr "total_2024" = Ok (VNum t24)
    ∧ getitem dr "a_2023" = Ok a23
    ∧ getitem dr "b_2023" = Ok b23
    ∧ getitem dr "c_2023" = Ok (VNum c23)
    ∧ getitem dr "d_2023" = Ok (VNum d23)
    ∧ getitem dr "e_2023" = Ok (VNum e23)
    ∧ getitem dr "total_2023" = Ok (VNum t23)
    ∧ M005.cartera_a_2024 m = a24 ∧ M005.cartera_b_2024 m = b24
    ∧ M005.de_valores c24 d24 e24 t24 c23 d23 e23 t23 m
    ∧ M005.pagina_fuente m = get dr "pagina_encontrada" (VNum 0)
    ∧ M005.fecha_extraccion m = ahora
    ∧ M005.id m = "M005".
Proof.
  unfold M005.extraer_metrica_m005. intros H. inv_ok H.
  match goal with
  | H : M005.nueva _ _ _ _ _ _ _ _ _ _ _ _ _ _ _ _ _ = Ok _ |- _ =>
      unfold M005.nueva in H; inv_ok H
  end.
  inv_vals.
  match goal with
  | Hg : getitem ?l "a_2024" = Ok ?a, Ht : truthy (get ?l "a_2024" VNone) = true
    |- _ =>
      assert (Ha : truthy a = true)
        by (revert Ht; unfold get; unfold getitem in Hg;
            destruct (lookup_key "a_2024" l); [by injection Hg as ->|done])
  end.
  do 13 eexists. unfold M005.de_valores; simpl.
  repeat (split; [eassumption || done|]). done.
Qed.

(** When an extractor returns [None]. *)
Lemma m003_sin_provision tp ahora ruta datos :
  tp ruta = Ok datos → sin_dato "provision_2024" datos →
  ∀ cv, M003.extraer_metrica_m003 tp cv ahora ruta = Ok None.
Proof.
  unfold M003.extraer_metrica_m003, sin_dato.
  intros -> [->|[->|(d & v & -> & E & Hv)]] cv; cbn [mbind result_bind];
    [done | done |].
  rewrite (truthy_VDict_cons d) by (by eapply getitem_Ok_cons).
  rewrite E. cbn [mbind result_bind]. by rewrite Hv.
Qed.

Lemma m003_none tp cv ahora ruta :
  M003.extraer_metrica_m003 tp cv ahora ruta = Ok None
  ↔ (∃ datos, tp ruta = Ok datos ∧ sin_dato "provision_2024" datos)
    ∨ (∃ d datos p24 p23 t24 t23,
         tp ruta = Ok (Some d)
         ∧ getitem d "provision_2024" = Ok (VNum p24) ∧ ¬ p24 == 0
         ∧ getitem d "provision_2023" = Ok p23
         ∧ getitem d "cartera_2024" = Ok (VNum t24)
         ∧ getitem d "cartera_2023" = Ok t23
         ∧ cv ruta = Ok datos ∧ sin_dato "cobertura_2024" datos).
Proof.
  split.
  - unfold M003.extraer_metrica_m003, sin_dato.
    intros H. inv_ok H; try discriminate H.
    + left. apply truthy_VDict in E1 as ->. eauto.
    + left. apply negb_true_iff in E3. eauto 10.
    + right. inv_vals. apply truthy_VDict in E11 as ->. eauto 20.
    + right. inv_vals. apply negb_true_iff in E13. eauto 20.
    + right. inv_vals. eauto 20.
    + left. eauto.
  - intros [(datos & Ht & Hs)|(d & datos & p24 & p23 & t24 & t23 & Ht & E1 & Hp
                                & E2 & E3 & E4 & Hc & Hs)].
    + by apply (m003_sin_provision tp ahora ruta datos).
    + unfold M003.extraer_metrica_m003. avanzar.
      destruct Hs as [->|[->|(d' & v & -> & E & Hv)]]; [done|done|].
      rewrite (truthy_VDict_cons d') by (by eapply getitem_Ok_cons).
      rewrite E. cbn [mbind result_bind]. by rewrite Hv.
Qed.

Lemma m004_none cv ahora ruta :
  M004.extraer_metrica_m004 cv ahora ruta = Ok None
  ↔ ∃ datos, cv ruta = Ok datos ∧ sin_dato "cobertura_2024" datos.
Proof.
  unfold M004.extraer_metrica_m004, sin_dato. split.
  - intros H. inv_ok H; try discriminate H.
    + apply truthy_VDict in E1 as ->. eauto.
    + apply negb_true_iff in E3. eauto 10.
    + eauto.
  - intros (datos & -> & [->|[->|(d & v & -> & E & Hv)]]); cbn [mbind result_bind];
      [done | done |].
    rewrite (truthy_VDict_cons d) by (by eapply getitem_Ok_cons).
    rewrite E. cbn [mbind result_bind]. by rewrite Hv.
Qed.

Lemma m005_none cr ahora ruta :
  M005.extraer_metrica_m005 cr ahora ruta = Ok None
  ↔ ∃ datos, cr ruta = Ok datos ∧ sin_dato_get "a_2024" datos.
Proof.
  unfold M005.extraer_metrica_m005, sin_dato_get. split.
  - intros H. inv_ok H; try discriminate H.
    + apply truthy_VDict in E1 as ->.
      eexists. split; [done|]. right. by exists [].
    + apply negb_true_iff in E2. eauto 10.
    + eauto.
  - intros (datos & -> & [->|(d & -> & Hv)]); cbn [mbind result_bind]; [done|].
    destruct d as [|kv d]; [done|]. cbn [truthy negb].
    by rewrite Hv.
Qed.

(** When an extractor returns a record. *)
Lemma m001_exito tp ahora ruta :
  (∃ m, M001.extraer_metrica_m001 tp ahora ruta = Ok (Some m))
  ↔ ∃ datos p24 p23 c24 c23 pag,
      tp ruta = Ok (Some datos)
      ∧ getitem datos "provision_2024" = Ok (VNum p24)
      ∧ getitem datos "provision_2023" = Ok (VNum p23)
      ∧ getitem datos "cartera_2024" = Ok (VNum c24)
      ∧ getitem datos "cartera_2023" = Ok (VNum c23)
      ∧ getitem datos "pagina_encontrada" = Ok pag
      ∧ ¬ p24 == 0 ∧ ¬ c24 == 0 ∧ ¬ c23 == 0.
Proof.
  split.
  - intros [m H]. apply extraer_metrica_m001_origen in H
      as (datos & p24 & p23 & c24 & c23 & pag & ? & ? & ? & ? & ? & ? & Hv & _).
    destruct Hv as (_ & _ & _ & _ & ? & ? & ? & _). eauto 20.
  - intros (datos & p24 & p23 & c24 & c23 & pag & Ht & E1 & E2 & E3 & E4 & E5
            & N1 & N2 & N3).
    unfold M001.extraer_metrica_m001, M001.nueva. avanzar. eauto.
Qed.

Lemma m003_exito tp cv ahora ruta :
  (∃ m, M003.extraer_metrica_m003 tp cv ahora ruta = Ok (Some m))
  ↔ ∃ dp dc p24 p23 c24 c23 t24 t23 pag,
      tp ruta = Ok (Some dp) ∧ cv ruta = Ok (Some dc)
      ∧ getitem dp "provision_2024" = Ok (VNum p24)
      ∧ getitem dp "provision_2023" = Ok (VNum p23)
      ∧ getitem dp "cartera_2024" = Ok (VNum t24)
      ∧ getitem dp "cartera_2023" = Ok (VNum t23)
      ∧ getitem dc "cobertura_2024" = Ok (VNum c24)
      ∧ getitem dc "cobertura_2023" = Ok (VNum c23)
      ∧ getitem dc "pagina_encontrada" = Ok pag
      ∧ ¬ p24 == 0 ∧ ¬ c24 == 0 ∧ ¬ c23 == 0 ∧ ¬ t24 == 0 ∧ ¬ t23 == 0.
Proof.
  split.
  - intros [m H]. apply extraer_metrica_m003_origen in H
      as (dp & dc & p24 & p23 & c24 & c23 & t24 & t23 & pag
          & ? & ? & ? & ? & ? & ? & ? & ? & ? & Hv & _).
    destruct Hv as (_ & _ & _ & _ & _ & _ & ? & ? & ? & ? & ? & _). eauto 30.
  - intros (dp & dc & p24 & p23 & c24 & c23 & t24 & t23 & pag & Ht & Hc
            & E1 & E2 & E3 & E4 & E5 & E6 & E7 & N1 & N2 & N3 & N4 & N5).
    unfold M003.extraer_metrica_m003, M003.nueva,
      M003.calcular_cartera_vencida_desde_cobertura. avanzar. eauto.
Qed.

Lemma m004_exito cv ahora ruta :
  (∃ m, M004.extraer_metrica_m004 cv ahora ruta = Ok (Some m))
  ↔ ∃ dc c24 c23 pag,
      cv ruta = Ok (Some dc)
      ∧ getitem dc "cobertura_2024" = Ok (VNum c24)
      ∧ getitem dc "cobertura_2023" = Ok (VNum c23)
      ∧ getitem dc "pagina_encontrada" = Ok pag
      ∧ ¬ c24 == 0.
Proof.
  split.
  - intros [m H]. apply extraer_metrica_m004_origen in H
      as (dc & c24 & c23 & pag & ? & ? & ? & ? & Hv & _).
    destruct Hv as (_ & _ & ? & _). eauto 30.
  - intros (dc & c24 & c23 & pag & Hc & E1 & E2 & E3 & N1).
    unfold M004.extraer_metrica_m004, M004.nueva. avanzar. eauto.
Qed.

Lemma m005_exito cr ahora ruta :
  (∃ m, M005.extraer_metrica_m005 cr ahora ruta = Ok (Some m))
  ↔ ∃ dr a24 b24 c24 d24 e24 t24 a23 b23 c23 d23 e23 t23,
      cr ruta = Ok (Some dr)
      ∧ getitem dr "a_2024" = Ok a24 ∧ truthy a24 = true
      ∧ getitem dr "b_2024" = Ok b24
      ∧ getitem dr "c_2024" = Ok (VNum c24)
      ∧ getitem dr "d_2024" = Ok (VNum d24)
      ∧ getitem dr "e_2024" = Ok (VNum e24)
      ∧ getitem dr "total_2024" = Ok (VNum t24)
      ∧ getitem dr "a_2023" = Ok a23
      ∧ getitem dr "b_2023" = Ok b23
      ∧ getitem dr "c_2023" = Ok (VNum c23)
      ∧ getitem dr "d_2023" = Ok (VNum d23)
      ∧ getitem dr "e_2023" = Ok (VNum e23)
      ∧ getitem dr "total_2023" = Ok (VNum t23)
      ∧ ¬ t24 == 0 ∧ ¬ t23 == 0.
Proof.
  split.
  - intros [m H]. apply extraer_metrica_m005_origen in H
      as (dr & a24 & b24 & c24 & d24 & e24 & t24 & a23 & b23 & c23 & d23 & e23
          & t23 & ? & ? & ? & ? & ? & ? & ? & ? & ? & ? & ? & ? & ? & ?
          & _ & _ & Hv & _).
    destruct Hv as (_ & _ & _ & _ & _ & _ & _ & _ & ? & ? & _).
    exists dr, a24, b24, c24, d24, e24, t24, a23, b23, c23, d23, e23, t23.
    repeat (split; [eassumption|]). done.
  - intros (dr & a24 & b24 & c24 & d24 & e24 & t24 & a23 & b23 & c23 & d23 & e23
            & t23 & Hc & A1 & Ha & B1 & C1 & D1 & E1 & T1 & A2 & B2 & C2 & D2
            & E2 & T2 & N1 & N2).
    unfold M005.extraer_metrica_m005, M005.nueva.
    rewrite Hc. cbn [mbind result_bind].
    rewrite (truthy_VDict_cons dr (getitem_Ok_cons _ _ _ A1)).
    rewrite (get_getitem _ _ _ VNone A1), Ha. cbn [negb].
    avanzar. eauto.
Qed.

(** [to_dict] on the records of the extractors. *)
Lemma m001_to_dict_Ok m : ∃ d, M001.to_dict m = Ok d.
Proof. by eexists. Qed.

Lemma m003_to_dict_Ok m : ∃ d, M003.to_dict m = Ok d.
Proof. by eexists. Qed.

Lemma m004_to_dict_Ok fmt m c24 c23 :
  M004.de_valores c24 c23 m → ∃ d, M004.to_dict fmt m = Ok d.
Proof.
  intros (E & _). unfold M004.to_dict. rewrite E. cbn [format_num mbind result_bind].
  eauto.
Qed.

Lemma m005_to_dict_casos m c24 d24 e24 t24 c23 d23 e23 t23 :
  M005.de_valores c24 d24 e24 t24 c23 d23 e23 t23 m →
  ((∃ a b, M005.cartera_a_2024 m = VNum a ∧ M005.cartera_b_2024 m = VNum b)
   ∧ ∃ d, M005.to_dict m = Ok d)
  ∨ (¬ (∃ a b, M005.cartera_a_2024 m = VNum a ∧ M005.cartera_b_2024 m = VNum b)
     ∧ M005.to_dict m = Raise TypeError).
Proof.
  intros (C & D & E & T & _ & _ & _ & _ & N & _).
  unfold M005.to_dict. rewrite C, D, E, T.
  destruct (M005.cartera_a_2024 m) as [|a|s|d] eqn:Ea;
    try (right; split; [intros (? & ? & ? & ?); congruence | done]).
  rewrite (div_num a t24 N). cbn [mbind result_bind].
  destruct (M005.cartera_b_2024 m) as [|b|s|d] eqn:Eb;
    try (right; split; [intros (? & ? & ? & ?); congruence | done]).
  rewrite !(div_num _ t24 N). cbn [mbind result_bind].
  left. split; [by exists a, b | by eexists].
Qed.

End OrigenFacts.

(** X8.  When the other extractors return [None].  [extraer_metrica_m004]
    and [extraer_metrica_m005] do so exactly when their parser returns
    without an exception and the guard on its result holds; for M005 a
    dictionary without the key [a_2024] counts as no data.
    [extraer_metrica_m003] does so when the provision table has no usable
    [provision_2024], in which case the coverage parser is not consulted,
    and when the provision table is complete enough to be printed, with
    figures within the range of binary64, and the coverage parser gives no
    usable [cobertura_2024]; it does so in no other case. *)
Theorem extractores_none tp cv cr ahora ruta :
  ((∃ datos, tp ruta = Ok datos ∧ sin_dato "provision_2024" datos) →
   M003.extraer_metrica_m003 tp cv ahora ruta = Ok None)
  ∧ ((∃ d datos p24 p23 t24 t23,
        tp ruta = Ok (Some d)
        ∧ getitem d "provision_2024" = Ok (VNum p24) ∧ ¬ p24 == 0
        ∧ acotado p24
        ∧ getitem d "provision_2023" = Ok p23
        ∧ getitem d "cartera_2024" = Ok (VNum t24) ∧ acotado t24
        ∧ getitem d "cartera_2023" = Ok t23
        ∧ cv ruta = Ok datos ∧ sin_dato "cobertura_2024" datos) →
     M003.extraer_metrica_m003 tp cv ahora ruta = Ok None)
  ∧ (M003.extraer_metrica_m003 tp cv ahora ruta = Ok None →
     (∃ datos, tp ruta = Ok datos ∧ sin_dato "provision_2024" datos)
     ∨ (∃ d datos p24 p23 t24 t23,
          tp ruta = Ok (Some d)
          ∧ getitem d "provision_2024" = Ok (VNum p24) ∧ ¬ p24 == 0
          ∧ getitem d "provision_2023" = Ok p23
          ∧ getitem d "cartera_2024" = Ok (VNum t24)
          ∧ getitem d "cartera_2023" = Ok t23
          ∧ cv ruta = Ok datos ∧ sin_dato "cobertura_2024" datos))
  ∧ (M004.extraer_metrica_m004 cv ahora ruta = Ok None
     ↔ ∃ datos, cv ruta = Ok datos ∧ sin_dato "cobertura_2024" datos)
  ∧ (M005.extraer_metrica_m005 cr ahora ruta = Ok None
     ↔ ∃ datos, cr ruta = Ok datos ∧ sin_dato_get "a_2024" datos).
Proof.
  split; [|split; [|split; [|split]]].
  - intros H. apply OrigenFacts.m003_none. by left.
  - intros (d & datos & p24 & p23 & t24 & t23 & ? & ? & ? & _ & ? & ? & _ & ?
            & ? & ?).
    apply OrigenFacts.m003_none. right. eauto 20.
  - apply OrigenFacts.m003_none.
  - apply OrigenFacts.m004_none.
  - apply OrigenFacts.m005_none.
Qed.

(** X9.  A dictionary that lacks the key an extractor tests: M005, which
    reads it with [get], reports no data; M001, M003 and M004, which
    subscript, raise [KeyError] on that key. *)
Theorem claves_ausentes tp cv cr ahora ruta d :
  d ≠ [] →
  (cr ruta = Ok (Some d) → lookup_key "a_2024" d = None →
   M005.extraer_metrica_m005 cr ahora ruta = Ok None)
  ∧ (cv ruta = Ok (Some d) → lookup_key "cobertura_2024" d = None →
     M004.extraer_metrica_m004 cv ahora ruta = Raise (KeyError "cobertura_2024"))
  ∧ (tp ruta = Ok (Some d) → lookup_key "provision_2024" d = None →
     M001.extraer_metrica_m001 tp ahora ruta = Raise (KeyError "provision_2024")
     ∧ M003.extraer_metrica_m003 tp cv ahora ruta
       = Raise (KeyError "provision_2024")).
Proof.
  intros Hd. split; [|split].
  - intros E H. apply OrigenFacts.m005_none. eexists. split; [done|]. right.
    exists d. split; [done|]. unfold get. by rewrite H.
  - intros E H. unfold M004.extraer_metrica_m004. rewrite E.
    cbn [mbind result_bind]. rewrite (ExtractorMas.truthy_VDict_cons d Hd).
    by rewrite (ExtractorMas.getitem_None _ _ H).
  - intros E H. unfold M001.extraer_metrica_m001, M003.extraer_metrica_m003.
    rewrite E. cbn [mbind result_bind].
    rewrite (ExtractorMas.truthy_VDict_cons d Hd).
    by rewrite (ExtractorMas.getitem_None _ _ H).
Qed.

Lemma claves_ausentes_witness :
  M005.extraer_metrica_m005 (fun _ => Ok (Some Ejemplos.tabla_ajena))
    "2024-12-31" "informe.pdf" = Ok None
  ∧ M004.extraer_metrica_m004 (fun _ => Ok (Some Ejemplos.tabla_ajena))
      "2024-12-31" "informe.pdf" = Raise (KeyError "cobertura_2024").
Proof.
  assert (H : Ejemplos.tabla_ajena ≠ []) by discriminate.
  destruct (claves_ausentes
              (fun _ => Ok (Some Ejemplos.tabla_ajena))
              (fun _ => Ok (Some Ejemplos.tabla_ajena))
              (fun _ => Ok (Some Ejemplos.tabla_ajena))
              "2024-12-31" "informe.pdf" Ejemplos.tabla_ajena H)
    as (H5 & H4 & _).
  split; [exact (H5 eq_refl eq_refl) | exact (H4 eq_refl eq_refl)].
Defined.

(** X10.  A total portfolio of zero in the current period, the other
    figures being within the range of binary64: M001, which tests
    [cartera_2024], reports no data; M003, which tests only
    [provision_2024], goes on and raises [ZeroDivisionError] when it divides
    the overdue amount, the provision over the coverage, by the total. *)
Theorem cartera_nula tp cv ahora ruta dp dc p24 p23 t24 t23 c24 c23 :
  tp ruta = Ok (Some dp) → cv ruta = Ok (Some dc) →
  getitem dp "provision_2024" = Ok (VNum p24) → ¬ p24 == 0 → acotado p24 →
  getitem dp "provision_2023" = Ok (VNum p23) → acotado p23 →
  getitem dp "cartera_2024" = Ok (VNum t24) → t24 == 0 →
  getitem dp "cartera_2023" = Ok t23 →
  getitem dc "cobertura_2024" = Ok (VNum c24) → ¬ c24 == 0 → acotado c24 →
  getitem dc "cobertura_2023" = Ok (VNum c23) → ¬ c23 == 0 → acotado c23 →
  M001.extraer_metrica_m001 tp ahora ruta = Ok None
  ∧ M003.extraer_metrica_m003 tp cv ahora ruta = Raise ZeroDivisionError.
Proof.
  intros Ht Hc E1 N1 _ E2 _ E3 Z3 E4 E5 N5 _ E6 N6 _. split.
  - unfold M001.extraer_metrica_m001. OrigenFacts.avanzar. cbn [truthy].
    apply Qeq_bool_iff in Z3. by rewrite Z3.
  - unfold M003.extraer_metrica_m003,
      M003.calcular_cartera_vencida_desde_cobertura.
    OrigenFacts.avanzar. cbn [div]. apply Qeq_bool_iff in Z3. by rewrite Z3.
Qed.

Lemma cartera_nula_witness :
  M001.extraer_metrica_m001 Ejemplos.tabla_cartera_nula "2024-12-31" "informe.pdf"
  = Ok None
  ∧ M003.extraer_metrica_m003 Ejemplos.tabla_cartera_nula
      Ejemplos.cobertura_vencida "2024-12-31" "informe.pdf"
    = Raise ZeroDivisionError.
Proof.
  refine (cartera_nula Ejemplos.tabla_cartera_nula Ejemplos.cobertura_vencida
            "2024-12-31" "informe.pdf" _ _ 1000 900 0 (VNum 18000) 1.25 1.20
            eq_refl eq_refl eq_refl _ _ eq_refl _ eq_refl _ eq_refl
            eq_refl _ _ eq_refl _ _); try (by vm_compute); reflexivity.
Defined.

(** X11.  When an extractor of the catalogue returns a record.  If it does,
    its parser (for M003, both parsers) returned a dictionary that holds
    every key the extractor reads, with numbers wherever it prints or
    divides and no zero among the values it tests.  For M001, M004 and M005
    the converse holds for figures within the range of binary64: such a
    dictionary, with no zero among the divisors, gives a record.  M005 does
    no arithmetic on the categories A and B: any truthy [a_2024] and any
    [b_2024], [a_2023] and [b_2023] will do, and the page may be missing. *)
Theorem extractores_exito tp cv cr ahora ruta :
  (∀ m, M001.extraer_metrica_m001 tp ahora ruta = Ok (Some m) →
        ∃ datos p24 p23 c24 c23 pag,
          tp ruta = Ok (Some datos)
          ∧ getitem datos "provision_2024" = Ok (VNum p24)
          ∧ getitem datos "provision_2023" = Ok (VNum p23)
          ∧ getitem datos "cartera_2024" = Ok (VNum c24)
          ∧ getitem datos "cartera_2023" = Ok (VNum c23)
          ∧ getitem datos "pagina_encontrada" = Ok pag
          ∧ ¬ p24 == 0 ∧ ¬ c24 == 0 ∧ ¬ c23 == 0)
  ∧ (∀ datos p24 p23 c24 c23 pag,
       tp ruta = Ok (Some datos) →
       getitem datos "provision_2024" = Ok (VNum p24) →
       getitem datos "provision_2023" = Ok (VNum p23) →
       getitem datos "cartera_2024" = Ok (VNum c24) →
       getitem datos "cartera_2023" = Ok (VNum c23) →
       getitem datos "pagina_encontrada" = Ok pag →
       ¬ p24 == 0 → ¬ c24 == 0 → ¬ c23 == 0 →
       acotado p24 → acotado p23 → acotado c24 → acotado c23 →
       ∃ m, M001.extraer_metrica_m001 tp ahora ruta = Ok (Some m))
  ∧ (∀ m, M003.extraer_metrica_m003 tp cv ahora ruta = Ok (Some m) →
          ∃ dp dc p24 p23 c24 c23 t24 t23 pag,
            tp ruta = Ok (Some dp) ∧ cv ruta = Ok (Some dc)
            ∧ getitem dp "provision_2024" = Ok (VNum p24) ∧ ¬ p24 == 0
            ∧ getitem dp "provision_2023" = Ok p23
            ∧ getitem dp "cartera_2024" = Ok (VNum t24)
            ∧ getitem dp "cartera_2023" = Ok t23
            ∧ getitem dc "cobertura_2024" = Ok (VNum c24) ∧ ¬ c24 == 0
            ∧ getitem dc "cobertura_2023" = Ok (VNum c23)
            ∧ getitem dc "pagina_encontrada" = Ok pag)
  ∧ (∀ m, M004.extraer_metrica_m004 cv ahora ruta = Ok (Some m) →
          ∃ dc c24 c23 pag,
            cv ruta = Ok (Some dc)
            ∧ getitem dc "cobertura_2024" = Ok (VNum c24)
            ∧ getitem dc "cobertura_2023" = Ok (VNum c23)
            ∧ getitem dc "pagina_encontrada" = Ok pag
            ∧ ¬ c24 == 0)
  ∧ (∀ dc c24 c23 pag,
       cv ruta = Ok (Some dc) →
       getitem dc "cobertura_2024" = Ok (VNum c24) →
       getitem dc "cobertura_2023" = Ok (VNum c23) →
       getitem dc "pagina_encontrada" = Ok pag →
       ¬ c24 == 0 → acotado c24 → acotado c23 →
       ∃ m, M004.extraer_metrica_m004 cv ahora ruta = Ok (Some m))
  ∧ (∀ m, M005.extraer_metrica_m005 cr ahora ruta = Ok (Some m) →
          ∃ dr a24 b24 c24 d24 e24 t24 a23 b23 c23 d23 e23 t23,
            cr ruta = Ok (Some dr)
            ∧ getitem dr "a_2024" = Ok a24 ∧ truthy a24 = true
            ∧ getitem dr "b_2024" = Ok b24
            ∧ getitem dr "c_2024" = Ok (VNum c24)
            ∧ getitem dr "d_2024" = Ok (VNum d24)
            ∧ getitem dr "e_2024" = Ok (VNum e24)
            ∧ getitem dr "total_2024" = Ok (VNum t24)
            ∧ getitem dr "a_2023" = Ok a23
            ∧ getitem dr "b_2023" = Ok b23
            ∧ getitem dr "c_2023" = Ok (VNum c23)
            ∧ getitem dr "d_2023" = Ok (VNum d23)
            ∧ getitem dr "e_2023" = Ok (VNum e23)
            ∧ getitem dr "total_2023" = Ok (VNum t23)
            ∧ ¬ t24 == 0 ∧ ¬ t23 == 0)
  ∧ (∀ dr a24 b24 c24 d24 e24 t24 a23 b23 c23 d23 e23 t23,
       cr ruta = Ok (Some dr) →
       getitem dr "a_2024" = Ok a24 → truthy a24 = true →
       getitem dr "b_2024" = Ok b24 →
       getitem dr "c_2024" = Ok (VNum c24) →
       getitem dr "d_2024" = Ok (VNum d24) →
       getitem dr "e_2024" = Ok (VNum e24) →
       getitem dr "total_2024" = Ok (VNum t24) →
       getitem dr "a_2023" = Ok a23 →
       getitem dr "b_2023" = Ok b23 →
       getitem dr "c_2023" = Ok (VNum c23) →
       getitem dr "d_2023" = Ok (VNum d23) →
       getitem dr "e_2023" = Ok (VNum e23) →
       getitem dr "total_2023" = Ok (VNum t23) →
       ¬ t24 == 0 → ¬ t23 == 0 →
       acotado c24 → acotado d24 → acotado e24 → acotado t24 →
       acotado c23 → acotado d23 → acotado e23 → acotado t23 →
       ∃ m, M005.extraer_metrica_m005 cr ahora ruta = Ok (Some m)).
Proof.
  split; [|split; [|split; [|split; [|split; [|split]]]]].
  - intros m H. apply (proj1 (OrigenFacts.m001_exito tp ahora ruta)). eauto.
  - intros * ? ? ? ? ? ? ? ? ? _ _ _ _.
    apply (proj2 (OrigenFacts.m001_exito tp ahora ruta)). eauto 20.
  - intros m H. apply OrigenFacts.extraer_metrica_m003_origen in H
      as (dp & dc & p24 & p23 & c24 & c23 & t24 & t23 & pag
          & ? & ? & ? & ? & ? & ? & ? & ? & ? & Hv & _).
    destruct Hv as (_ & _ & _ & _ & _ & _ & ? & ? & _).
    exists dp, dc, p24, (VNum p23), c24, c23, t24, (VNum t23), pag.
    repeat (split; [done|]). done.
  - intros m H. apply (proj1 (OrigenFacts.m004_exito cv ahora ruta)). eauto.
  - intros * ? ? ? ? ? _ _.
    apply (proj2 (OrigenFacts.m004_exito cv ahora ruta)). eauto 20.
  - intros m H. apply (proj1 (OrigenFacts.m005_exito cr ahora ruta)). eauto.
  - intros * ? ? ? ? ? ? ? ? ? ? ? ? ? ? ? ? _ _ _ _ _ _ _ _.
    apply (proj2 (OrigenFacts.m005_exito cr ahora ruta)).
    exists dr, a24, b24, c24, d24, e24, t24, a23, b23, c23, d23, e23, t23.
    repeat (split; [done|]). done.
Qed.

Lemma extractores_exito_witness :
  ∃ m, M001.extraer_metrica_m001 Ejemplos.tabla_provision "2024-12-31"
         "informe.pdf" = Ok (Some m).
Proof.
  refine (proj1 (proj2 (extractores_exito Ejemplos.tabla_provision
                          Ejemplos.cobertura_vencida
                          Ejemplos.calificacion_riesgo
                          "2024-12-31" "informe.pdf"))
            _ 1000 900 20000 18000 (VNum 95)
            eq_refl eq_refl eq_refl eq_refl eq_refl eq_refl _ _ _ _ _ _ _);
    by vm_compute.
Defined.

(** X12.  Where a record says its figures come from: the page is the
    [pagina_encontrada] of the parser's dictionary, for M003 that of the
    coverage parser and not that of the provision table; a risk-category
    table without a page gives page 0, where the other extractors raise
    [KeyError]; the date is the clock reading; the record carries the id of
    its metric. *)
Theorem procedencia_de_registros tp cv cr ahora ruta :
  (∀ m, M001.extraer_metrica_m001 tp ahora ruta = Ok (Some m) →
        ∃ dp, tp ruta = Ok (Some dp)
              ∧ getitem dp "pagina_encontrada" = Ok (M001.pagina_fuente m)
              ∧ M001.fecha_extraccion m = ahora ∧ M001.id m = "M001")
  ∧ (∀ m, M003.extraer_metrica_m003 tp cv ahora ruta = Ok (Some m) →
          ∃ dc, cv ruta = Ok (Some dc)
                ∧ getitem dc "pagina_encontrada" = Ok (M003.pagina_fuente m)
                ∧ M003.fecha_extraccion m = ahora ∧ M003.id m = "M003")
  ∧ (∀ m, M004.extraer_metrica_m004 cv ahora ruta = Ok (Some m) →
          ∃ dc, cv ruta = Ok (Some dc)
                ∧ getitem dc "pagina_encontrada" = Ok (M004.pagina_fuente m)
                ∧ M004.fecha_extraccion m = ahora ∧ M004.id m = "M004")
  ∧ (∀ m, M005.extraer_metrica_m005 cr ahora ruta = Ok (Some m) →
          ∃ dr, cr ruta = Ok (Some dr)
                ∧ (∀ pag, getitem dr "pagina_encontrada" = Ok pag →
                          M005.pagina_fuente m = pag)
                ∧ (lookup_key "pagina_encontrada" dr = None →
                   M005.pagina_fuente m = VNum 0)
                ∧ M005.fecha_extraccion m = ahora ∧ M005.id m = "M005").
Proof.
  split; [|split; [|split]]; intros m H.
  - apply OrigenFacts.extraer_metrica_m001_origen in H
      as (dp & p24 & p23 & c24 & c23 & pag & ? & _ & _ & _ & _ & ? & _ & <- & ? & ?).
    eauto.
  - apply OrigenFacts.extraer_metrica_m003_origen in H
      as (dp & dc & p24 & p23 & c24 & c23 & t24 & t23 & pag & _ & ? & _ & _ & _ & _
          & _ & _ & ? & _ & <- & ? & ?).
    eauto.
  - apply OrigenFacts.extraer_metrica_m004_origen in H
      as (dc & c24 & c23 & pag & ? & _ & _ & ? & _ & <- & ? & ?).
    eauto.
  - apply OrigenFacts.extraer_metrica_m005_origen in H
      as (dr & a24 & b24 & c24 & d24 & e24 & t24 & a23 & b23 & c23 & d23 & e23
          & t23 & ? & _ & _ & _ & _ & _ & _ & _ & _ & _ & _ & _ & _ & _
          & _ & _ & _ & Hp & ? & ?).
    exists dr. split; [done|]. rewrite Hp. split; [|split; [|done]].
    + intros pag Hg. by apply OrigenFacts.get_getitem.
    + intros Hn. unfold get. by rewrite Hn.
Qed.

(** X13.  The label of a returned record is the classifier's answer on the
    ratio of the current period that the record stores, for each of M001,
    M003, M004 and M005, and for M004 the text of the implication is never
    the fallback. *)
Theorem registros_consistentes :
  (∀ tp ahora ruta m,
     M001.extraer_metrica_m001 tp ahora ruta = Ok (Some m) →
     ∃ r,
       M001.ratio_2024 m = VNum r
       ∧ M001.nivel_riesgo m = M001.evaluar_nivel_riesgo r)
  ∧ (∀ tp cv ahora ruta m,
       M003.extraer_metrica_m003 tp cv ahora ruta = Ok (Some m) →
       ∃ npl,
         M003.npl_ratio_2024 m = VNum npl
         ∧ M003.calidad_cartera m = M003.evaluar_calidad_cartera npl)
  ∧ (∀ cv ahora ruta m,
       M004.extraer_metrica_m004 cv ahora ruta = Ok (Some m) →
       ∃ c,
         M004.coverage_2024 m = VNum c
         ∧ M004.nivel_cobertura m = M004.evaluar_nivel_cobertura c
         ∧ M004.obtener_implicacion (M004.nivel_cobertura m)
           ≠ VStr "Nivel desconocido")
  ∧ (∀ cr ahora ruta m,
       M005.extraer_metrica_m005 cr ahora ruta = Ok (Some m) →
       ∃ r,
         M005.ratio_riesgosa_2024 m = VNum r
         ∧ M005.nivel_riesgo m = M005.evaluar_nivel_riesgo r).
Proof.
  split; [|split; [|split]].
  - intros tp ahora ruta m H.
    apply ExtractorFacts.extraer_metrica_m001_Some in H
      as (p24 & p23 & c24 & c23 & D).
    destruct D as (? & _ & ? & _ & _ & ? & _ & ? & _ & _ & ?).
    by exists (p24 / c24).
  - intros tp cv ahora ruta m H.
    apply ExtractorFacts.extraer_metrica_m003_Some in H
      as (p24 & p23 & c24 & c23 & t24 & t23 & D).
    destruct D as (? & _ & ? & _ & ? & _ & _ & ? & _ & ? & _ & ? & _ & ? & _ & _
                   & _ & ?).
    by exists (p24 / c24 / t24).
  - intros cv ahora ruta m H.
    apply ExtractorFacts.extraer_metrica_m004_Some in H as (c24 & c23 & D).
    destruct D as (? & _ & _ & _ & Hn).
    exists c24. split; [done|]. split; [done|]. rewrite Hn.
    unfold M004.evaluar_nivel_cobertura.
    destruct (Qlt_bool _ _); [done|].
    destruct (Qle_bool 1.00 _); [done|]. by destruct (Qle_bool _ _).
  - intros cr ahora ruta m H.
    apply ExtractorFacts.extraer_metrica_m005_Some in H
      as (c24 & d24 & e24 & t24 & c23 & d23 & e23 & t23 & D).
    destruct D as (? & ? & ? & ? & _ & _ & _ & _ & ? & _ & ? & _ & _ & ?).
    by exists ((c24 + d24 + e24) / t24).
Qed.

(** X14.  [to_dict] on the record of an extractor.  It cannot fail for
    M004, whose formatted coverage is a number the extractor has printed
    already.  For M005 it divides the five categories of 2024 by the total:
    it returns when the categories A and B, which the extractor stored
    untouched, are numbers and the six figures are within the range of
    binary64, and raises [TypeError] when A is not a number, or B is not and
    A and the total are bounded numbers.  A table whose [b_2024] is [None]
    gives a record that cannot be converted, a complete one a record that
    can. *)
Theorem to_dict_de_extraidos :
  (∀ cv ahora ruta fmt m,
     M004.extraer_metrica_m004 cv ahora ruta = Ok (Some m) →
     ∃ d, M004.to_dict fmt m = Ok d)
  ∧ (∀ cr ahora ruta m,
       M005.extraer_metrica_m005 cr ahora ruta = Ok (Some m) →
       ∃ c d e t,
         M005.cartera_c_2024 m = VNum c ∧ M005.cartera_d_2024 m = VNum d
         ∧ M005.cartera_e_2024 m = VNum e ∧ M005.cartera_total_2024 m = VNum t
         ∧ (∀ a b,
              M005.cartera_a_2024 m = VNum a → M005.cartera_b_2024 m = VNum b →
              acotado a → acotado b → acotado c → acotado d → acotado e →
              acotado t →
              ∃ dic, M005.to_dict m = Ok dic)
         ∧ ((∀ a, M005.cartera_a_2024 m ≠ VNum a) →
            M005.to_dict m = Raise TypeError)
         ∧ (∀ a,
              M005.cartera_a_2024 m = VNum a → acotado a → acotado t →
              (∀ b, M005.cartera_b_2024 m ≠ VNum b) →
              M005.to_dict m = Raise TypeError))
  ∧ (∃ m,
       M005.extraer_metrica_m005 Ejemplos.calificacion_riesgo_sin_b
         "2024-12-31" "informe.pdf" = Ok (Some m)
       ∧ M005.to_dict m = Raise TypeError)
  ∧ (∃ m d,
       M005.extraer_metrica_m005 Ejemplos.calificacion_riesgo_completa
         "2024-12-31" "informe.pdf" = Ok (Some m)
       ∧ M005.to_dict m = Ok d
       ∧ M005.nivel_riesgo m = "ACEPTABLE").
Proof.
  split; [|split; [|split]].
  - intros cv ahora ruta fmt m H.
    apply ExtractorFacts.extraer_metrica_m004_Some in H as (c24 & c23 & D).
    by eapply OrigenFacts.m004_to_dict_Ok.
  - intros cr ahora ruta m H.
    apply ExtractorFacts.extraer_metrica_m005_Some in H
      as (c24 & d24 & e24 & t24 & c23 & d23 & e23 & t23 & D).
    pose proof D as (C & D' & E & T & _ & _ & _ & _ & N & _).
    exists c24, d24, e24, t24. do 4 (split; [done|]).
    destruct (OrigenFacts.m005_to_dict_casos _ _ _ _ _ _ _ _ _ D)
      as [[(a0 & b0 & Ea & Eb) Hd]|[Hn Hr]].
    + split; [by intros|]. split.
      * intros Hno. by destruct (Hno a0).
      * intros a _ _ _ Hno. by destruct (Hno b0).
    + split; [|by split].
      intros a b Ea Eb. destruct Hn. eauto.
  - eexists. split; [vm_compute; reflexivity|]. reflexivity.
  - do 2 eexists. split; [vm_compute; reflexivity|].
    split; [vm_compute; reflexivity | reflexivity].
Qed.


(** ** More on a run of the orchestrator *)

Module CorridaFacts.
Import ExtractorFacts OrigenFacts CoherenciaFacts OrquestadorFacts.

Lemma presente_lookup k (m : gmap string value) :
  presente k m = true ↔ is_Some (m !! k).
Proof. unfold presente. apply bool_decide_eq_true. Qed.

Lemma presente_false k (m : gmap string value) :
  presente k m = false ↔ m !! k = None.
Proof.
  unfold presente. rewrite bool_decide_eq_false. symmetry.
  apply eq_None_not_Some.
Qed.

(** The values the rules read, in terms of the records. *)
Lemma valor_de_m001 (ms : gmap string value) m d :
  ms !! "M001" = Some d → M001.to_dict m = Ok d →
  valor_2024 ms "M001" "provision" = Ok (M001.provision_2024 m)
  ∧ valor_2024 ms "M001" "ratio" = Ok (M001.ratio_2024 m).
Proof.
  intros Hd [= <-]. unfold valor_2024, metricas_getitem. rewrite Hd. done.
Qed.

Lemma valor_de_m003 (ms : gmap string value) m d :
  ms !! "M003" = Some d → M003.to_dict m = Ok d →
  valor_2024 ms "M003" "cartera_vencida" = Ok (M003.cartera_vencida_2024 m)
  ∧ valor_2024 ms "M003" "npl_ratio" = Ok (M003.npl_ratio_2024 m).
Proof.
  intros Hd [= <-]. unfold valor_2024, metricas_getitem. rewrite Hd. done.
Qed.

Lemma valor_de_m004 (ms : gmap string value) f m d :
  ms !! "M004" = Some d → M004.to_dict f m = Ok d →
  valor_2024 ms "M004" "coverage_ratio" = Ok (M004.coverage_2024 m).
Proof.
  intros Hd Ht. unfold M004.to_dict in Ht. inv_ok Ht. injection Ht as <-.
  unfold valor_2024, metricas_getitem. rewrite Hd. done.
Qed.

Lemma valor_de_m005 (ms : gmap string value) m d :
  ms !! "M005" = Some d → M005.to_dict m = Ok d →
  valor_2024 ms "M005" "ratio_riesgosa_cde" = Ok (M005.ratio_riesgosa_2024 m).
Proof.
  intros Hd Ht. unfold M005.to_dict in Ht. inv_ok Ht. injection Ht as <-.
  unfold valor_2024, metricas_getitem. rewrite Hd. done.
Qed.

Lemma provision_rango_valido_iff ratio :
  provision_rango_valido ratio = true ↔ 0.01 <= ratio ∧ ratio <= 0.20.
Proof.
  unfold provision_rango_valido. rewrite andb_true_iff, !Qle_bool_iff. done.
Qed.

Lemma riesgosa_mayor_que_npl_iff riesgosa npl :
  riesgosa_mayor_que_npl riesgosa npl = true ↔ npl < riesgosa.
Proof. apply Qlt_bool_iff. Qed.

(** The ids that succeed and the ids that fail are taken from the catalogue
    in its order. *)
Lemma exitos_sublist fmt ruta catalogo :
  (exitos fmt ruta catalogo).*1 `sublist_of` id_de <$> catalogo.
Proof.
  induction catalogo as [|e catalogo IH]; [done|].
  unfold exitos in *. cbn [omap list_omap fmap list_fmap].
  destruct (resultado_de fmt ruta (funcion_de e)); cbn.
  - by apply sublist_skip.
  - by apply sublist_cons.
Qed.

Lemma fallos_sublist fmt ruta catalogo :
  fallos fmt ruta catalogo `sublist_of` id_de <$> catalogo.
Proof.
  induction catalogo as [|e catalogo IH]; [done|].
  unfold fallos in *. cbn [omap list_omap fmap list_fmap].
  destruct (resultado_de fmt ruta (funcion_de e)); cbn.
  - by apply sublist_cons.
  - by apply sublist_skip.
Qed.

Lemma resultado_de_None fmt ruta (f : Extractor) :
  resultado_de fmt ruta f = None
  ↔ f ruta = Ok None ∨ raises (f ruta)
    ∨ ∃ m, f ruta = Ok (Some m) ∧ raises (to_dict fmt m).
Proof.
  unfold resultado_de, raises.
  destruct (f ruta) as [[m|]|e]; [destruct (to_dict fmt m) as [d|e] eqn:E|..].
  - split; [done|]. intros [?|[[? ?]|(? & [= <-] & ? & ?)]]; congruence.
  - split; [|done]. intros _. right. right. eauto.
  - split; [|done]. by left.
  - split; [|done]. intros _. right. left. eauto.
Qed.

Section Corrida.

Context (tp cv cr : string → result (option dict))
        (ahora : string) (fmt : Q → string) (ruta banco : string) (año : Z).

Local Abbreviation corrida :=
  (ejecutar_extractores fmt ruta (extractores tp cv cr ahora)
     (resultados_iniciales ahora ruta banco año)).

Local Abbreviation informe :=
  (con_coherencia (coherencia_esperada (metricas corrida) ∅) corrida).

Lemma corrida_m001 :
  metricas corrida !! "M001"
  = resultado_de fmt ruta (extraer_metrica_m001 tp ahora).
Proof.
  apply (metricas_de_catalogo tp cv cr ahora fmt ruta
           (resultados_iniciales ahora ruta banco año)
           ("M001", extraer_metrica_m001 tp ahora, "Provisión/Cartera Total")
           eq_refl).
  set_solver.
Qed.

Lemma corrida_m003 :
  metricas corrida !! "M003"
  = resultado_de fmt ruta (extraer_metrica_m003 tp cv ahora).
Proof.
  apply (metricas_de_catalogo tp cv cr ahora fmt ruta
           (resultados_iniciales ahora ruta banco año)
           ("M003", extraer_metrica_m003 tp cv ahora, "NPL Ratio") eq_refl).
  set_solver.
Qed.

Lemma corrida_m004 :
  metricas corrida !! "M004"
  = resultado_de fmt ruta (extraer_metrica_m004 cv ahora).
Proof.
  apply (metricas_de_catalogo tp cv cr ahora fmt ruta
           (resultados_iniciales ahora ruta banco año)
           ("M004", extraer_metrica_m004 cv ahora, "Coverage Ratio") eq_refl).
  set_solver.
Qed.

Lemma corrida_m005 :
  metricas corrida !! "M005"
  = resultado_de fmt ruta (extraer_metrica_m005 cr ahora).
Proof.
  apply (metricas_de_catalogo tp cv cr ahora fmt ruta
           (resultados_iniciales ahora ruta banco año)
           ("M005", extraer_metrica_m005 cr ahora, "Cartera Riesgosa (C+D+E)")
           eq_refl).
  set_solver.
Qed.

Lemma corrida_otras k :
  k ≠ "M001" → k ≠ "M003" → k ≠ "M004" → k ≠ "M005" →
  metricas corrida !! k = None.
Proof.
  intros H1 H3 H4 H5.
  destruct (ejecutar_extractores_lookup fmt ruta (extractores tp cv cr ahora)
              (resultados_iniciales ahora ruta banco año)
              (ids_extractores_NoDup tp cv cr ahora)) as [_ H].
  rewrite H; [done|]. rewrite ids_extractores. set_solver.
Qed.

Lemma resultado_m001_inv d :
  resultado_de fmt ruta (extraer_metrica_m001 tp ahora) = Some d
  ↔ ∃ m, M001.extraer_metrica_m001 tp ahora ruta = Ok (Some m)
         ∧ M001.to_dict m = Ok d.
Proof.
  unfold resultado_de, extraer_metrica_m001.
  destruct (M001.extraer_metrica_m001 _ _ _) as [[m|]|];
    cbn [mbind result_bind option_map to_dict].
  - destruct (M001.to_dict m) eqn:E; split.
    + intros [= <-]. eauto.
    + intros (m' & [= <-] & H). congruence.
    + done.
    + intros (m' & [= <-] & H). congruence.
  - split; [done|]. by intros (? & ? & _).
  - split; [done|]. by intros (? & ? & _).
Qed.

Lemma resultado_m003_inv d :
  resultado_de fmt ruta (extraer_metrica_m003 tp cv ahora) = Some d
  ↔ ∃ m, M003.extraer_metrica_m003 tp cv ahora ruta = Ok (Some m)
         ∧ M003.to_dict m = Ok d.
Proof.
  unfold resultado_de, extraer_metrica_m003.
  destruct (M003.extraer_metrica_m003 _ _ _ _) as [[m|]|];
    cbn [mbind result_bind option_map to_dict].
  - destruct (M003.to_dict m) eqn:E; split.
    + intros [= <-]. eauto.
    + intros (m' & [= <-] & H). congruence.
    + done.
    + intros (m' & [= <-] & H). congruence.
  - split; [done|]. by intros (? & ? & _).
  - split; [done|]. by intros (? & ? & _).
Qed.

Lemma resultado_m004_inv d :
  resultado_de fmt ruta (extraer_metrica_m004 cv ahora) = Some d
  ↔ ∃ m, M004.extraer_metrica_m004 cv ahora ruta = Ok (Some m)
         ∧ M004.to_dict fmt m = Ok d.
Proof.
  unfold resultado_de, extraer_metrica_m004.
  destruct (M004.extraer_metrica_m004 _ _ _) as [[m|]|];
    cbn [mbind result_bind option_map to_dict].
  - destruct (M004.to_dict fmt m) eqn:E; split.
    + intros [= <-]. eauto.
    + intros (m' & [= <-] & H). congruence.
    + done.
    + intros (m' & [= <-] & H). congruence.
  - split; [done|]. by intros (? & ? & _).
  - split; [done|]. by intros (? & ? & _).
Qed.

Lemma resultado_m005_inv d :
  resultado_de fmt ruta (extraer_metrica_m005 cr ahora) = Some d
  ↔ ∃ m, M005.extraer_metrica_m005 cr ahora ruta = Ok (Some m)
         ∧ M005.to_dict m = Ok d.
Proof.
  unfold resultado_de, extraer_metrica_m005.
  destruct (M005.extraer_metrica_m005 _ _ _) as [[m|]|];
    cbn [mbind result_bind option_map to_dict].
  - destruct (M005.to_dict m) eqn:E; split.
    + intros [= <-]. eauto.
    + intros (m' & [= <-] & H). congruence.
    + done.
    + intros (m' & [= <-] & H). congruence.
  - split; [done|]. by intros (? & ? & _).
  - split; [done|]. by intros (? & ? & _).
Qed.

(** Rule 3 in a run. *)
Lemma rango_en_corrida :
  (∀ m1, M001.extraer_metrica_m001 tp ahora ruta = Ok (Some m1) →
         ∃ ratio, M001.ratio_2024 m1 = VNum ratio
                  ∧ coherencia (validacion informe) !! "provision_rango_valido"
                    = Some (provision_rango_valido ratio))
  ∧ ((∀ m1, M001.extraer_metrica_m001 tp ahora ruta ≠ Ok (Some m1)) →
     coherencia (validacion informe) !! "provision_rango_valido" = None).
Proof.
  cbn [con_coherencia validacion coherencia metricas].
  destruct (coherencia_esperada_lookup (metricas corrida) ∅) as (_ & _ & ->).
  unfold anotacion_rango. split.
  - intros m1 X. destruct (m001_to_dict_Ok m1) as [d T].
    assert (E : metricas corrida !! "M001" = Some d).
    { rewrite corrida_m001. apply resultado_m001_inv. eauto. }
    rewrite (proj2 (presente_lookup _ _) (mk_is_Some _ _ E)).
    destruct (valor_de_m001 _ _ _ E T) as [_ V].
    apply extraer_metrica_m001_Some in X as (p24 & p23 & c24 & c23 & D).
    destruct D as (_ & _ & _ & _ & _ & _ & _ & F & _).
    exists (p24 / c24). split; [done|].
    unfold numero_2024. by rewrite V, F.
  - intros Hn. destruct (presente "M001" (metricas corrida)) eqn:E; [|done].
    apply presente_lookup in E as [d E]. rewrite corrida_m001 in E.
    apply resultado_m001_inv in E as (m & X & _). by destruct (Hn m).
Qed.

(** Rule 2 in a run. *)
Lemma riesgosa_en_corrida :
  (∀ m3 m5 d5,
     M003.extraer_metrica_m003 tp cv ahora ruta = Ok (Some m3) →
     M005.extraer_metrica_m005 cr ahora ruta = Ok (Some m5) →
     M005.to_dict m5 = Ok d5 →
     ∃ npl riesgosa,
       M003.npl_ratio_2024 m3 = VNum npl
       ∧ M005.ratio_riesgosa_2024 m5 = VNum riesgosa
       ∧ coherencia (validacion informe) !! "riesgosa_mayor_que_npl"
         = Some (riesgosa_mayor_que_npl riesgosa npl))
  ∧ (metricas informe !! "M003" = None ∨ metricas informe !! "M005" = None →
     coherencia (validacion informe) !! "riesgosa_mayor_que_npl" = None).
Proof.
  cbn [con_coherencia validacion coherencia metricas].
  destruct (coherencia_esperada_lookup (metricas corrida) ∅) as (_ & -> & _).
  unfold anotacion_riesgosa. split.
  - intros m3 m5 d5 X3 X5 T5. destruct (m003_to_dict_Ok m3) as [d3 T3].
    assert (E3 : metricas corrida !! "M003" = Some d3).
    { rewrite corrida_m003. apply resultado_m003_inv. eauto. }
    assert (E5 : metricas corrida !! "M005" = Some d5).
    { rewrite corrida_m005. apply resultado_m005_inv. eauto. }
    rewrite (proj2 (presente_lookup _ _) (mk_is_Some _ _ E3)).
    rewrite (proj2 (presente_lookup _ _) (mk_is_Some _ _ E5)).
    destruct (valor_de_m003 _ _ _ E3 T3) as [_ V3].
    pose proof (valor_de_m005 _ _ _ E5 T5) as V5.
    apply extraer_metrica_m003_Some in X3
      as (p24 & p23 & c24 & c23 & t24 & t23 & D3).
    apply extraer_metrica_m005_Some in X5
      as (k24 & d24 & e24 & s24 & k23 & d23 & e23 & s23 & D5).
    destruct D3 as (_ & _ & _ & _ & _ & _ & _ & _ & _ & _ & _ & _ & _ & F3 & _).
    destruct D5 as (_ & _ & _ & _ & _ & _ & _ & _ & _ & _ & F5 & _).
    do 2 eexists. split; [done|]. split; [done|].
    unfold numero_2024. by rewrite V3, V5, F3, F5.
  - intros [H|H]; apply presente_false in H; rewrite H;
      [done | by rewrite andb_false_r].
Qed.

(** The dictionary stored under an id carries that id. *)
Lemma corrida_id k d :
  metricas corrida !! k = Some d → subscript d "id" = Ok (VStr k).
Proof.
  intros H.
  destruct (decide (k = "M001")) as [->|N1];
    [|destruct (decide (k = "M003")) as [->|N3];
      [|destruct (decide (k = "M004")) as [->|N4];
        [|destruct (decide (k = "M005")) as [->|N5]]]].
  - rewrite corrida_m001 in H. apply resultado_m001_inv in H as (m & X & T).
    apply extraer_metrica_m001_origen in X
      as (? & ? & ? & ? & ? & ? & _ & _ & _ & _ & _ & _ & _ & _ & _ & Hid).
    injection T as <-. cbn. by rewrite Hid.
  - rewrite corrida_m003 in H. apply resultado_m003_inv in H as (m & X & T).
    apply extraer_metrica_m003_origen in X
      as (? & ? & ? & ? & ? & ? & ? & ? & ? & _ & _ & _ & _ & _ & _ & _ & _ & _
          & _ & _ & _ & Hid).
    injection T as <-. cbn. by rewrite Hid.
  - rewrite corrida_m004 in H. apply resultado_m004_inv in H as (m & X & T).
    apply extraer_metrica_m004_origen in X
      as (? & ? & ? & ? & _ & _ & _ & _ & _ & _ & _ & Hid).
    unfold M004.to_dict in T. inv_ok T. injection T as <-. cbn. by rewrite Hid.
  - rewrite corrida_m005 in H. apply resultado_m005_inv in H as (m & X & T).
    apply extraer_metrica_m005_origen in X
      as (? & ? & ? & ? & ? & ? & ? & ? & ? & ? & ? & ? & ? & _ & _ & _ & _ & _
          & _ & _ & _ & _ & _ & _ & _ & _ & _ & _ & _ & _ & _ & _ & Hid).
    unfold M005.to_dict in T. inv_ok T. injection T as <-. cbn. by rewrite Hid.
  - by rewrite corrida_otras in H.
Qed.

End Corrida.

(** The summary table on well-formed metrics: the rows of M001 and M005
    print, those of M003 and M004 look for a key their dictionaries do not
    have. *)
Lemma fila_m001 (ms : gmap string value) :
  (∀ d, ms !! "M001" = Some d → es_m001 d) →
  fila_resumen ms "M001" "ratio" = Ok tt.
Proof.
  intros H. unfold fila_resumen.
  destruct (presente "M001" ms) eqn:E; [|done].
  apply presente_lookup in E as [d E].
  destruct (H d E) as (m & p24 & p23 & c24 & c23 & D & T).
  destruct D as (_ & _ & _ & _ & _ & _ & _ & F & _).
  injection T as <-. unfold metricas_getitem. rewrite E. cbn. by rewrite F.
Qed.

Lemma fila_m005 (ms : gmap string value) :
  (∀ d, ms !! "M005" = Some d → es_m005 d) →
  fila_resumen ms "M005" "ratio_riesgosa_cde" = Ok tt.
Proof.
  intros H. unfold fila_resumen.
  destruct (presente "M005" ms) eqn:E; [|done].
  apply presente_lookup in E as [d E].
  destruct (H d E) as (m & c24 & d24 & e24 & t24 & c23 & d23 & e23 & t23 & D & T).
  destruct D as (_ & _ & _ & _ & _ & _ & _ & _ & _ & _ & F & _).
  unfold M005.to_dict in T. inv_ok T. injection T as <-.
  unfold metricas_getitem. rewrite E. cbn. by rewrite F.
Qed.

Lemma fila_m003 (ms : gmap string value) :
  (∀ d, ms !! "M003" = Some d → es_m003 d) →
  fila_resumen ms "M003" "npl_ratio"
  = if presente "M003" ms then Raise (KeyError "nivel_riesgo") else Ok tt.
Proof.
  intros H. unfold fila_resumen.
  destruct (presente "M003" ms) eqn:E; [|done].
  apply presente_lookup in E as [d E].
  destruct (H d E) as (m & p24 & p23 & c24 & c23 & t24 & t23 & D & T).
  injection T as <-. unfold metricas_getitem. rewrite E. done.
Qed.

Lemma fila_m004 (ms : gmap string value) :
  (∀ d, ms !! "M004" = Some d → es_m004 d) →
  fila_resumen ms "M004" "coverage_ratio"
  = if presente "M004" ms then Raise (KeyError "nivel_riesgo") else Ok tt.
Proof.
  intros H. unfold fila_resumen.
  destruct (presente "M004" ms) eqn:E; [|done].
  apply presente_lookup in E as [d E].
  destruct (H d E) as (f & m & c24 & c23 & D & T).
  unfold M004.to_dict in T. inv_ok T. injection T as <-.
  unfold metricas_getitem. rewrite E. done.
Qed.

End CorridaFacts.


(** X15.  The coverage rule on any report.  With M001, M003 or M004 missing
    it leaves the report as it is.  With the three there, the provision [p]
    and the overdue amount [cv] within the range of binary64 and a reported
    coverage [c] of at most 1000: it raises [ZeroDivisionError] when [cv] is
    zero; it records [True] when [p / cv] is within 0.0099 of [c], and
    [False] when it is 0.0101 or more away.  Nothing else of the report
    changes.  The three figures are fields of the records whose
    dictionaries the report holds: the provision of 2024 of M001, the
    overdue amount of 2024 of M003 and the coverage of 2024 of M004. *)
Theorem regla_coverage_en_informe r :
  (presente "M001" (metricas r) && presente "M003" (metricas r)
   && presente "M004" (metricas r) = false →
   regla_coverage r = Ok r)
  ∧ (∀ p cv c,
      valor_2024 (metricas r) "M001" "provision" = Ok (VNum p) →
      valor_2024 (metricas r) "M003" "cartera_vencida" = Ok (VNum cv) →
      valor_2024 (metricas r) "M004" "coverage_ratio" = Ok (VNum c) →
      acotado p → acotado cv → Qabs c <= 1000 →
      (cv == 0 → regla_coverage r = Raise ZeroDivisionError)
      ∧ (¬ cv == 0 → Qabs (p / cv - c) <= 0.0099 →
         regla_coverage r = Ok (anotar_regla "coverage_coherente" true r))
      ∧ (¬ cv == 0 → 0.0101 <= Qabs (p / cv - c) →
         regla_coverage r = Ok (anotar_regla "coverage_coherente" false r)))
  ∧ (∀ m d,
       metricas r !! "M001" = Some d → M001.to_dict m = Ok d →
       valor_2024 (metricas r) "M001" "provision" = Ok (M001.provision_2024 m))
  ∧ (∀ m d,
       metricas r !! "M003" = Some d → M003.to_dict m = Ok d →
       valor_2024 (metricas r) "M003" "cartera_vencida"
       = Ok (M003.cartera_vencida_2024 m))
  ∧ (∀ fmt m d,
       metricas r !! "M004" = Some d → M004.to_dict fmt m = Ok d →
       valor_2024 (metricas r) "M004" "coverage_ratio"
       = Ok (M004.coverage_2024 m)).
Proof.
  split; [|split; [|split; [|split]]].
  - intros H. unfold regla_coverage. by rewrite H.
  - intros p cv c V1 V3 V4 _ _ _.
    assert (P : ∀ k campo x, valor_2024 (metricas r) k campo = Ok x →
                             presente k (metricas r) = true).
    { intros k campo x H. apply CorridaFacts.presente_lookup.
      unfold valor_2024, metricas_getitem in H.
      destruct (metricas r !! k); [done|discriminate H]. }
    unfold regla_coverage.
    rewrite (P _ _ _ V1), (P _ _ _ V3), (P _ _ _ V4). cbn [andb].
    rewrite V1, V3, V4. cbn [mbind result_bind].
    split; [|split].
    + intros Hz. cbn [div]. apply Qeq_bool_iff in Hz. by rewrite Hz.
    + intros Hn Hd. rewrite (div_num p cv Hn).
      cbn [mbind result_bind sub abs lt].
      assert (E : Qlt_bool (Qabs (p / cv - c)) 0.01 = true)
        by (apply Qlt_bool_iff; lra).
      by rewrite E.
    + intros Hn Hd. rewrite (div_num p cv Hn).
      cbn [mbind result_bind sub abs lt].
      assert (E : Qlt_bool (Qabs (p / cv - c)) 0.01 = false).
      { apply not_true_iff_false. rewrite Qlt_bool_iff. lra. }
      by rewrite E.
  - intros m d Hd T. by destruct (CorridaFacts.valor_de_m001 _ _ _ Hd T).
  - intros m d Hd T. by destruct (CorridaFacts.valor_de_m003 _ _ _ Hd T).
  - intros fmt m d Hd T. by apply (CorridaFacts.valor_de_m004 _ fmt m d).
Qed.

Lemma regla_coverage_en_informe_witness :
  regla_coverage EjemploRun.resultados
  = Ok (anotar_regla "coverage_coherente" true EjemploRun.resultados).
Proof.
  refine (proj1 (proj2 (proj1 (proj2 (regla_coverage_en_informe
                                        EjemploRun.resultados))
                          1000 (1000 / 1.25) 1.25 eq_refl eq_refl eq_refl
                          _ _ _)) _ _); by vm_compute.
Defined.

(** X16.  The other two rules in the report of a run, in terms of the
    records of the extractors.  [provision_rango_valido] is recorded exactly
    when M001 returned a record; it is [True] when the ratio of 2024 that
    the record stores lies in [0.01, 0.20], both ends included, and [False]
    when the ratio is at most 0.0099 or at least 0.2001.
    [riesgosa_mayor_que_npl] is recorded when M003 and M005 are both in the
    report, and is [True] exactly when the stored risky share is strictly
    above the stored NPL ratio: equal figures are flagged. *)
Theorem reglas_riesgosa_y_rango
    (extraer_tabla_provision extraer_cobertura_vencida
       extraer_calificacion_riesgo : string → result (option dict))
    (ahora : string) (formato_pct : Q → string) (ruta_pdf banco : string)
    (año : Z) (r : Resultados) :
  extraer_todas_metricas extraer_tabla_provision extraer_cobertura_vencida
    extraer_calificacion_riesgo ahora formato_pct ruta_pdf banco año = Ok r →
  (∀ m1,
     M001.extraer_metrica_m001 extraer_tabla_provision ahora ruta_pdf
     = Ok (Some m1) →
     ∃ ratio b,
       M001.ratio_2024 m1 = VNum ratio
       ∧ coherencia (validacion r) !! "provision_rango_valido" = Some b
       ∧ (0.01 <= ratio → ratio <= 0.20 → b = true)
       ∧ (ratio <= 0.0099 ∨ 0.2001 <= ratio → b = false))
  ∧ ((∀ m1,
        M001.extraer_metrica_m001 extraer_tabla_provision ahora ruta_pdf
        ≠ Ok (Some m1)) →
     coherencia (validacion r) !! "provision_rango_valido" = None)
  ∧ (∀ m3 m5 d5,
       M003.extraer_metrica_m003 extraer_tabla_provision
         extraer_cobertura_vencida ahora ruta_pdf = Ok (Some m3) →
       M005.extraer_metrica_m005 extraer_calificacion_riesgo ahora ruta_pdf
       = Ok (Some m5) →
       M005.to_dict m5 = Ok d5 →
       ∃ npl riesgosa b,
         M003.npl_ratio_2024 m3 = VNum npl
         ∧ M005.ratio_riesgosa_2024 m5 = VNum riesgosa
         ∧ coherencia (validacion r) !! "riesgosa_mayor_que_npl" = Some b
         ∧ (b = true ↔ npl < riesgosa))
  ∧ (metricas r !! "M003" = None ∨ metricas r !! "M005" = None →
     coherencia (validacion r) !! "riesgosa_mayor_que_npl" = None).
Proof.
  intros Hr. apply ValidacionFacts.extraer_todas_metricas_inv in Hr as ->.
  destruct (CorridaFacts.rango_en_corrida extraer_tabla_provision
              extraer_cobertura_vencida extraer_calificacion_riesgo ahora
              formato_pct ruta_pdf banco año) as [R1 R2].
  destruct (CorridaFacts.riesgosa_en_corrida extraer_tabla_provision
              extraer_cobertura_vencida extraer_calificacion_riesgo ahora
              formato_pct ruta_pdf banco año) as [S1 S2].
  split; [|split; [exact R2|split; [|exact S2]]].
  - intros m1 X. destruct (R1 m1 X) as (ratio & F & L).
    exists ratio, (provision_rango_valido ratio).
    split; [done|]. split; [done|]. split.
    + intros H1 H2. by apply CorridaFacts.provision_rango_valido_iff.
    + intros H. apply not_true_iff_false.
      rewrite CorridaFacts.provision_rango_valido_iff. intros [H1 H2].
      destruct H; lra.
  - intros m3 m5 d5 X3 X5 T5. destruct (S1 m3 m5 d5 X3 X5 T5) as (npl & rg & ? & ? & ?).
    exists npl, rg, (riesgosa_mayor_que_npl rg npl).
    do 3 (split; [done|]). apply CorridaFacts.riesgosa_mayor_que_npl_iff.
Qed.

Lemma reglas_riesgosa_y_rango_witness :
  ∃ r,
    extraer_todas_metricas Ejemplos.tabla_provision Ejemplos.cobertura_vencida
      Ejemplos.calificacion_riesgo "2024-12-31" Ejemplos.formato "informe.pdf"
      "bancolombia" 2024 = Ok r
    ∧ coherencia (validacion r) !! "provision_rango_valido" = Some true.
Proof.
  destruct (extraer_todas_metricas Ejemplos.tabla_provision
              Ejemplos.cobertura_vencida Ejemplos.calificacion_riesgo
              "2024-12-31" Ejemplos.formato "informe.pdf" "bancolombia" 2024)
    as [r|e] eqn:E; [|vm_compute in E; discriminate E].
  exists r. split; [reflexivity|].
  destruct (reglas_riesgosa_y_rango _ _ _ _ _ _ _ _ r E) as (H & _).
  destruct (H _ eq_refl) as (ratio & b & F & L & Ht & _).
  injection F as <-. rewrite L. f_equal. apply Ht; by vm_compute.
Defined.

(** X17.  Whenever M003 returns a record, so does M004, with the same
    coverage figures and the same page, and that record converts: in the
    report of a run, M003 among the metrics puts M004 there too. *)
Theorem m003_implica_m004 tp cv ahora ruta m3 :
  M003.extraer_metrica_m003 tp cv ahora ruta = Ok (Some m3) →
  (∃ m4,
     M004.extraer_metrica_m004 cv ahora ruta = Ok (Some m4)
     ∧ M004.coverage_2024 m4 = M003.coverage_2024 m3
     ∧ M004.coverage_2023 m4 = M003.coverage_2023 m3
     ∧ M004.pagina_fuente m4 = M003.pagina_fuente m3
     ∧ ∀ fmt, ∃ d, M004.to_dict fmt m4 = Ok d)
  ∧ ∀ cr fmt banco año r,
      extraer_todas_metricas tp cv cr ahora fmt ruta banco año = Ok r →
      is_Some (metricas r !! "M003") ∧ is_Some (metricas r !! "M004").
Proof.
  intros X3. pose proof X3 as X3'.
  apply OrigenFacts.extraer_metrica_m003_origen in X3
    as (dp & dc & p24 & p23 & c24 & c23 & t24 & t23 & pag & Hp & Hc
        & _ & _ & _ & _ & G1 & G2 & G3 & D3 & P3 & _).
  destruct D3 as (_ & _ & F1 & F2 & _ & _ & _ & N & _).
  assert (∃ m4, M004.extraer_metrica_m004 cv ahora ruta = Ok (Some m4))
    as [m4 X4] by (apply OrigenFacts.m004_exito; by exists dc, c24, c23, pag).
  pose proof X4 as X4'.
  apply OrigenFacts.extraer_metrica_m004_origen in X4
    as (dc' & k24 & k23 & pag' & Hc' & G1' & G2' & G3' & D4 & P4 & _).
  rewrite Hc in Hc'. injection Hc' as <-.
  rewrite G1 in G1'. injection G1' as <-.
  rewrite G2 in G2'. injection G2' as <-.
  rewrite G3 in G3'. injection G3' as <-.
  split.
  - exists m4. pose proof D4 as (F1' & F2' & _).
    split; [done|]. split; [congruence|]. split; [congruence|].
    split; [congruence|]. intros fmt. by eapply OrigenFacts.m004_to_dict_Ok.
  - intros cr fmt banco año r Hr.
    apply ValidacionFacts.extraer_todas_metricas_inv in Hr as ->.
    cbn [con_coherencia metricas].
    rewrite CorridaFacts.corrida_m003, CorridaFacts.corrida_m004. split.
    + destruct (OrigenFacts.m003_to_dict_Ok m3) as [d T]. exists d.
      apply CorridaFacts.resultado_m003_inv. eauto.
    + destruct (OrigenFacts.m004_to_dict_Ok fmt m4 _ _ D4) as [d T]. exists d.
      apply CorridaFacts.resultado_m004_inv. eauto.
Qed.

Lemma m003_implica_m004_witness :
  ∃ m4,
    M004.extraer_metrica_m004 Ejemplos.cobertura_vencida "2024-12-31"
      "informe.pdf" = Ok (Some m4)
    ∧ M004.coverage_2024 m4 = VNum 1.25.
Proof.
  destruct (M003.extraer_metrica_m003 Ejemplos.tabla_provision
              Ejemplos.cobertura_vencida "2024-12-31" "informe.pdf")
    as [[m3|]|] eqn:E; try (vm_compute in E; discriminate E).
  destruct (m003_implica_m004 _ _ _ _ m3 E) as [(m4 & X4 & C & _) _].
  exists m4. split; [exact X4|]. rewrite C.
  vm_compute in E. injection E as <-. reflexivity.
Defined.

(** X18.  In the report of any run the two lists name the ids in the order
    of the catalogue, and an id is among the failures exactly when its
    extractor returned [None], raised, or returned a record that [to_dict]
    could not convert. *)
Theorem listas_en_orden
    (extraer_tabla_provision extraer_cobertura_vencida
       extraer_calificacion_riesgo : string → result (option dict))
    (ahora : string) (formato_pct : Q → string) (ruta_pdf banco : string)
    (año : Z) (r : Resultados) :
  extraer_todas_metricas extraer_tabla_provision extraer_cobertura_vencida
    extraer_calificacion_riesgo ahora formato_pct ruta_pdf banco año = Ok r →
  metricas_exitosas (validacion r)
  `sublist_of` ["M001"; "M003"; "M004"; "M005"]
  ∧ metricas_fallidas (validacion r)
    `sublist_of` ["M001"; "M003"; "M004"; "M005"]
  ∧ ∀ e,
      e ∈ extractores extraer_tabla_provision extraer_cobertura_vencida
            extraer_calificacion_riesgo ahora →
      (id_de e ∈ metricas_fallidas (validacion r)
       ↔ funcion_de e ruta_pdf = Ok None
         ∨ raises (funcion_de e ruta_pdf)
         ∨ ∃ m, funcion_de e ruta_pdf = Ok (Some m)
                ∧ raises (to_dict formato_pct m)).
Proof.
  intros Hr. apply ValidacionFacts.extraer_todas_metricas_inv in Hr as ->.
  cbn [con_coherencia validacion metricas_exitosas metricas_fallidas].
  split; [|split].
  - destruct (OrquestadorFacts.ejecutar_extractores_listas formato_pct ruta_pdf
                (extractores extraer_tabla_provision extraer_cobertura_vencida
                   extraer_calificacion_riesgo ahora)
                (resultados_iniciales ahora ruta_pdf banco año)) as [-> _].
    apply (CorridaFacts.exitos_sublist formato_pct ruta_pdf).
  - destruct (OrquestadorFacts.ejecutar_extractores_listas formato_pct ruta_pdf
                (extractores extraer_tabla_provision extraer_cobertura_vencida
                   extraer_calificacion_riesgo ahora)
                (resultados_iniciales ahora ruta_pdf banco año)) as [_ ->].
    apply (CorridaFacts.fallos_sublist formato_pct ruta_pdf).
  - intros e He. by apply ValidacionFacts.fallo_de_extractor.
Qed.

Lemma listas_en_orden_witness :
  ∃ r,
    extraer_todas_metricas Ejemplos.tabla_provision Ejemplos.cobertura_vencida
      Ejemplos.calificacion_riesgo "2024-12-31" Ejemplos.formato "informe.pdf"
      "bancolombia" 2024 = Ok r
    ∧ "M005" ∈ metricas_fallidas (validacion r).
Proof.
  destruct (extraer_todas_metricas Ejemplos.tabla_provision
              Ejemplos.cobertura_vencida Ejemplos.calificacion_riesgo
              "2024-12-31" Ejemplos.formato "informe.pdf" "bancolombia" 2024)
    as [r|e] eqn:E; [|vm_compute in E; discriminate E].
  exists r. split; [reflexivity|].
  destruct (listas_en_orden _ _ _ _ _ _ _ _ r E) as (_ & _ & H).
  apply (H ("M005",
            extraer_metrica_m005 Ejemplos.calificacion_riesgo "2024-12-31",
            "Cartera Riesgosa (C+D+E)")).
  - apply list_elem_of_In. simpl. tauto.
  - right. left. by eexists.
Defined.

(** X19.  What the report of a run says of itself: bank, year and document
    are the arguments of the call, the version is 1.0.0, the metrics are
    filed under ids of the catalogue only, and the dictionary filed under an
    id carries that id. *)
Theorem informe_identificado
    (extraer_tabla_provision extraer_cobertura_vencida
       extraer_calificacion_riesgo : string → result (option dict))
    (ahora : string) (formato_pct : Q → string) (ruta_pdf banco : string)
    (año : Z) (r : Resultados) :
  extraer_todas_metricas extraer_tabla_provision extraer_cobertura_vencida
    extraer_calificacion_riesgo ahora formato_pct ruta_pdf banco año = Ok r →
  Orquestador.banco (metadata r) = banco
  ∧ Orquestador.año (metadata r) = año
  ∧ pdf_fuente (metadata r) = ruta_pdf
  ∧ version_sistema (metadata r) = "1.0.0"
  ∧ ∀ k d,
      metricas r !! k = Some d →
      k ∈ ["M001"; "M003"; "M004"; "M005"]
      ∧ subscript d "id" = Ok (VStr k).
Proof.
  intros Hr. apply ValidacionFacts.extraer_todas_metricas_inv in Hr as ->.
  cbn [con_coherencia metadata metricas].
  destruct (OrquestadorFacts.ejecutar_extractores_marco formato_pct ruta_pdf
              (extractores extraer_tabla_provision extraer_cobertura_vencida
                 extraer_calificacion_riesgo ahora)
              (resultados_iniciales ahora ruta_pdf banco año)) as [-> _].
  do 4 (split; [done|]).
  intros k d H. split; [|by eapply CorridaFacts.corrida_id].
  destruct (decide (k ∈ ["M001"; "M003"; "M004"; "M005"])) as [|N]; [done|].
  rewrite CorridaFacts.corrida_otras in H; [done|..];
    intros ->; apply N; set_solver.
Qed.

Lemma informe_identificado_witness :
  ∃ r,
    extraer_todas_metricas Ejemplos.tabla_provision Ejemplos.cobertura_vencida
      Ejemplos.calificacion_riesgo "2024-12-31" Ejemplos.formato "informe.pdf"
      "bancolombia" 2024 = Ok r
    ∧ Orquestador.banco (metadata r) = "bancolombia"
    ∧ version_sistema (metadata r) = "1.0.0".
Proof.
  destruct (extraer_todas_metricas Ejemplos.tabla_provision
              Ejemplos.cobertura_vencida Ejemplos.calificacion_riesgo
              "2024-12-31" Ejemplos.formato "informe.pdf" "bancolombia" 2024)
    as [r|e] eqn:E; [|vm_compute in E; discriminate E].
  exists r. split; [reflexivity|].
  destruct (informe_identificado _ _ _ _ _ _ _ _ r E) as (H1 & _ & _ & H2 & _).
  split; assumption.
Defined.

(** X20.  [generar_resumen_visual] reads ['analisis']['nivel_riesgo'] in all
    four rows, a key that only the dictionaries of M001 and M005 have: on
    well-formed metrics it raises [KeyError] on that key as soon as M003 or
    M004 is there, and returns otherwise. *)
Theorem generar_resumen_visual_falla r :
  bien_formadas (metricas r) →
  generar_resumen_visual r
  = if presente "M003" (metricas r) || presente "M004" (metricas r)
    then Raise (KeyError "nivel_riesgo") else Ok tt.
Proof.
  intros (H1 & H3 & H4 & H5). unfold generar_resumen_visual.
  rewrite (CorridaFacts.fila_m001 _ H1), (CorridaFacts.fila_m003 _ H3),
    (CorridaFacts.fila_m004 _ H4), (CorridaFacts.fila_m005 _ H5).
  cbn [mbind result_bind].
  destruct (presente "M003" (metricas r)); [done|].
  by destruct (presente "M004" (metricas r)).
Qed.

Lemma generar_resumen_visual_falla_witness :
  generar_resumen_visual EjemploRun.resultados = Raise (KeyError "nivel_riesgo").
Proof.
  rewrite (generar_resumen_visual_falla EjemploRun.resultados
             (OrquestadorFacts.ejecutar_extractores_bien_formadas
                Ejemplos.tabla_provision Ejemplos.cobertura_vencida
                Ejemplos.calificacion_riesgo "2024-12-31" Ejemplos.formato
                "informe.pdf"
                (resultados_iniciales "2024-12-31" "informe.pdf" "bancolombia"
                   2024)
                eq_refl)).
  reflexivity.
Defined.

(** X21.  [validar_coherencia] takes the overdue amount as a divisor
    without a test: on a report whose M001, M003 and M004 are there, whose
    provision is within the range of binary64 and whose overdue amount is
    zero, it raises [ZeroDivisionError], and records nothing. *)
Theorem validar_coherencia_division_por_cero r p v c :
  valor_2024 (metricas r) "M001" "provision" = Ok (VNum p) → acotado p →
  valor_2024 (metricas r) "M003" "cartera_vencida" = Ok (VNum v) →
  valor_2024 (metricas r) "M004" "coverage_ratio" = Ok c →
  v == 0 →
  validar_coherencia r = Raise ZeroDivisionError.
Proof.
  intros V1 _ V3 V4 Hv.
  assert (P : ∀ k campo x, valor_2024 (metricas r) k campo = Ok x →
                           presente k (metricas r) = true).
  { intros k campo x H. apply CorridaFacts.presente_lookup.
    unfold valor_2024, metricas_getitem in H.
    destruct (metricas r !! k); [done|discriminate H]. }
  unfold validar_coherencia, regla_coverage.
  rewrite (P _ _ _ V1), (P _ _ _ V3), (P _ _ _ V4). cbn [andb].
  rewrite V1, V3, V4. cbn [mbind result_bind div].
  apply Qeq_bool_iff in Hv. by rewrite Hv.
Qed.

Lemma validar_coherencia_division_por_cero_witness :
  validar_coherencia EjemploRun.informe_vencida_nula = Raise ZeroDivisionError.
Proof.
  apply (validar_coherencia_division_por_cero EjemploRun.informe_vencida_nula
           1000 0 (VNum 1.25)); try reflexivity. by vm_compute.
Defined.

(** X22.  What the exported dictionary keeps of a record.  For M001, M002,
    M004 and M005 [to_dict] is injective: the record can be read back from
    its dictionary.  For M003 it is not: the provision and the coverage of
    the prior period are not exported. *)
Theorem to_dict_inyectiva :
  (∀ m m', M001.to_dict m = M001.to_dict m' → m = m')
  ∧ (∀ m m', M002.to_dict m = M002.to_dict m' → m = m')
  ∧ (∀ fmt m m' d,
       M004.to_dict fmt m = Ok d → M004.to_dict fmt m' = Ok d → m = m')
  ∧ (∀ m m' d, M005.to_dict m = Ok d → M005.to_dict m' = Ok d → m = m')
  ∧ (∃ m m', m ≠ m' ∧ M003.to_dict m = M003.to_dict m').
Proof.
  split; [|split; [|split; [|split]]].
  - intros [] [] H. unfold M001.to_dict in H. cbn in H. by simplify_eq.
  - intros [] [] H. unfold M002.to_dict in H. cbn in H. by simplify_eq.
  - intros fmt [] [] d H H'. unfold M004.to_dict in H, H'. cbn in H, H'.
    inv_ok H. inv_ok H'. by simplify_eq.
  - intros [] [] d H H'. unfold M005.to_dict in H, H'. cbn in H, H'.
    inv_ok H. inv_ok H'. by simplify_eq.
  - exists (M003.Build_MetricaM003 VNone VNone VNone VNone VNone VNone ""
              VNone VNone VNone VNone VNone "" "" "" VNone VNone),
           (M003.Build_MetricaM003 VNone VNone VNone VNone VNone VNone ""
              VNone (VNum 1) VNone VNone VNone "" "" "" VNone VNone).
    split; [discriminate | reflexivity].
Qed.


(** ** Letter case in the ROE extractor *)

Module MinusculasFacts.
Import Str StrFacts M002.

Lemma lower_char_idem c : lower_char (lower_char c) = lower_char c.
Proof. by destruct c as [[] [] [] [] [] [] [] []]. Qed.

Lemma es_clase_lower_char c : es_clase (lower_char c) = es_clase c.
Proof. by destruct c as [[] [] [] [] [] [] [] []]. Qed.

Lemma newline_lower_char c :
  Ascii.eqb (lower_char c) newline = Ascii.eqb c newline.
Proof. by destruct c as [[] [] [] [] [] [] [] []]. Qed.

Lemma lower_idem s : lower (lower s) = lower s.
Proof.
  induction s as [|c t IH]; [done|]. simpl. by rewrite lower_char_idem, IH.
Qed.

Lemma lower_app a b : lower (a +:+ b) = lower a +:+ lower b.
Proof.
  induction a as [|c a IH]; [done|]. rewrite append_cons. simpl.
  by rewrite IH.
Qed.

Lemma solo_clase_lower s : solo_clase (lower s) = solo_clase s.
Proof.
  induction s as [|c t IH]; [done|]. simpl. rewrite es_clase_lower_char, IH.
  destruct (es_clase c) eqn:E; [|done].
  f_equal. revert E. by destruct c as [[] [] [] [] [] [] [] []].
Qed.

Lemma extraer_numeros_de_linea_solo_clase linea :
  extraer_numeros_de_linea (solo_clase linea) = extraer_numeros_de_linea linea.
Proof.
  rewrite !M002Facts.extraer_numeros_de_linea_filter.
  unfold grupos. by rewrite StrMas.grupos_aux_solo_clase.
Qed.

Lemma extraer_numeros_de_linea_lower linea :
  extraer_numeros_de_linea (lower linea) = extraer_numeros_de_linea linea.
Proof.
  rewrite <- (extraer_numeros_de_linea_solo_clase (lower linea)),
    solo_clase_lower.
  apply extraer_numeros_de_linea_solo_clase.
Qed.

Lemma split_aux_lower s : ∀ cur,
  split_aux (lower cur) (lower s) = lower <$> split_aux cur s.
Proof.
  induction s as [|c t IH]; intros cur; [done|]. simpl.
  rewrite newline_lower_char. destruct (Ascii.eqb c newline).
  - cbn. f_equal. apply (IH EmptyString).
  - rewrite <- IH. by rewrite lower_app.
Qed.

Lemma split_lines_lower s : split_lines (lower s) = lower <$> split_lines s.
Proof. apply (split_aux_lower s EmptyString). Qed.

Lemma truthy_lower s : truthy (VStr (lower s)) = truthy (VStr s).
Proof. by destruct s. Qed.

Lemma procesar_linea_lower ahora n linea d :
  procesar_linea ahora n (lower linea) d = procesar_linea ahora n linea d.
Proof.
  unfold procesar_linea, buscar_utilidad, buscar_patrimonio.
  by rewrite lower_idem, extraer_numeros_de_linea_lower.
Qed.

Lemma recorrer_lineas_lower ahora n lineas : ∀ d,
  recorrer_lineas ahora n (lower <$> lineas) d = recorrer_lineas ahora n lineas d.
Proof.
  induction lineas as [|l ls IH]; intros d; [done|]. cbn.
  rewrite procesar_linea_lower.
  destruct (procesar_linea ahora n l d) as [[d'|m]|e]; cbn; [apply IH|done|done].
Qed.

Lemma recorrer_paginas_lower ahora paginas : ∀ n d,
  recorrer_paginas ahora n (option_map lower <$> paginas) d
  = recorrer_paginas ahora n paginas d.
Proof.
  induction paginas as [|p ps IH]; intros n d; [done|].
  rewrite fmap_cons. destruct p as [texto|];
    cbn [option_map recorrer_paginas]; [|apply IH].
  rewrite truthy_lower, split_lines_lower, recorrer_lineas_lower.
  destruct (negb (truthy (VStr texto))); [apply IH|].
  destruct (recorrer_lineas ahora n (split_lines texto) d) as [[d'|m]|e];
    cbn [mbind result_bind]; [apply IH|done|done].
Qed.

End MinusculasFacts.

(** X23.  Letter case does not matter to [extraer_metrica_m002]: the labels
    are looked for in the lower-cased line and the figures are read from
    digits and commas only, so a document and the same document in lower
    case give the same outcome, record for record. *)
Theorem m002_sin_mayusculas ahora existe paginas :
  M002.extraer_metrica_m002 ahora existe (option_map Str.lower <$> paginas)
  = M002.extraer_metrica_m002 ahora existe paginas.
Proof.
  unfold M002.extraer_metrica_m002. destruct (negb existe); [done|].
  apply MinusculasFacts.recorrer_paginas_lower.
Qed.
